(** * Marketing module: segmentation, campaign lifecycle and analytics

    A shallow embedding of the Python services of the marketing module
    ([src/models], [src/repository/json_repo.py], [src/services]) together
    with the properties stated about them.

    Conventions of the embedding.
    - Python [str] is [string], read as a sequence of code points: each
      character of a [string] is one code point below 256. [str.lower] and
      [str.strip] are what Python does on these code points (the letters
      of Latin-1 with their lower case, and the white space of
      [str.isspace], U+0085 and U+00A0 included). A text with a code
      point from 256 on has no counterpart here.
    - Python [int] is [Z]; Python [float] is an IEEE-754 binary64 value,
      [spec_float] with precision 53 and maximal exponent 1024, computed by
      the operations of [SpecFloat].
    - A [dict] is a [gmap] with [string] keys.
    - An exception is a value of [exn]; code that may raise lives in the
      monad [M].
    - Console output ([print]) is not modelled. *)

From Stdlib Require Import ZArith Bool List Ascii String Lia.
From Stdlib Require Import Floats.SpecFloat.
From stdpp Require Import base option list strings gmap fin_maps.

Local Open Scope Z_scope.

(** ** Exceptions and the exception monad *)

Inductive exn :=
| ValueError (msg : string)
| KeyError (key : string)
| TypeError
| AttributeError
| OverflowError
| ZeroDivisionError.

Inductive M (A : Type) :=
| Ok (a : A)
| Raise (e : exn).
Arguments Ok {A} a.
Arguments Raise {A} e.

#[global] Instance M_ret : MRet M := fun A a => Ok a.

#[global] Instance M_bind : MBind M := fun A B k m =>
  match m with
  | Ok a => k a
  | Raise e => Raise e
  end.

#[global] Instance M_fmap : FMap M := fun A B f m =>
  match m with
  | Ok a => Ok (f a)
  | Raise e => Raise e
  end.

Fixpoint mapM_list {A B} (f : A -> M B) (l : list A) : M (list B) :=
  match l with
  | [] => Ok []
  | a :: l' => b ← f a; bs ← mapM_list f l'; Ok (b :: bs)
  end.

(** ** Python floats *)

Module PyFloat.

Abbreviation float := spec_float.

Definition prec : Z := 53.
Definition emax : Z := 1024.

Definition fadd : float -> float -> float := SFadd prec emax.
Definition fsub : float -> float -> float := SFsub prec emax.
Definition fmul : float -> float -> float := SFmul prec emax.
Definition fdiv : float -> float -> float := SFdiv prec emax.
Definition flt : float -> float -> bool := SFltb.
Definition fle : float -> float -> bool := SFleb.
Definition feq : float -> float -> bool := SFeqb.


Definition is_inf (x : float) : bool :=
  match x with S754_infinity _ => true | _ => false end.

(** The double nearest to the integer [z] (ties to even); infinite when
    [z] is out of range. *)
Definition of_Z_raw (z : Z) : float := binary_normalize prec emax z 0 false.

(** The double nearest to the quotient [n / d] of two integers, [d > 0]. *)
Definition of_ratio_raw (n : Z) (d : positive) : float :=
  match n with
  | Z0 => S754_zero false
  | Zpos p => fdiv (S754_finite false p 0) (S754_finite false d 0)
  | Zneg p => fdiv (S754_finite true p 0) (S754_finite false d 0)
  end.

(** A decimal literal [n / 10^k] of the source text, as the parser reads
    it: the nearest double. *)
Definition lit (n : Z) (k : nat) : float :=
  of_ratio_raw n (Z.to_pos (10 ^ Z.of_nat k)).

(** [float(z)] for an [int]: [OverflowError] when [z] is too large. *)
Definition of_int (z : Z) : M float :=
  let f := of_Z_raw z in
  if is_inf f then Raise OverflowError else Ok f.

(** [a / b] on two [int]s: the correctly rounded quotient. *)
Definition int_truediv (a b : Z) : M float :=
  match b with
  | Z0 => Raise ZeroDivisionError
  | Zpos d =>
      let f := of_ratio_raw a d in
      if is_inf f then Raise OverflowError else Ok f
  | Zneg d =>
      let f := of_ratio_raw (- a) d in
      if is_inf f then Raise OverflowError else Ok f
  end.

(** [x / y] on two [float]s. *)
Definition float_truediv (x y : float) : M float :=
  match y with
  | S754_zero _ => Raise ZeroDivisionError
  | _ => Ok (fdiv x y)
  end.

(** [int(x)]: truncation towards zero. *)
Definition to_int (x : float) : M Z :=
  match x with
  | S754_zero _ => Ok 0
  | S754_infinity _ => Raise OverflowError
  | S754_nan => Raise (ValueError "cannot convert float NaN to integer")
  | S754_finite s m e =>
      let a := match e with
               | Zneg p => Z.shiftr (Zpos m) (Zpos p)
               | _ => Z.shiftl (Zpos m) e
               end in
      Ok (if s then - a else a)
  end.

(** The integer nearest to [n / d], ties to the even one ([d > 0],
    [n >= 0]). *)
Definition round_half_even (n d : Z) : Z :=
  let q := n / d in
  let r := n mod d in
  match Z.compare (2 * r) d with
  | Lt => q
  | Gt => q + 1
  | Eq => if Z.even q then q else q + 1
  end.

(** [round(x, ndigits)] for a [float] and [ndigits >= 0]: the decimal
    value of [x] is rounded exactly to [ndigits] places, ties to even, and
    the result is the double nearest to that decimal. *)
Definition round (x : float) (ndigits : nat) : float :=
  match x with
  | S754_finite s m (Zneg p) =>
      let scale := Z.pow 10 (Z.of_nat ndigits) in
      let k := round_half_even (Zpos m * scale) (Z.pow 2 (Zpos p)) in
      match k with
      | Z0 => S754_zero s
      | _ => of_ratio_raw (if s then - k else k) (Z.to_pos scale)
      end
  | _ => x
  end.

End PyFloat.

Import PyFloat.

(** ** Python numbers: [int] and [float] mixed *)

Inductive num :=
| NInt (z : Z)
| NFloat (f : float).

Module PyNum.

(** Three-way comparison of an [int] with a [float], exact as in
    CPython; [None] when the float is a NaN. *)
Definition compare_int_float (z : Z) (f : float) : option comparison :=
  match f with
  | S754_nan => None
  | S754_infinity s => Some (if s then Gt else Lt)
  | S754_zero _ => Some (Z.compare z 0)
  | S754_finite s m e =>
      let v := if s then Zneg m else Zpos m in
      match e with
      | Zneg p => Some (Z.compare (z * 2 ^ Zpos p) v)
      | _ => Some (Z.compare z (v * 2 ^ e))
      end
  end.

Definition compare (x y : num) : option comparison :=
  match x, y with
  | NInt a, NInt b => Some (Z.compare a b)
  | NInt a, NFloat g => compare_int_float a g
  | NFloat f, NInt b => CompOpp <$> compare_int_float b f
  | NFloat f, NFloat g => SFcompare f g
  end.

(** [x < y], [x > y], [x <= y], [x == y]: false as soon as a NaN is
    involved. *)
Definition ltb (x y : num) : bool :=
  match compare x y with Some Lt => true | _ => false end.
Definition gtb (x y : num) : bool :=
  match compare x y with Some Gt => true | _ => false end.
Definition eqb (x y : num) : bool :=
  match compare x y with Some Eq => true | _ => false end.

Definition to_float (x : num) : M float :=
  match x with
  | NInt z => of_int z
  | NFloat f => Ok f
  end.

(** [x + y] *)
Definition add (x y : num) : M num :=
  match x, y with
  | NInt a, NInt b => Ok (NInt (a + b))
  | _, _ => f ← to_float x; g ← to_float y; Ok (NFloat (fadd f g))
  end.

(** [x * y] *)
Definition mul (x y : num) : M num :=
  match x, y with
  | NInt a, NInt b => Ok (NInt (a * b))
  | _, _ => f ← to_float x; g ← to_float y; Ok (NFloat (fmul f g))
  end.

(** [x / y] *)
Definition truediv (x y : num) : M num :=
  match x, y with
  | NInt a, NInt b => NFloat <$> int_truediv a b
  | _, _ => f ← to_float x; g ← to_float y; NFloat <$> float_truediv f g
  end.

(** [round(x, ndigits)] with [ndigits >= 0]: an [int] is returned as it
    is. *)
Definition round (x : num) (ndigits : nat) : num :=
  match x with
  | NInt z => NInt z
  | NFloat f => NFloat (PyFloat.round f ndigits)
  end.


(** [min(x, y)]: [y] when it is smaller, otherwise [x]. *)
Definition min (x y : num) : num := if ltb y x then y else x.

(** [int(x)] *)
Definition to_int (x : num) : M Z :=
  match x with
  | NInt z => Ok z
  | NFloat f => PyFloat.to_int f
  end.

(** [sum(l)]: the accumulator starts at the [int] 0 and the items are
    added from left to right, each addition rounded (the accumulation of
    CPython up to 3.11; from 3.12 on the rounding errors of a float sum are
    compensated, which gives the same result whenever the partial sums are
    exact). *)
Fixpoint sum_from (acc : num) (l : list num) : M num :=
  match l with
  | [] => Ok acc
  | x :: l' => acc' ← add acc x; sum_from acc' l'
  end.
Definition sum (l : list num) : M num := sum_from (NInt 0) l.

End PyNum.

(** ** Python strings *)

Module PyStr.

(** The code points below 256 that [str.lower] changes: A to Z, and the
    capital letters of Latin-1, U+00C0 to U+00DE without the multiplication
    sign U+00D7. Each of them goes to the code point 32 further. *)
Definition is_upper (c : ascii) : bool :=
  let n := nat_of_ascii c in
  ((65 <=? n)%nat && (n <=? 90)%nat)
  || ((192 <=? n)%nat && (n <=? 222)%nat && negb (n =? 215)%nat).

Definition lower_char (c : ascii) : ascii :=
  if is_upper c then ascii_of_nat (nat_of_ascii c + 32) else c.

(** [s.lower()] *)
Fixpoint lower (s : string) : string :=
  match s with
  | EmptyString => EmptyString
  | String c s' => String (lower_char c) (lower s')
  end.

(** The code points below 256 that [str.strip] removes, those of
    [str.isspace]: tab, line feed, vertical tab, form feed, carriage
    return, the four separators 28..31, space, next line (U+0085) and
    no-break space (U+00A0). *)
Definition is_space (c : ascii) : bool :=
  let n := nat_of_ascii c in
  ((9 <=? n)%nat && (n <=? 13)%nat) || ((28 <=? n)%nat && (n <=? 32)%nat)
  || (n =? 133)%nat || (n =? 160)%nat.

Fixpoint lstrip (s : string) : string :=
  match s with
  | EmptyString => EmptyString
  | String c s' => if is_space c then lstrip s' else s
  end.

Fixpoint rstrip (s : string) : string :=
  match s with
  | EmptyString => EmptyString
  | String c s' =>
      match rstrip s' with
      | EmptyString => if is_space c then EmptyString else String c EmptyString
      | t => String c t
      end
  end.

(** [s.strip()] *)
Definition strip (s : string) : string := rstrip (lstrip s).

(** Truth value of a string: non-empty. *)
Definition truthy (s : string) : bool :=
  match s with EmptyString => false | _ => true end.

(** [s.replace(old, new)] for a non-empty [old]: the occurrences of [old]
    are replaced from left to right, without overlap. [skip] counts the
    characters of the current occurrence still to be dropped. *)
Fixpoint replace_from (skip : nat) (old new s : string) : string :=
  match s with
  | EmptyString => EmptyString
  | String c s' =>
      match skip with
      | S k => replace_from k old new s'
      | O =>
          if String.prefix old s
          then new +:+ replace_from (Nat.pred (String.length old)) old new s'
          else String c (replace_from O old new s')
      end
  end.

Definition replace (s old new : string) : string :=
  match old with
  | EmptyString => s
  | _ => replace_from O old new s
  end.

End PyStr.

(** ** Timestamps: [datetime], [isoformat] and [fromisoformat]

    Naive timestamps, as [datetime.now()] produces them. *)

Record datetime := mk_datetime {
  year : Z; month : Z; day : Z;
  hour : Z; minute : Z; second : Z; microsecond : Z
}.

Module DateTime.

Definition is_leap (y : Z) : bool :=
  (y mod 4 =? 0) && (negb (y mod 100 =? 0) || (y mod 400 =? 0)).

Definition days_in_month (y m : Z) : Z :=
  if m =? 2 then (if is_leap y then 29 else 28)
  else if (m =? 4) || (m =? 6) || (m =? 9) || (m =? 11) then 30
  else 31.

(** The range checks of the [datetime] constructor. *)
Definition valid (d : datetime) : bool :=
  (1 <=? year d) && (year d <=? 9999) &&
  (1 <=? month d) && (month d <=? 12) &&
  (1 <=? day d) && (day d <=? days_in_month (year d) (month d)) &&
  (0 <=? hour d) && (hour d <=? 23) &&
  (0 <=? minute d) && (minute d <=? 59) &&
  (0 <=? second d) && (second d <=? 59) &&
  (0 <=? microsecond d) && (microsecond d <=? 999999).

Definition digit (d : Z) : ascii := ascii_of_nat (48 + Z.to_nat d).

(** [n] written with exactly [w] decimal digits, as [%0wd] does for
    [0 <= n < 10^w]. *)
Fixpoint pad (w : nat) (n : Z) : string :=
  match w with
  | O => EmptyString
  | S w' => String (digit (n / 10 ^ Z.of_nat w')) (pad w' (n mod 10 ^ Z.of_nat w'))
  end.

(** [d.isoformat()] *)
Definition isoformat (d : datetime) : string :=
  pad 4 (year d) +:+ "-" +:+ pad 2 (month d) +:+ "-" +:+ pad 2 (day d) +:+
  "T" +:+ pad 2 (hour d) +:+ ":" +:+ pad 2 (minute d) +:+ ":" +:+
  pad 2 (second d) +:+
  (if microsecond d =? 0 then EmptyString
   else "." +:+ pad 6 (microsecond d)).

Definition digit_val (c : ascii) : option Z :=
  let n := nat_of_ascii c in
  if (48 <=? n)%nat && (n <=? 57)%nat then Some (Z.of_nat n - 48) else None.

(** Reads exactly [w] decimal digits. *)
Fixpoint take_digits (w : nat) (acc : Z) (s : string) : option (Z * string) :=
  match w with
  | O => Some (acc, s)
  | S w' =>
      match s with
      | EmptyString => None
      | String c s' =>
          match digit_val c with
          | Some v => take_digits w' (10 * acc + v) s'
          | None => None
          end
      end
  end.

Definition expect (c : ascii) (s : string) : option string :=
  match s with
  | String c' s' => if Ascii.eqb c c' then Some s' else None
  | EmptyString => None
  end.

Definition any_char (s : string) : option string :=
  match s with
  | String _ s' => Some s'
  | EmptyString => None
  end.

(** The optional fraction: nothing, or a dot and six digits. *)
Definition take_fraction (s : string) : option Z :=
  match s with
  | EmptyString => Some 0
  | _ =>
      s1 ← expect "." s;
      '(us, s2) ← take_digits 6 0 s1;
      match s2 with EmptyString => Some us | _ => None end
  end.

Definition parse (s : string) : option datetime :=
  '(y, s) ← take_digits 4 0 s;
  s ← expect "-" s;
  '(mo, s) ← take_digits 2 0 s;
  s ← expect "-" s;
  '(d, s) ← take_digits 2 0 s;
  s ← any_char s;
  '(h, s) ← take_digits 2 0 s;
  s ← expect ":" s;
  '(mi, s) ← take_digits 2 0 s;
  s ← expect ":" s;
  '(se, s) ← take_digits 2 0 s;
  us ← take_fraction s;
  let r := mk_datetime y mo d h mi se us in
  if valid r then Some r else None.

(** [datetime.fromisoformat(s)], on the two layouts that [isoformat]
    writes: [YYYY-MM-DD?HH:MM:SS] and the same followed by [.ffffff]
    ([?] is any one character). Every other string is reported as
    invalid; the shorter layouts and the time-zone suffix that the
    library also reads are outside this model. *)
Definition fromisoformat (s : string) : M datetime :=
  match parse s with
  | Some d => Ok d
  | None => Raise (ValueError ("Invalid isoformat string: " +:+ s))
  end.

End DateTime.

(** ** JSON documents

    A stored entity is a JSON object: a [dict] from keys to scalars or to
    one nested object of scalars. *)

Inductive atom :=
| ANone
| ABool (b : bool)
| AInt (z : Z)
| AFloat (f : float)
| AStr (s : string).

Inductive jval :=
| JAtom (a : atom)
| JDict (d : gmap string atom).

Abbreviation pydict := (gmap string atom).
Abbreviation doc := (gmap string jval).

Module Json.

(** [d[k]] *)
Definition getitem (d : doc) (k : string) : M jval :=
  match d !! k with
  | Some v => Ok v
  | None => Raise (KeyError k)
  end.

(** The typed readers below stand for the use the services make of a
    field; a document whose field has another type is rejected here. *)
Definition as_str (v : jval) : M string :=
  match v with JAtom (AStr s) => Ok s | _ => Raise TypeError end.
Definition as_int (v : jval) : M Z :=
  match v with JAtom (AInt z) => Ok z | _ => Raise TypeError end.
Definition as_bool (v : jval) : M bool :=
  match v with JAtom (ABool b) => Ok b | _ => Raise TypeError end.
Definition as_float (v : jval) : M float :=
  match v with JAtom (AFloat f) => Ok f | _ => Raise TypeError end.
Definition as_dict (v : jval) : M pydict :=
  match v with JDict d => Ok d | _ => Raise TypeError end.

Definition atom_int (a : atom) : option Z :=
  match a with AInt z => Some z | _ => None end.

Definition is_int (a : atom) : bool :=
  match a with AInt _ => true | _ => false end.

(** A nested object read as a table of integer counters. *)
Definition as_counters (v : jval) : M (gmap string Z) :=
  match v with
  | JDict d =>
      if bool_decide (map_Forall (fun (_ : string) a => is_int a = true) d)
      then Ok (omap atom_int d)
      else Raise TypeError
  | _ => Raise TypeError
  end.

Definition of_counters (m : gmap string Z) : jval := JDict (AInt <$> m).

End Json.

(** ** Domain models ([src/models]) *)

Module Customer.

Record t := mk {
  id : string;
  name : string;
  email : string;
  city : string;
  age : Z;
  spending_score : Z;
  total_spent : float;
  is_active : bool
}.

Definition to_dict (self : t) : doc :=
  <["id" := JAtom (AStr (id self))]>
  (<["name" := JAtom (AStr (name self))]>
  (<["email" := JAtom (AStr (email self))]>
  (<["city" := JAtom (AStr (city self))]>
  (<["age" := JAtom (AInt (age self))]>
  (<["spending_score" := JAtom (AInt (spending_score self))]>
  (<["total_spent" := JAtom (AFloat (total_spent self))]>
  (<["is_active" := JAtom (ABool (is_active self))]> ∅))))))).

Definition from_dict (data : doc) : M t :=
  i ← Json.getitem data "id" ≫= Json.as_str;
  n ← Json.getitem data "name" ≫= Json.as_str;
  e ← Json.getitem data "email" ≫= Json.as_str;
  c ← Json.getitem data "city" ≫= Json.as_str;
  a ← Json.getitem data "age" ≫= Json.as_int;
  sc ← Json.getitem data "spending_score" ≫= Json.as_int;
  ts ← Json.getitem data "total_spent" ≫= Json.as_float;
  ac ← Json.getitem data "is_active" ≫= Json.as_bool;
  Ok (mk i n e c a sc ts ac).

End Customer.

Module Campaign.

Record t := mk {
  id : string;
  title : string;
  content_template : string;
  target_segment_criteria : pydict;
  status : string;
  created_at : datetime;
  stats : gmap string Z
}.

(** The default of the [stats] field. *)
Definition default_stats : gmap string Z :=
  <["sent" := 0]> (<["opened" := 0]> (<["clicked" := 0]> ∅)).

Definition to_dict (self : t) : doc :=
  <["id" := JAtom (AStr (id self))]>
  (<["title" := JAtom (AStr (title self))]>
  (<["content_template" := JAtom (AStr (content_template self))]>
  (<["target_segment_criteria" := JDict (target_segment_criteria self)]>
  (<["status" := JAtom (AStr (status self))]>
  (<["created_at" := JAtom (AStr (DateTime.isoformat (created_at self)))]>
  (<["stats" := Json.of_counters (stats self)]> ∅)))))).

(** [now] is the reading of the clock, used by [__post_init__] when the
    document carries no [created_at] (or null). A field of another type
    than the dataclass declares is rejected with [TypeError]; Python would
    keep the value as it is. *)
Definition from_dict (now : datetime) (data : doc) : M t :=
  created ←
    match data !! "created_at" with
    | None | Some (JAtom ANone) => Ok now
    | Some (JAtom (AStr s)) => DateTime.fromisoformat s
    | Some _ => Raise TypeError
    end;
  i ← Json.getitem data "id" ≫= Json.as_str;
  ti ← Json.getitem data "title" ≫= Json.as_str;
  ct ← Json.getitem data "content_template" ≫= Json.as_str;
  cr ← Json.getitem data "target_segment_criteria" ≫= Json.as_dict;
  st ← match data !! "status" with
       | Some v => Json.as_str v
       | None => Ok "Draft"
       end;
  ss ← match data !! "stats" with
       | Some v => Json.as_counters v
       | None => Ok default_stats
       end;
  Ok (mk i ti ct cr st created ss).

End Campaign.

(** ** The JSON repository ([src/repository/json_repo.py])

    The backing file is either a list of documents or, when it is missing
    or does not parse, [None]. *)

Abbreviation file := (option (list doc)).

Module JsonRepository.

Definition _read_all_raw (f : file) : list doc :=
  match f with
  | Some l => l
  | None => []
  end.

Definition _write_all_raw (data : list doc) : file := Some data.

(** [item.get('id') == entity_id] *)
Definition has_id (item : doc) (entity_id : string) : bool :=
  match item !! "id" with
  | Some (JAtom (AStr s)) => String.eqb s entity_id
  | _ => false
  end.

Fixpoint first_with_id (entity_id : string) (l : list doc) : option doc :=
  match l with
  | [] => None
  | item :: l' =>
      if has_id item entity_id then Some item else first_with_id entity_id l'
  end.

(** The list with its first document of that id replaced, if any. *)
Fixpoint replace_first (entity_id : string) (d : doc) (l : list doc)
  : option (list doc) :=
  match l with
  | [] => None
  | item :: l' =>
      if has_id item entity_id then Some (d :: l')
      else cons item <$> replace_first entity_id d l'
  end.

Section Repo.
Context {T : Type} (from_dict : doc -> M T) (to_dict : T -> doc).

Definition get_all (f : file) : M (list T) :=
  mapM_list from_dict (_read_all_raw f).

Definition get_by_id (f : file) (entity_id : string) : M (option T) :=
  match first_with_id entity_id (_read_all_raw f) with
  | Some item => Some <$> from_dict item
  | None => Ok None
  end.

Definition save (f : file) (entity : T) : T * file :=
  (entity, _write_all_raw (_read_all_raw f ++ [to_dict entity])).

Definition update (f : file) (entity_id : string) (entity : T)
  : option T * file :=
  match replace_first entity_id (to_dict entity) (_read_all_raw f) with
  | Some l => (Some entity, _write_all_raw l)
  | None => (None, f)
  end.

Definition delete (f : file) (entity_id : string) : bool * file :=
  let raw := _read_all_raw f in
  let kept := List.filter (fun item => negb (has_id item entity_id)) raw in
  if (length kept <? length raw)%nat then (true, _write_all_raw kept)
  else (false, f).

Definition find (f : file) (predicate : T -> bool) : M (list T) :=
  List.filter predicate <$> get_all f.

Definition count (f : file) : nat := length (_read_all_raw f).

End Repo.

End JsonRepository.

(** ** Values of a criteria dictionary, dynamically typed *)

Module PyVal.

(** Truth value of a scalar. *)
Definition truthy (a : atom) : bool :=
  match a with
  | ANone => false
  | ABool b => b
  | AInt z => negb (z =? 0)
  | AFloat f => negb (feq f (S754_zero false))
  | AStr s => PyStr.truthy s
  end.

(** [a is not None] *)
Definition is_not_none (a : atom) : bool :=
  match a with ANone => false | _ => true end.

(** The numeric reading of a scalar; [bool] is a subtype of [int]. *)
Definition to_num (a : atom) : option num :=
  match a with
  | ABool b => Some (NInt (if b then 1 else 0))
  | AInt z => Some (NInt z)
  | AFloat f => Some (NFloat f)
  | _ => None
  end.

(** [x < a] and [x > a] for a number [x]. *)
Definition num_lt (x : num) (a : atom) : M bool :=
  match to_num a with
  | Some y => Ok (PyNum.ltb x y)
  | None => Raise TypeError
  end.
Definition num_gt (x : num) (a : atom) : M bool :=
  match to_num a with
  | Some y => Ok (PyNum.gtb x y)
  | None => Raise TypeError
  end.

(** [b != a] for a [bool] [b]. *)
Definition bool_ne (b : bool) (a : atom) : bool :=
  match to_num a with
  | Some y => negb (PyNum.eqb (NInt (if b then 1 else 0)) y)
  | None => true
  end.

(** [a.lower()] *)
Definition lower (a : atom) : M string :=
  match a with
  | AStr s => Ok (PyStr.lower s)
  | _ => Raise AttributeError
  end.

End PyVal.

(** ** Segmentation ([src/services/segmentation.py]) *)

Module SegmentationService.

Definition get_all_customers (customers_json : file) : M (list Customer.t) :=
  JsonRepository.get_all Customer.from_dict customers_json.

(** One guarded test of [_matches_criteria]: [test] tells whether the
    customer is rejected; [rest] is the remainder of the function. *)
Definition reject_if (test : M bool) (rest : M bool) : M bool :=
  r ← test; if r : bool then Ok false else rest.

(** [if key in criteria and criteria[key] is not None: ...] *)
Definition bound (criteria : pydict) (key : string) (test : atom -> M bool)
  : M bool :=
  match criteria !! key with
  | Some a => if PyVal.is_not_none a then test a else Ok false
  | None => Ok false
  end.

Definition _matches_criteria (customer : Customer.t) (criteria : pydict)
  : M bool :=
  reject_if
    match criteria !! "city" with
    | Some a =>
        if PyVal.truthy a
        then l ← PyVal.lower a;
             Ok (negb (String.eqb (PyStr.lower (Customer.city customer)) l))
        else Ok false
    | None => Ok false
    end
  (reject_if
    (bound criteria "min_age" (PyVal.num_lt (NInt (Customer.age customer))))
  (reject_if
    (bound criteria "max_age" (PyVal.num_gt (NInt (Customer.age customer))))
  (reject_if
    (bound criteria "min_spent" (PyVal.num_lt (NFloat (Customer.total_spent customer))))
  (reject_if
    (bound criteria "max_spent" (PyVal.num_gt (NFloat (Customer.total_spent customer))))
  (reject_if
    (bound criteria "min_spending_score"
       (PyVal.num_lt (NInt (Customer.spending_score customer))))
  (reject_if
    (bound criteria "max_spending_score"
       (PyVal.num_gt (NInt (Customer.spending_score customer))))
  (reject_if
    (bound criteria "is_active"
       (fun a => Ok (PyVal.bool_ne (Customer.is_active customer) a)))
  (Ok true)))))))).

(** The loop of [filter_customers]. *)
Fixpoint filter_loop (criteria : pydict) (all_customers : list Customer.t)
  : M (list Customer.t) :=
  match all_customers with
  | [] => Ok []
  | customer :: rest =>
      m ← _matches_criteria customer criteria;
      filtered ← filter_loop criteria rest;
      Ok (if m : bool then customer :: filtered else filtered)
  end.

Definition filter_customers (customers_json : file) (criteria : pydict)
  : M (list Customer.t) :=
  all_customers ← get_all_customers customers_json;
  filter_loop criteria all_customers.

(** [sum] over a sequence of [int]s. *)
Definition sum_Z (l : list Z) : Z := fold_left Z.add l 0.

(** [sum(1 for c in customers if c.is_active)] *)
Definition count_active (customers : list Customer.t) : Z :=
  sum_Z ((fun _ => 1) <$> List.filter Customer.is_active customers).

(** The result is a [dict] of numbers. *)
Definition get_segment_statistics (customers : list Customer.t)
  : M (gmap string num) :=
  match customers with
  | [] =>
      Ok (<["total_count" := NInt 0]>
         (<["active_count" := NInt 0]>
         (<["avg_age" := NInt 0]>
         (<["avg_spending_score" := NInt 0]>
         (<["total_revenue" := NInt 0]>
         (<["avg_revenue_per_customer" := NInt 0]> ∅))))))
  | _ =>
      let n := Z.of_nat (length customers) in
      let active_count := count_active customers in
      let total_age := sum_Z (Customer.age <$> customers) in
      let total_spending_score :=
        sum_Z (Customer.spending_score <$> customers) in
      total_revenue ← PyNum.sum ((fun c => NFloat (Customer.total_spent c)) <$> customers);
      avg_age ← PyNum.truediv (NInt total_age) (NInt n);
      avg_score ← PyNum.truediv (NInt total_spending_score) (NInt n);
      avg_revenue ← PyNum.truediv total_revenue (NInt n);
      Ok (<["total_count" := NInt n]>
         (<["active_count" := NInt active_count]>
         (<["avg_age" := PyNum.round avg_age 1]>
         (<["avg_spending_score" := PyNum.round avg_score 1]>
         (<["total_revenue" := PyNum.round total_revenue 2]>
         (<["avg_revenue_per_customer" := PyNum.round avg_revenue 2]> ∅))))))
  end.

End SegmentationService.

(** ** The e-mail strategy ([src/services/email_service.py])

    A provider answers [send] with a success flag. What a delivery does to
    the outside world is kept abstract in [World]. *)

Record message := mk_message {
  to_email : string;
  subject : string;
  body : string
}.

Module EmailService.
Section Providers.
Context {World : Type}.

Record IEmailProvider := { send : message -> World -> bool * World }.

(** The mock provider logs to the console and reports success. *)
Definition MockEmailProvider : IEmailProvider :=
  {| send := fun _ w => (true, w) |}.

(** The SMTP provider: the exchange with the server is [smtp]; every
    exception is caught and reported as [False]. *)
Definition SmtpEmailProvider (smtp : message -> World -> bool * World)
  : IEmailProvider :=
  {| send := smtp |}.

(** [EmailServiceFactory.create_provider] *)
Definition create_provider (smtp : message -> World -> bool * World)
  (use_real_email : bool) : IEmailProvider :=
  if use_real_email then SmtpEmailProvider smtp else MockEmailProvider.

End Providers.
Arguments IEmailProvider World : clear implicits.
End EmailService.

(** ** The state the services act on: the two backing files, the outside
    world of the e-mail provider and the record of the [send] calls made,
    oldest first. *)

Record sys (World : Type) := mk_sys {
  campaigns_json : file;
  customers_json : file;
  world : World;
  outbox : list message
}.
Arguments mk_sys {World}.
Arguments campaigns_json {World}.
Arguments customers_json {World}.
Arguments world {World}.
Arguments outbox {World}.

(** ** Campaign management ([src/services/campaign.py]) *)

Module CampaignService.

Definition not_found (campaign_id : string) : exn :=
  ValueError ("Campaign with ID " +:+ campaign_id +:+ " not found").

Definition already_sent : exn := ValueError "Campaign has already been sent".

Definition with_campaigns {World} (st : sys World) (f : file) : sys World :=
  mk_sys f (customers_json st) (world st) (outbox st).

(** [uuid] is the identifier [uuid.uuid4()] returns and [now] the reading
    of the clock. *)
Definition create_campaign {World} (uuid : string) (now : datetime)
    (title content_template : string) (target_segment_criteria : pydict)
    (st : sys World) : M Campaign.t * sys World :=
  if negb (PyStr.truthy title) || negb (PyStr.truthy (PyStr.strip title))
  then (Raise (ValueError "Campaign title cannot be empty"), st)
  else if negb (PyStr.truthy content_template)
          || negb (PyStr.truthy (PyStr.strip content_template))
  then (Raise (ValueError "Campaign content template cannot be empty"), st)
  else if bool_decide (target_segment_criteria = ∅)
  then (Raise (ValueError "Target segment criteria cannot be empty"), st)
  else
    let campaign :=
      Campaign.mk uuid (PyStr.strip title) (PyStr.strip content_template)
        target_segment_criteria "Draft" now
        (<["sent" := 0]> (<["opened" := 0]> (<["clicked" := 0]> ∅))) in
    let '(_, f) :=
      JsonRepository.save Campaign.to_dict (campaigns_json st) campaign in
    (Ok campaign, with_campaigns st f).

Definition _personalize_content (template : string) (customer : Customer.t)
  : string :=
  let personalized := template in
  let personalized :=
    PyStr.replace personalized "{name}" (Customer.name customer) in
  let personalized :=
    PyStr.replace personalized "{email}" (Customer.email customer) in
  let personalized :=
    PyStr.replace personalized "{city}" (Customer.city customer) in
  personalized.

Definition message_for (campaign : Campaign.t) (customer : Customer.t)
  : message :=
  {| to_email := Customer.email customer;
     subject := Campaign.title campaign;
     body := _personalize_content (Campaign.content_template campaign)
               customer |}.

(** The sending loop: the counters, the world and the record of calls
    after the remaining [targets]. *)
Fixpoint send_loop {World} (provider : EmailService.IEmailProvider World)
    (campaign : Campaign.t) (targets : list Customer.t)
    (emails_sent emails_failed : Z) (w : World) (log : list message)
  : Z * Z * World * list message :=
  match targets with
  | [] => (emails_sent, emails_failed, w, log)
  | customer :: rest =>
      let msg := message_for campaign customer in
      let '(success, w') := EmailService.send provider msg w in
      if success : bool
      then send_loop provider campaign rest (emails_sent + 1) emails_failed
             w' (log ++ [msg])
      else send_loop provider campaign rest emails_sent (emails_failed + 1)
             w' (log ++ [msg])
  end.

Definition launched (campaign : Campaign.t) (emails_sent : Z) : Campaign.t :=
  Campaign.mk (Campaign.id campaign) (Campaign.title campaign)
    (Campaign.content_template campaign)
    (Campaign.target_segment_criteria campaign)
    "Sent" (Campaign.created_at campaign)
    (<["sent" := emails_sent]> (Campaign.stats campaign)).

Definition launch_campaign {World}
    (smtp : message -> World -> bool * World) (now : datetime)
    (campaign_id : string) (use_real_email : bool) (st : sys World)
  : M pydict * sys World :=
  match JsonRepository.get_by_id (Campaign.from_dict now)
          (campaigns_json st) campaign_id with
  | Raise e => (Raise e, st)
  | Ok None => (Raise (not_found campaign_id), st)
  | Ok (Some campaign) =>
      if String.eqb (Campaign.status campaign) "Sent"
      then (Raise already_sent, st)
      else
        match SegmentationService.filter_customers (customers_json st)
                (Campaign.target_segment_criteria campaign) with
        | Raise e => (Raise e, st)
        | Ok [] =>
            (Ok (<["success" := ABool false]>
                (<["message" := AStr "No customers match target criteria"]>
                (<["emails_sent" := AInt 0]>
                (<["target_audience_size" := AInt 0]> ∅)))), st)
        | Ok target_customers =>
            let email_provider :=
              EmailService.create_provider smtp use_real_email in
            let '(emails_sent, emails_failed, w, log) :=
              send_loop email_provider campaign target_customers 0 0
                (world st) (outbox st) in
            let campaign := launched campaign emails_sent in
            let '(_, f) :=
              JsonRepository.update Campaign.to_dict (campaigns_json st)
                (Campaign.id campaign) campaign in
            (Ok (<["success" := ABool true]>
                (<["message" := AStr "Campaign launched successfully"]>
                (<["emails_sent" := AInt emails_sent]>
                (<["emails_failed" := AInt emails_failed]>
                (<["target_audience_size" :=
                     AInt (Z.of_nat (length target_customers))]>
                (<["campaign_id" := AStr (Campaign.id campaign)]> ∅)))))),
             mk_sys f (customers_json st) w log)
        end
  end.

Definition get_all_campaigns (now : datetime) (campaigns : file)
  : M (list Campaign.t) :=
  JsonRepository.get_all (Campaign.from_dict now) campaigns.

Definition get_campaign_by_id (now : datetime) (campaigns : file)
    (campaign_id : string) : M (option Campaign.t) :=
  JsonRepository.get_by_id (Campaign.from_dict now) campaigns campaign_id.

Definition get_draft_campaigns (now : datetime) (campaigns : file)
  : M (list Campaign.t) :=
  JsonRepository.find (Campaign.from_dict now) campaigns
    (fun c => String.eqb (Campaign.status c) "Draft").

Definition get_sent_campaigns (now : datetime) (campaigns : file)
  : M (list Campaign.t) :=
  JsonRepository.find (Campaign.from_dict now) campaigns
    (fun c => String.eqb (Campaign.status c) "Sent").

End CampaignService.

(** ** Analytics ([src/services/analytics.py]) *)

Module AnalyticsService.

Definition not_found (campaign_id : string) : exn :=
  ValueError ("Campaign with ID " +:+ campaign_id +:+ " not found.").

(** [stats.get(key, 0)] *)
Definition stat (stats : gmap string Z) (key : string) : Z :=
  default 0 (stats !! key).

Definition simulated (campaign : Campaign.t) (emails_opened emails_clicked : Z)
  : Campaign.t :=
  Campaign.mk (Campaign.id campaign) (Campaign.title campaign)
    (Campaign.content_template campaign)
    (Campaign.target_segment_criteria campaign)
    (Campaign.status campaign) (Campaign.created_at campaign)
    (<["clicked" := emails_clicked]>
       (<["opened" := emails_opened]> (Campaign.stats campaign))).

(** [open_rate] and [click_rate_of_opens] are the values the two calls
    [random.uniform(0.25, 0.65)] and [random.uniform(0.05, 0.20)] return;
    they are drawn only when the simulation runs. *)
Definition simulate_engagement (now : datetime) (campaign_id : string)
    (open_rate click_rate_of_opens : float) (campaigns : file)
  : M Campaign.t * file :=
  match JsonRepository.get_by_id (Campaign.from_dict now)
          campaigns campaign_id with
  | Raise e => (Raise e, campaigns)
  | Ok None => (Raise (not_found campaign_id), campaigns)
  | Ok (Some campaign) =>
      let stats := Campaign.stats campaign in
      if (stat stats "sent" >? 0) && (stat stats "opened" =? 0)
         && (stat stats "clicked" =? 0)
      then
        let emails_sent := stat stats "sent" in
        match
          (opened_f ← PyNum.mul (NInt emails_sent) (NFloat open_rate);
           emails_opened ← PyNum.to_int opened_f;
           clicked_f ←
             PyNum.mul (NInt emails_opened) (NFloat click_rate_of_opens);
           emails_clicked ← PyNum.to_int clicked_f;
           Ok (emails_opened, emails_clicked))
        with
        | Raise e => (Raise e, campaigns)
        | Ok (emails_opened, emails_clicked) =>
            let campaign := simulated campaign emails_opened emails_clicked in
            let '(_, f) :=
              JsonRepository.update Campaign.to_dict campaigns campaign_id
                campaign in
            (Ok campaign, f)
        end
      else (Ok campaign, campaigns)
  end.

(** The numeric part of the report. *)
Record metrics := mk_metrics {
  m_sent : Z; m_opened : Z; m_clicked : Z; m_failed : Z;
  delivery_rate : num; open_rate : num; click_rate : num;
  click_through_rate : num; roi_prediction : num; engagement_score : num
}.

(** [(a / b * 100) if b > 0 else 0] *)
Definition percentage (a b : Z) : M num :=
  if b >? 0
  then q ← PyNum.truediv (NInt a) (NInt b); PyNum.mul q (NInt 100)
  else Ok (NInt 0).

Definition compute_metrics (stats : gmap string Z) : M metrics :=
  let sent := stat stats "sent" in
  let opened := stat stats "opened" in
  let clicked := stat stats "clicked" in
  let failed := stat stats "failed" in
  let total_attempted := sent + failed in
  delivery_rate ← percentage sent total_attempted;
  open_rate ← percentage opened sent;
  click_rate ← percentage clicked opened;
  click_through_rate ← percentage clicked sent;
  roi_prediction ← PyNum.mul (NInt clicked) (NFloat (lit 150 1));
  weighted_open ← PyNum.mul open_rate (NFloat (lit 6 1));
  weighted_click ← PyNum.mul click_through_rate (NFloat (lit 40 1));
  total ← PyNum.add weighted_open weighted_click;
  let engagement_score := PyNum.min (NInt 100) total in
  Ok (mk_metrics sent opened clicked failed
        (PyNum.round delivery_rate 2) (PyNum.round open_rate 2)
        (PyNum.round click_rate 2) (PyNum.round click_through_rate 2)
        (PyNum.round roi_prediction 2) (PyNum.round engagement_score 1)).

(** The report: the metrics and the campaign's title, status and
    criteria. *)
Definition get_campaign_performance (now : datetime) (campaign_id : string)
    (campaigns : file) : M (metrics * string * string * pydict) :=
  match JsonRepository.get_by_id (Campaign.from_dict now)
          campaigns campaign_id with
  | Raise e => Raise e
  | Ok None => Raise (not_found campaign_id)
  | Ok (Some campaign) =>
      m ← compute_metrics (Campaign.stats campaign);
      Ok (m, Campaign.title campaign, Campaign.status campaign,
          Campaign.target_segment_criteria campaign)
  end.

(** [int(sent * ratio)] *)
Definition share (sent : Z) (ratio : float) : M Z :=
  f ← PyNum.mul (NInt sent) (NFloat ratio); PyNum.to_int f.

(** The result is a [dict], given by its entries in insertion order; the
    key of the first case is whatever value the criteria hold for
    ['city']. *)
Definition get_geographic_distribution (now : datetime) (campaign_id : string)
    (campaigns : file) : M (list (atom * Z)) :=
  match JsonRepository.get_by_id (Campaign.from_dict now)
          campaigns campaign_id with
  | Raise e => Raise e
  | Ok None => Raise (not_found campaign_id)
  | Ok (Some campaign) =>
      match Campaign.target_segment_criteria campaign !! "city" with
      | Some city => Ok [(city, stat (Campaign.stats campaign) "sent")]
      | None =>
          let sent := stat (Campaign.stats campaign) "sent" in
          if sent =? 0 then Ok []
          else
            istanbul ← share sent (lit 40 2);
            ankara ← share sent (lit 25 2);
            izmir ← share sent (lit 15 2);
            istanbul' ← share sent (lit 40 2);
            ankara' ← share sent (lit 25 2);
            izmir' ← share sent (lit 15 2);
            Ok [(AStr "Istanbul", istanbul); (AStr "Ankara", ankara);
                (AStr "Izmir", izmir);
                (AStr "Others", sent - istanbul' - ankara' - izmir')]
      end
  end.

End AnalyticsService.

(** * Specification-level definitions

    The definitions of this module follow the words of the specification;
    the theorems compare them with the code above. *)

Module Spec.

(** The message a customer is sent: to the customer's address, under the
    title of the campaign, with the template in which [{name}], then
    [{email}], then [{city}] have been replaced by the customer's. *)
Definition personalized (template : string) (customer : Customer.t) : string :=
  PyStr.replace
    (PyStr.replace
       (PyStr.replace template "{name}" (Customer.name customer))
       "{email}" (Customer.email customer))
    "{city}" (Customer.city customer).

Definition mail (campaign : Campaign.t) (customer : Customer.t) : message :=
  {| to_email := Customer.email customer;
     subject := Campaign.title campaign;
     body := personalized (Campaign.content_template campaign) customer |}.

(** The outcomes of sending [msgs] one after the other, and the world
    afterwards. *)
Fixpoint deliveries {World} (provider : EmailService.IEmailProvider World)
    (msgs : list message) (w : World) : list bool * World :=
  match msgs with
  | [] => ([], w)
  | msg :: rest =>
      let '(ok, w1) := EmailService.send provider msg w in
      let '(oks, w2) := deliveries provider rest w1 in
      (ok :: oks, w2)
  end.

Definition successes (oks : list bool) : Z :=
  Z.of_nat (length (List.filter (fun b => b) oks)).

Definition failures (oks : list bool) : Z :=
  Z.of_nat (length (List.filter negb oks)).

(** *** Campaign creation *)

(** White space: the code points U+0009 to U+000D, U+001C to U+0020, U+0085
    and U+00A0. *)
Definition white_space (c : ascii) : bool :=
  bool_decide (nat_of_ascii c
               ∈ [9; 10; 11; 12; 13; 28; 29; 30; 31; 32; 133; 160]%nat).

(** A text that is empty once the white space around it is trimmed: it has
    nothing but white space. *)
Fixpoint blank (s : string) : bool :=
  match s with
  | EmptyString => true
  | String c s' => white_space c && blank s'
  end.

(** The three counters of a new campaign. *)
Definition zero_stats : gmap string Z :=
  {["sent" := 0; "opened" := 0; "clicked" := 0]}.

(** What creation does: the three validations, then the new draft appended
    to the campaigns file. *)
Definition create_campaign {World} (uuid : string) (now : datetime)
    (title content_template : string) (criteria : pydict) (st : sys World)
  : M Campaign.t * sys World :=
  let campaign :=
    Campaign.mk uuid (PyStr.strip title) (PyStr.strip content_template)
      criteria "Draft" now zero_stats in
  if blank title
  then (Raise (ValueError "Campaign title cannot be empty"), st)
  else if blank content_template
  then (Raise (ValueError "Campaign content template cannot be empty"), st)
  else if bool_decide (criteria = ∅)
  then (Raise (ValueError "Target segment criteria cannot be empty"), st)
  else (Ok campaign,
        mk_sys (Some (JsonRepository._read_all_raw (campaigns_json st)
                      ++ [Campaign.to_dict campaign]))
          (customers_json st) (world st) (outbox st)).

(** *** Performance metrics *)

(** A number as a float. *)
Definition value (x : num) : float :=
  match x with
  | NInt z => of_Z_raw z
  | NFloat f => f
  end.

(** [a / b × 100]; 0 when the denominator is zero. *)
Definition percent (a b : Z) : num :=
  if b =? 0 then NInt 0
  else NFloat (fmul (of_ratio_raw a (Z.to_pos b)) (of_Z_raw 100)).

(** The integer nearest to [n / d] for [d > 0]: the integer part of
    [n / d + 1/2], or the even neighbour when [n / d] lies half way between
    two integers. *)
Definition nearest (n d : Z) : Z :=
  let q := (2 * n + d) / (2 * d) in
  if ((2 * n + d) mod (2 * d) =? 0) && Z.odd q then q - 1 else q.

(** A float rounded to [digits] decimals: the decimal with that many
    places nearest to its value, taken as a float again. A float of
    exponent 0 or more is an integer and its own rounding. *)
Definition to_decimals (x : float) (digits : nat) : float :=
  match x with
  | S754_finite s m (Zneg p) =>
      let scale := 10 ^ Z.of_nat digits in
      let k := nearest (Zpos m * scale) (2 ^ Zpos p) in
      if k =? 0 then S754_zero s
      else of_ratio_raw (if s then - k else k) (Z.to_pos scale)
  | _ => x
  end.

(** A number rounded to [digits] decimals; an integer is left as it is. *)
Definition rounded (x : num) (digits : nat) : num :=
  match x with
  | NInt z => NInt z
  | NFloat f => NFloat (to_decimals f digits)
  end.

(** The smaller of the integer 100 and [x]. *)
Definition capped (x : num) : num :=
  if PyNum.ltb x (NInt 100) then x else NInt 100.

Definition performance (sent opened clicked failed : Z)
  : AnalyticsService.metrics :=
  let delivery_rate := percent sent (sent + failed) in
  let open_rate := percent opened sent in
  let click_rate := percent clicked opened in
  let click_through_rate := percent clicked sent in
  let roi_prediction := NFloat (fmul (of_Z_raw clicked) (lit 150 1)) in
  let engagement_score :=
    capped (NFloat (fadd (fmul (value open_rate) (lit 6 1))
                         (fmul (value click_through_rate) (lit 40 1)))) in
  AnalyticsService.mk_metrics sent opened clicked failed
    (rounded delivery_rate 2) (rounded open_rate 2)
    (rounded click_rate 2) (rounded click_through_rate 2)
    (rounded roi_prediction 2) (rounded engagement_score 1).

(** Counters as they are in practice: not negative, below [2^53]. *)
Definition counter (z : Z) : Prop := 0 <= z < 2 ^ 53.

(** *** Engagement simulation *)

(** The integer part of a float that is not negative. *)
Definition floor (x : float) : Z :=
  match x with
  | S754_finite false m (Zneg p) => Zpos m / 2 ^ Zpos p
  | S754_finite false m e => Zpos m * 2 ^ e
  | _ => 0
  end.

(** [floor(n × r)] *)
Definition floor_of_product (n : Z) (r : float) : Z :=
  floor (fmul (of_Z_raw n) r).

(** A float drawn from [[lo, hi]]. *)
Definition drawn_from (lo hi r : float) : bool :=
  valid_binary prec emax r && fle lo r && fle r hi.

(** *** Segment statistics *)

Definition total (f : Customer.t -> Z) (customers : list Customer.t) : Z :=
  foldr (fun c acc => f c + acc) 0 customers.

(** The amounts added up from left to right. *)
Definition revenue (customers : list Customer.t) : float :=
  fold_left fadd (Customer.total_spent <$> customers) (S754_zero false).

(** The mean [total / n] of integers. *)
Definition mean (total n : Z) : num := NFloat (of_ratio_raw total (Z.to_pos n)).

Definition all_zero : gmap string num :=
  {["total_count" := NInt 0; "active_count" := NInt 0; "avg_age" := NInt 0;
    "avg_spending_score" := NInt 0; "total_revenue" := NInt 0;
    "avg_revenue_per_customer" := NInt 0]}.

(** The aggregate, with the average revenue taken from [total_revenue]:
    from the rounded value the aggregate reports when [rounded_first],
    from the sum itself otherwise. *)
Definition statistics (rounded_first : bool) (customers : list Customer.t)
  : gmap string num :=
  match customers with
  | [] => all_zero
  | _ =>
      let n := Z.of_nat (length customers) in
      let total_revenue := PyNum.round (NFloat (revenue customers)) 2 in
      let dividend :=
        if rounded_first then value total_revenue else revenue customers in
      {["total_count" := NInt n;
        "active_count" :=
          NInt (Z.of_nat (length (List.filter Customer.is_active customers)));
        "avg_age" := PyNum.round (mean (total Customer.age customers) n) 1;
        "avg_spending_score" :=
          PyNum.round (mean (total Customer.spending_score customers) n) 1;
        "total_revenue" := total_revenue;
        "avg_revenue_per_customer" :=
          PyNum.round (NFloat (fdiv dividend (of_Z_raw n))) 2]}
  end.

(** *** Segment criteria *)



















End Spec.

(** * Notions used to state the further properties *)

(** A campaign with one field replaced. *)
Definition with_status (c : Campaign.t) (status : string) : Campaign.t :=
  Campaign.mk (Campaign.id c) (Campaign.title c) (Campaign.content_template c)
    (Campaign.target_segment_criteria c) status (Campaign.created_at c)
    (Campaign.stats c).
Definition with_created_at (c : Campaign.t) (created_at : datetime)
  : Campaign.t :=
  Campaign.mk (Campaign.id c) (Campaign.title c) (Campaign.content_template c)
    (Campaign.target_segment_criteria c) (Campaign.status c) created_at
    (Campaign.stats c).
Definition with_stats (c : Campaign.t) (stats : gmap string Z) : Campaign.t :=
  Campaign.mk (Campaign.id c) (Campaign.title c) (Campaign.content_template c)
    (Campaign.target_segment_criteria c) (Campaign.status c)
    (Campaign.created_at c) stats.

(** The character does not occur in the text. *)
Fixpoint without (c : ascii) (s : string) : bool :=
  match s with
  | EmptyString => true
  | String c' s' => negb (Ascii.eqb c c') && without c s'
  end.

(** What a shifted mantissa [mrs] knows of the mantissa [M] it came from,
    [n] binary places to the left: its integer part, and whether anything
    was lost. *)
Definition shifted (M n : Z) (mrs : shr_record) : Prop :=
  0 <= shr_m mrs /\
  shr_m mrs * 2 ^ n <= M < (shr_m mrs + 1) * 2 ^ n /\
  (M = shr_m mrs * 2 ^ n <-> shr_r mrs = false /\ shr_s mrs = false).

(** * Sample data used to exercise the statements *)

Module Example.

Definition now : datetime := mk_datetime 2025 1 15 10 30 0 0.

Definition alice : Customer.t :=
  Customer.mk "c1" "Alice" "alice@example.com" "Ankara" 30 70 (lit 12050 2) true.
Definition bob : Customer.t :=
  Customer.mk "c2" "Bob" "bob@example.com" "ANKARA" 41 20 (lit 94 3) false.
Definition carol : Customer.t :=
  Customer.mk "c3" "Carol" "carol@example.com" "Izmir" 25 90 (S754_zero false) true.

Definition customers : list Customer.t := [alice; bob; carol].

Definition customers_file : file := Some (Customer.to_dict <$> customers).

Definition in_ankara : pydict := {["city" := AStr "Ankara"]}.
Definition in_nowhere : pydict := {["city" := AStr "Nowhere"]}.

Definition draft : Campaign.t :=
  Campaign.mk "k1" "Spring sale" "Dear {name} of {city}" in_ankara "Draft" now
    Campaign.default_stats.
Definition unmatched : Campaign.t :=
  Campaign.mk "k2" "Nobody home" "Dear {name}" in_nowhere "Draft" now
    Campaign.default_stats.
Definition delivered : Campaign.t :=
  Campaign.mk "k3" "Winter sale" "Dear {name}" in_ankara "Sent" now
    (<["sent" := 100]> (<["opened" := 40]> (<["clicked" := 8]> ∅))).
Definition fresh : Campaign.t :=
  Campaign.mk "k4" "Autumn sale" "Dear {name}" in_ankara "Sent" now
    (<["sent" := 100]> (<["opened" := 0]> (<["clicked" := 0]> ∅))).

Definition campaigns_file : file :=
  Some (Campaign.to_dict <$> [draft; unmatched; delivered; fresh]).

(** A campaign that went to everybody who spent something. *)
Definition spenders : pydict := {["min_spent" := AInt 1]}.
Definition untargeted : Campaign.t :=
  Campaign.mk "k5" "Loyalty" "Thank you" spenders "Sent" now
    (<["sent" := 200]> (<["opened" := 0]> (<["clicked" := 0]> ∅))).
Definition more_campaigns : file :=
  Some (Campaign.to_dict <$> [draft; untargeted; delivered]).

(** An SMTP server that refuses every message. *)
Definition refusing_smtp (_ : message) (w : unit) : bool * unit := (false, w).

Definition system : sys unit := mk_sys campaigns_file customers_file tt [].



(** A title made of a no-break space (U+00A0) and a space. *)
Definition no_break_title : string := String (ascii_of_nat 160) " ".

(** Two campaigns whose rates do not come out round: 2 of 3 opened, and 3
    of 7 opened with 2 failures. *)
Definition thirds : Campaign.t :=
  Campaign.mk "k6" "Thirds" "Dear {name}" in_ankara "Sent" now
    (<["sent" := 3]> (<["opened" := 2]> (<["clicked" := 1]> ∅))).
Definition sevenths : Campaign.t :=
  Campaign.mk "k7" "Sevenths" "Dear {name}" in_ankara "Sent" now
    (<["sent" := 7]> (<["opened" := 3]> (<["clicked" := 1]>
    (<["failed" := 2]> ∅)))).
Definition rated_campaigns : file :=
  Some (Campaign.to_dict <$> [thirds; sevenths]).

End Example.

(** * Properties *)

(** ** The exception monad *)

Lemma bind_Ok {A B} (a : A) (k : A -> M B) : (Ok a ≫= k) = k a.
Proof. reflexivity. Qed.

Lemma fmap_Ok {A B} (f : A -> B) (a : A) : f <$> Ok a = Ok (f a).
Proof. reflexivity. Qed.

(** ** Serialisation round trips *)

Section RoundTrip.
Import DateTime.

Lemma append_String c s t : String c s +:+ t = String c (s +:+ t).
Proof. reflexivity. Qed.

Lemma digit_val_digit d : 0 <= d <= 9 -> digit_val (digit d) = Some d.
Proof.
  intros H.
  assert (Hc : d = 0 \/ d = 1 \/ d = 2 \/ d = 3 \/ d = 4 \/ d = 5 \/ d = 6
               \/ d = 7 \/ d = 8 \/ d = 9) by lia.
  repeat (destruct Hc as [-> | Hc]; [reflexivity |]).
  subst d. reflexivity.
Qed.

Lemma take_digits_pad w n acc rest :
  0 <= n < 10 ^ Z.of_nat w ->
  take_digits w acc (pad w n +:+ rest) = Some (acc * 10 ^ Z.of_nat w + n, rest).
Proof.
  revert n acc. induction w as [| w IH]; intros n acc Hn.
  - simpl in *. f_equal. f_equal. lia.
  - cbn [pad take_digits]. rewrite append_String.
    assert (Hp : 0 < 10 ^ Z.of_nat w) by (apply Z.pow_pos_nonneg; lia).
    assert (Hs : 10 ^ Z.of_nat (S w) = 10 * 10 ^ Z.of_nat w).
    { rewrite Nat2Z.inj_succ, Z.pow_succ_r by lia. reflexivity. }
    rewrite digit_val_digit.
    + rewrite IH by (apply Z.mod_pos_bound; lia).
      f_equal. f_equal. rewrite Hs.
      pose proof (Z.div_mod n (10 ^ Z.of_nat w)). lia.
    + split; [apply Z.div_pos; lia |].
      assert (n / 10 ^ Z.of_nat w < 10); [| lia].
      apply Z.div_lt_upper_bound; lia.
Qed.

Lemma valid_bounds d :
  valid d = true ->
  0 <= year d < 10 ^ 4 /\ 0 <= month d < 10 ^ 2 /\ 0 <= day d < 10 ^ 2 /\
  0 <= hour d < 10 ^ 2 /\ 0 <= minute d < 10 ^ 2 /\ 0 <= second d < 10 ^ 2 /\
  0 <= microsecond d < 10 ^ 6.
Proof.
  unfold valid. rewrite !andb_true_iff, !Z.leb_le.
  intros H. decompose [and] H. clear H.
  assert (days_in_month (year d) (month d) <= 31).
  { unfold days_in_month. repeat case_match; lia. }
  lia.
Qed.

Lemma append_Empty t : EmptyString +:+ t = t.
Proof. reflexivity. Qed.

Lemma append_nil_r s : s +:+ EmptyString = s.
Proof. induction s as [| c s IH]; [reflexivity |]. rewrite append_String, IH. reflexivity. Qed.

Lemma expect_same c s : expect c (String c s) = Some s.
Proof. unfold expect. rewrite Ascii.eqb_refl. reflexivity. Qed.

Ltac norm_str := repeat (rewrite append_String || rewrite append_Empty).
Ltac read_field H :=
  norm_str; rewrite ?expect_same; cbn [mbind option_bind any_char];
  rewrite take_digits_pad by exact H; cbn [mbind option_bind].

Lemma parse_isoformat d : valid d = true -> parse (isoformat d) = Some d.
Proof.
  intros Hv. destruct (valid_bounds d Hv) as (Hy & Hmo & Hd & Hh & Hmi & Hs & Hu).
  unfold parse, isoformat.
  read_field Hy. read_field Hmo. read_field Hd. read_field Hh.
  read_field Hmi. read_field Hs.
  assert (E : take_fraction
                (if microsecond d =? 0 then EmptyString
                 else String "." (pad 6 (microsecond d))) = Some (microsecond d)).
  { destruct (microsecond d =? 0) eqn:Hz.
    - apply Z.eqb_eq in Hz. rewrite Hz. reflexivity.
    - unfold take_fraction. norm_str. rewrite expect_same.
      cbn [mbind option_bind].
      rewrite <- (append_nil_r (pad 6 (microsecond d))).
      rewrite take_digits_pad by exact Hu. simpl. f_equal. }
  rewrite E. cbn [mbind option_bind].
  replace (mk_datetime _ _ _ _ _ _ _) with d.
  - rewrite Hv. reflexivity.
  - destruct d; simpl. f_equal; lia.
Qed.

Lemma fromisoformat_isoformat d :
valid d = true -> fromisoformat (isoformat d) = Ok d.
Proof. intros H. unfold fromisoformat. rewrite parse_isoformat by exact H. reflexivity. Qed.

Lemma as_counters_of_counters (m : gmap string Z) :
Json.as_counters (Json.of_counters m) = Ok m.
Proof.
unfold Json.as_counters, Json.of_counters.
rewrite bool_decide_eq_true_2.
- f_equal. apply map_eq. intros k.
  rewrite lookup_omap, lookup_fmap. destruct (m !! k); reflexivity.
- intros k a. rewrite lookup_fmap. destruct (m !! k); simpl; [| discriminate].
  intros [= <-]. reflexivity.
Qed.


Ltac lookup_tac :=
repeat first
  [ rewrite lookup_insert_eq
  | rewrite lookup_insert_ne by discriminate
  | rewrite lookup_empty ].

Lemma Customer_roundtrip (c : Customer.t) :
Customer.from_dict (Customer.to_dict c) = Ok c.
Proof.
destruct c. unfold Customer.from_dict, Customer.to_dict, Json.getitem.
cbn [Customer.id Customer.name Customer.email Customer.city Customer.age
     Customer.spending_score Customer.total_spent Customer.is_active].
lookup_tac.
reflexivity.
Qed.

Lemma Campaign_roundtrip now (c : Campaign.t) :
valid (Campaign.created_at c) = true ->
Campaign.from_dict now (Campaign.to_dict c) = Ok c.
Proof.
intros Hv. destruct c. unfold Campaign.from_dict, Campaign.to_dict, Json.getitem.
cbn [Campaign.id Campaign.title Campaign.content_template
     Campaign.target_segment_criteria Campaign.status Campaign.created_at
     Campaign.stats] in *.
lookup_tac. rewrite fromisoformat_isoformat by exact Hv.
cbn [mbind M_bind Json.as_str Json.as_dict]. rewrite as_counters_of_counters. reflexivity.
Qed.

End RoundTrip.

(** ** The repository *)

Lemma bind_Ok_inv {A B} (m : M A) (k : A -> M B) b :
  (m ≫= k) = Ok b -> exists a, m = Ok a /\ k a = Ok b.
Proof. destruct m as [a | e]; [eauto | discriminate]. Qed.

Lemma fmap_Ok_inv {A B} (f : A -> B) (m : M A) b :
  f <$> m = Ok b -> exists a, m = Ok a /\ b = f a.
Proof. destruct m as [a | e]; [| discriminate]. intros [= <-]. eauto. Qed.

Section Repository.
Import JsonRepository.

Lemma first_with_id_has_id entity_id l item :
  first_with_id entity_id l = Some item -> has_id item entity_id = true.
Proof.
  induction l as [| d l IH]; [discriminate |]. simpl.
  destruct (has_id d entity_id) eqn:E; [| exact IH].
  intros [= <-]. exact E.
Qed.

Lemma replace_first_found entity_id d l item :
  first_with_id entity_id l = Some item ->
  exists l', replace_first entity_id d l = Some l'.
Proof.
  induction l as [| x l IH]; [discriminate |]. simpl.
  destruct (has_id x entity_id); [eauto |].
  intros H. destruct (IH H) as [l' ->]. simpl. eauto.
Qed.

Lemma replace_first_missing entity_id d l :
  first_with_id entity_id l = None -> replace_first entity_id d l = None.
Proof.
  induction l as [| x l IH]; [reflexivity |]. simpl.
  destruct (has_id x entity_id); [discriminate |].
  intros H. rewrite (IH H). reflexivity.
Qed.

Lemma first_with_id_replaced entity_id d l l' :
  has_id d entity_id = true ->
  replace_first entity_id d l = Some l' ->
  first_with_id entity_id l' = Some d.
Proof.
  intros Hd. revert l'. induction l as [| x l IH]; intros l'; [discriminate |].
  simpl. destruct (has_id x entity_id) eqn:E.
  - intros [= <-]. simpl. rewrite Hd. reflexivity.
  - destruct (replace_first entity_id d l) as [l1 |]; [| discriminate].
    intros [= <-]. simpl. rewrite E. apply IH. reflexivity.
Qed.

Lemma replace_first_length entity_id d l l' :
  replace_first entity_id d l = Some l' -> length l' = length l.
Proof.
  revert l'. induction l as [| x l IH]; intros l'; [discriminate |].
  simpl. destruct (has_id x entity_id).
  - intros [= <-]. reflexivity.
  - destruct (replace_first entity_id d l) as [l1 |]; [| discriminate].
    intros [= <-]. simpl. f_equal. apply IH. reflexivity.
Qed.

(** Reading back what [update] wrote. *)
Lemma get_by_id_update {T} (from_dict : doc -> M T) (to_dict : T -> doc)
    (f : file) entity_id (old new : T) :
  get_by_id from_dict f entity_id = Ok (Some old) ->
  has_id (to_dict new) entity_id = true ->
  from_dict (to_dict new) = Ok new ->
  exists f', update to_dict f entity_id new = (Some new, f') /\
             get_by_id from_dict f' entity_id = Ok (Some new).
Proof.
  unfold get_by_id, update. intros Hget Hid Hrt.
  destruct (first_with_id entity_id (_read_all_raw f)) as [item |] eqn:E;
    [| discriminate].
  destruct (replace_first_found entity_id (to_dict new) _ _ E) as [l' Hl'].
  rewrite Hl'. eexists. split; [reflexivity |].
  simpl. rewrite (first_with_id_replaced _ _ _ _ Hid Hl'), Hrt. reflexivity.
Qed.

End Repository.

(** ** Reading a campaign document *)

Lemma parse_valid s d : DateTime.parse s = Some d -> DateTime.valid d = true.
Proof.
  unfold DateTime.parse. intros H.
  repeat match type of H with
  | (?m ≫= _) = Some _ => destruct m as [[] |] eqn:?; simpl in H; [| discriminate]
  | (?m ≫= _) = Some _ => destruct m eqn:?; simpl in H; [| discriminate]
  end.
  destruct (DateTime.valid _) eqn:E; [| discriminate].
  injection H as <-. exact E.
Qed.

Lemma Campaign_from_dict_inv now data c :
  Campaign.from_dict now data = Ok c ->
  data !! "id" = Some (JAtom (AStr (Campaign.id c))) /\
  (DateTime.valid now = true -> DateTime.valid (Campaign.created_at c) = true).
Proof.
  unfold Campaign.from_dict. intros H.
  apply bind_Ok_inv in H as (created & Hc & H).
  apply bind_Ok_inv in H as (i & Hi & H).
  apply bind_Ok_inv in H as (ti & _ & H).
  apply bind_Ok_inv in H as (ct & _ & H).
  apply bind_Ok_inv in H as (cr & _ & H).
  apply bind_Ok_inv in H as (st & _ & H).
  apply bind_Ok_inv in H as (ss & _ & H).
  injection H as <-. simpl. split.
  - apply bind_Ok_inv in Hi as (v & Hv & Hs). unfold Json.getitem in Hv.
    destruct (data !! "id") as [w |]; [| discriminate]. injection Hv as ->.
    destruct v as [[] |]; try discriminate. injection Hs as ->. reflexivity.
  - intros Hnow.
    destruct (data !! "created_at") as [[[] |] |]; try discriminate;
      try (injection Hc as <-; exact Hnow).
    unfold DateTime.fromisoformat in Hc.
    destruct (DateTime.parse s) eqn:E; [| discriminate].
    injection Hc as <-. eapply parse_valid, E.
Qed.

Lemma has_id_to_dict (c : Campaign.t) :
  JsonRepository.has_id (Campaign.to_dict c) (Campaign.id c) = true.
Proof.
  unfold JsonRepository.has_id, Campaign.to_dict.
  rewrite lookup_insert_eq. apply String.eqb_refl.
Qed.

Lemma get_by_id_id now f entity_id c :
  JsonRepository.get_by_id (Campaign.from_dict now) f entity_id = Ok (Some c) ->
  Campaign.id c = entity_id.
Proof.
  unfold JsonRepository.get_by_id. intros H.
  destruct (JsonRepository.first_with_id _ _) as [item |] eqn:E; [| discriminate].
  apply fmap_Ok_inv in H as (c' & Hc & [= <-]).
  apply first_with_id_has_id in E. apply Campaign_from_dict_inv in Hc as [Hid _].
  unfold JsonRepository.has_id in E. rewrite Hid in E.
  apply String.eqb_eq in E. exact E.
Qed.

Lemma get_by_id_valid now f entity_id c :
  DateTime.valid now = true ->
  JsonRepository.get_by_id (Campaign.from_dict now) f entity_id = Ok (Some c) ->
  DateTime.valid (Campaign.created_at c) = true.
Proof.
  unfold JsonRepository.get_by_id. intros Hnow H.
  destruct (JsonRepository.first_with_id _ _) as [item |] eqn:E; [| discriminate].
  apply fmap_Ok_inv in H as (c' & Hc & [= <-]).
  apply Campaign_from_dict_inv in Hc as [_ Hv]. auto.
Qed.

(** ** Launching a campaign *)

Section Launch.
Context {World : Type}.
Import CampaignService.

Lemma send_loop_deliveries (provider : EmailService.IEmailProvider World)
    campaign targets emails_sent emails_failed w log :
  send_loop provider campaign targets emails_sent emails_failed w log =
  let r := Spec.deliveries provider (message_for campaign <$> targets) w in
  (emails_sent + Spec.successes (fst r), emails_failed + Spec.failures (fst r),
   snd r, log ++ (message_for campaign <$> targets)).
Proof.
  revert emails_sent emails_failed w log.
  induction targets as [| customer rest IH]; intros s f w log.
  - simpl. unfold Spec.successes, Spec.failures. simpl.
    rewrite !Z.add_0_r, app_nil_r. reflexivity.
  - cbn [send_loop fmap list_fmap Spec.deliveries].
    destruct (EmailService.send provider (message_for campaign customer) w)
      as [ok w1].
    destruct ok; rewrite IH; cbn zeta;
      destruct (Spec.deliveries provider _ w1) as [oks w2];
      unfold Spec.successes, Spec.failures; cbn [fst snd List.filter negb length];
      rewrite <- app_assoc; simpl.
    all: rewrite Nat2Z.inj_succ, <- Z.add_1_l, Z.add_assoc; reflexivity.
Qed.

Lemma deliveries_length (provider : EmailService.IEmailProvider World) msgs w :
  length (fst (Spec.deliveries provider msgs w)) = length msgs.
Proof.
  revert w. induction msgs as [| m msgs IH]; intros w; [reflexivity |].
  simpl. destruct (EmailService.send provider m w) as [ok w1].
  specialize (IH w1). destruct (Spec.deliveries provider msgs w1).
  simpl in *. f_equal. exact IH.
Qed.

Lemma successes_failures oks :
  Spec.successes oks + Spec.failures oks = Z.of_nat (length oks).
Proof.
  unfold Spec.successes, Spec.failures.
  induction oks as [| [] oks IH]; simpl in *; lia.
Qed.

Lemma deliveries_mock msgs (w : World) :
  Spec.deliveries EmailService.MockEmailProvider msgs w
  = (List.map (fun _ => true) msgs, w).
Proof.
  induction msgs as [| m msgs IH]; [reflexivity |].
  simpl. simpl in IH. rewrite IH. reflexivity.
Qed.

Lemma successes_all_true {A} (l : list A) :
  Spec.successes (List.map (fun _ => true) l) = Z.of_nat (length l) /\
  Spec.failures (List.map (fun _ => true) l) = 0.
Proof.
  unfold Spec.successes, Spec.failures.
  induction l as [| a l [IH1 IH2]]; simpl in *; split; lia.
Qed.

(** C4. A launch whose criteria match nobody reports a failure that is not
    an error: the result says [success = False], no e-mail sent and an
    audience of size 0, and the whole state is as before, so that no send
    was made, the campaign is stored unchanged and is still a draft. *)
Theorem launch_campaign_empty_audience
    (smtp : message -> World -> bool * World) now campaign_id use_real_email
    (st : sys World) campaign :
  get_campaign_by_id now (campaigns_json st) campaign_id = Ok (Some campaign) ->
  Campaign.status campaign = "Draft" ->
  SegmentationService.filter_customers (customers_json st)
    (Campaign.target_segment_criteria campaign) = Ok [] ->
  exists result,
    launch_campaign smtp now campaign_id use_real_email st = (Ok result, st) /\
    result !! "success" = Some (ABool false) /\
    result !! "emails_sent" = Some (AInt 0) /\
    result !! "target_audience_size" = Some (AInt 0).
Proof.
  unfold get_campaign_by_id, launch_campaign. intros Hget Hst Hf.
  rewrite Hget, Hst, Hf. simpl. eexists. split; [reflexivity |].
  repeat split; reflexivity.
Qed.

Lemma launch_campaign_runs
    (smtp : message -> World -> bool * World) now campaign_id use_real_email
    (st : sys World) campaign targets :
  DateTime.valid now = true ->
  get_campaign_by_id now (campaigns_json st) campaign_id = Ok (Some campaign) ->
  String.eqb (Campaign.status campaign) "Sent" = false ->
  SegmentationService.filter_customers (customers_json st)
    (Campaign.target_segment_criteria campaign) = Ok targets ->
  targets <> [] ->
  let provider := EmailService.create_provider smtp use_real_email in
  let msgs := message_for campaign <$> targets in
  let r := Spec.deliveries provider msgs (world st) in
  exists f,
    launch_campaign smtp now campaign_id use_real_email st =
      (Ok (<["success" := ABool true]>
          (<["message" := AStr "Campaign launched successfully"]>
          (<["emails_sent" := AInt (Spec.successes (fst r))]>
          (<["emails_failed" := AInt (Spec.failures (fst r))]>
          (<["target_audience_size" := AInt (Z.of_nat (length targets))]>
          (<["campaign_id" := AStr campaign_id]> ∅)))))),
       mk_sys f (customers_json st) (snd r) (outbox st ++ msgs)) /\
    forall now',
      get_campaign_by_id now' f campaign_id =
        Ok (Some (launched campaign (Spec.successes (fst r)))).
Proof.
  intros Hnow Hget Hst Hf Hne provider msgs r.
  unfold get_campaign_by_id in *.
  pose proof (get_by_id_id _ _ _ _ Hget) as Hid.
  pose proof (get_by_id_valid _ _ _ _ Hnow Hget) as Hv.
  unfold launch_campaign. rewrite Hget, Hst, Hf.
  destruct targets as [| t0 ts]; [congruence |].
  rewrite send_loop_deliveries. cbn zeta. fold provider msgs r.
  rewrite !Z.add_0_l.
  set (new := launched campaign (Spec.successes (fst r))).
  assert (Hnid : Campaign.id new = campaign_id) by exact Hid.
  rewrite Hnid.
  destruct (get_by_id_update (Campaign.from_dict now) Campaign.to_dict
              (campaigns_json st) campaign_id campaign new Hget) as (f & Hu & Hg).
  { rewrite <- Hnid. apply has_id_to_dict. }
  { apply Campaign_roundtrip. exact Hv. }
  rewrite Hu. exists f. split; [reflexivity |].
  intros now'. unfold JsonRepository.update in Hu.
  destruct (JsonRepository.replace_first _ _ _) as [l |] eqn:E; [| discriminate].
  injection Hu as <-. unfold JsonRepository.get_by_id. simpl.
  rewrite (first_with_id_replaced campaign_id (Campaign.to_dict new) _ l
             ltac:(rewrite <- Hnid; apply has_id_to_dict) E).
  rewrite Campaign_roundtrip by exact Hv. reflexivity.
Qed.

(** C1. Launching a draft whose criteria match a non-empty audience: one
    [send] per matched customer, in the order of the filter result and
    whatever the outcomes, each to the customer's address, under the title
    of the campaign, with the template personalised for that customer;
    afterwards the stored campaign is [Sent] with [stats.sent] the number
    of successes, and the result reports success, the numbers of successes
    and failures and the size of the audience. With the mock provider every
    send succeeds. *)
Theorem launch_campaign_sends_to_audience
    (smtp : message -> World -> bool * World) now campaign_id use_real_email
    (st : sys World) campaign targets :
  DateTime.valid now = true ->
  get_campaign_by_id now (campaigns_json st) campaign_id = Ok (Some campaign) ->
  Campaign.status campaign = "Draft" ->
  SegmentationService.filter_customers (customers_json st)
    (Campaign.target_segment_criteria campaign) = Ok targets ->
  targets <> [] ->
  let provider := EmailService.create_provider smtp use_real_email in
  let msgs := Spec.mail campaign <$> targets in
  let oks := fst (Spec.deliveries provider msgs (world st)) in
  exists result st' stored,
    launch_campaign smtp now campaign_id use_real_email st = (Ok result, st') /\
    outbox st' = outbox st ++ msgs /\
    length oks = length targets /\
    world st' = snd (Spec.deliveries provider msgs (world st)) /\
    customers_json st' = customers_json st /\
    result !! "success" = Some (ABool true) /\
    result !! "emails_sent" = Some (AInt (Spec.successes oks)) /\
    result !! "emails_failed" = Some (AInt (Spec.failures oks)) /\
    result !! "target_audience_size" = Some (AInt (Z.of_nat (length targets))) /\
    Spec.successes oks + Spec.failures oks = Z.of_nat (length targets) /\
    (forall now',
       get_campaign_by_id now' (campaigns_json st') campaign_id
       = Ok (Some stored)) /\
    Campaign.status stored = "Sent" /\
    Campaign.stats stored = <["sent" := Spec.successes oks]> (Campaign.stats campaign) /\
    Campaign.id stored = Campaign.id campaign /\
    Campaign.title stored = Campaign.title campaign /\
    Campaign.content_template stored = Campaign.content_template campaign /\
    Campaign.target_segment_criteria stored
      = Campaign.target_segment_criteria campaign /\
    Campaign.created_at stored = Campaign.created_at campaign /\
    (use_real_email = false ->
     Spec.successes oks = Z.of_nat (length targets) /\ Spec.failures oks = 0).
Proof.
  intros Hnow Hget Hst Hf Hne provider msgs oks.
  assert (Hns : String.eqb (Campaign.status campaign) "Sent" = false)
    by (rewrite Hst; reflexivity).
  destruct (launch_campaign_runs smtp now campaign_id use_real_email st
              campaign targets Hnow Hget Hns Hf Hne) as (f & Hl & Hread).
  assert (Hlen : length oks = length targets).
  { unfold oks. rewrite deliveries_length. unfold msgs.
    apply length_fmap. }
  eexists _, _, (launched campaign (Spec.successes oks)).
  split; [exact Hl |].
  cbn [outbox world customers_json campaigns_json].
  repeat match goal with |- _ /\ _ => split end;
    try reflexivity; try exact Hlen; try exact Hread.
  - exact (eq_trans (successes_failures oks) (f_equal Z.of_nat Hlen)).
  - intros ->. unfold oks, provider, msgs. simpl EmailService.create_provider.
    rewrite deliveries_mock. cbn [fst].
    rewrite <- (length_fmap (message_for campaign) targets).
    apply successes_all_true.
Qed.

(** C3. A launch raises "not found" when the id does not resolve and
    "already sent" when the campaign is [Sent], leaving the state as it
    was; so, after a launch that succeeded, every further launch of the same
    id raises "already sent" and changes nothing of what the first one
    stored. *)
Theorem launch_campaign_errors
    (smtp : message -> World -> bool * World) now campaign_id use_real_email
    (st : sys World) :
  (get_campaign_by_id now (campaigns_json st) campaign_id = Ok None ->
   launch_campaign smtp now campaign_id use_real_email st
   = (Raise (not_found campaign_id), st)) /\
  (forall campaign,
     get_campaign_by_id now (campaigns_json st) campaign_id = Ok (Some campaign) ->
     Campaign.status campaign = "Sent" ->
     launch_campaign smtp now campaign_id use_real_email st
     = (Raise already_sent, st)) /\
  (forall result st',
     DateTime.valid now = true ->
     launch_campaign smtp now campaign_id use_real_email st = (Ok result, st') ->
     result !! "success" = Some (ABool true) ->
     forall now' use_real_email',
       launch_campaign smtp now' campaign_id use_real_email' st'
       = (Raise already_sent, st')).
Proof.
  unfold get_campaign_by_id. split; [| split].
  - intros H. unfold launch_campaign. rewrite H. reflexivity.
  - intros campaign H Hs. unfold launch_campaign. rewrite H, Hs. reflexivity.
  - intros result st' Hnow Hl Hs now' flag'.
    destruct (JsonRepository.get_by_id (Campaign.from_dict now)
                (campaigns_json st) campaign_id) as [[campaign |] | e] eqn:Hget;
      try (unfold launch_campaign in Hl; rewrite Hget in Hl; discriminate).
    destruct (String.eqb (Campaign.status campaign) "Sent") eqn:Hst;
      [unfold launch_campaign in Hl; rewrite Hget, Hst in Hl; discriminate |].
    destruct (SegmentationService.filter_customers (customers_json st)
                (Campaign.target_segment_criteria campaign))
      as [targets | e] eqn:Hf;
      [| unfold launch_campaign in Hl; rewrite Hget, Hst, Hf in Hl; discriminate].
    destruct targets as [| t0 ts].
    + unfold launch_campaign in Hl. rewrite Hget, Hst, Hf in Hl.
      injection Hl as <- <-. rewrite lookup_insert_eq in Hs. discriminate.
    + destruct (launch_campaign_runs smtp now campaign_id use_real_email st
                  campaign (t0 :: ts) Hnow Hget Hst Hf ltac:(discriminate))
        as (f & Hl' & Hread).
      rewrite Hl' in Hl. injection Hl as _ <-.
      unfold launch_campaign. cbn [campaigns_json].
      specialize (Hread now'). unfold get_campaign_by_id in Hread.
      rewrite Hread. reflexivity.
Qed.

End Launch.

Lemma launch_campaign_empty_audience_witness :
  exists result,
    CampaignService.launch_campaign Example.refusing_smtp Example.now "k2" true
      Example.system = (Ok result, Example.system) /\
    result !! "success" = Some (ABool false).
Proof.
  destruct (launch_campaign_empty_audience Example.refusing_smtp Example.now
              "k2" true Example.system Example.unmatched)
    as (result & H1 & H2 & _);
    [vm_compute; reflexivity | reflexivity | vm_compute; reflexivity |].
  exists result. split; assumption.
Defined.

Lemma launch_campaign_sends_to_audience_witness :
  exists result st',
    CampaignService.launch_campaign Example.refusing_smtp Example.now "k1" false
      Example.system = (Ok result, st') /\
    outbox st'
    = [ {| to_email := "alice@example.com"; subject := "Spring sale";
           body := "Dear Alice of Ankara" |};
        {| to_email := "bob@example.com"; subject := "Spring sale";
           body := "Dear Bob of ANKARA" |} ] /\
    result !! "emails_sent" = Some (AInt 2) /\
    result !! "emails_failed" = Some (AInt 0) /\
    result !! "target_audience_size" = Some (AInt 2).
Proof.
  destruct (launch_campaign_sends_to_audience Example.refusing_smtp Example.now
              "k1" false Example.system Example.draft
              [Example.alice; Example.bob])
    as (result & st' & stored & H1 & H2 & _ & _ & _ & _ & H3 & H4 & H5 & _);
    [reflexivity | vm_compute; reflexivity | reflexivity
    | vm_compute; reflexivity | discriminate |].
  exists result, st'. split; [exact H1 |]. split; [exact H2 |].
  split; [exact H3 |]. split; [exact H4 | exact H5].
Defined.

Lemma launch_campaign_errors_witness :
  CampaignService.launch_campaign Example.refusing_smtp Example.now "k3" false
    Example.system = (Raise CampaignService.already_sent, Example.system) /\
  CampaignService.launch_campaign Example.refusing_smtp Example.now "k9" false
    Example.system = (Raise (CampaignService.not_found "k9"), Example.system) /\
  exists result st',
    CampaignService.launch_campaign Example.refusing_smtp Example.now "k1" true
      Example.system = (Ok result, st') /\
    CampaignService.launch_campaign Example.refusing_smtp Example.now "k1" false
      st' = (Raise CampaignService.already_sent, st').
Proof.
  destruct (launch_campaign_errors Example.refusing_smtp Example.now "k1" true
              Example.system) as (_ & _ & H'').
  destruct (launch_campaign_errors Example.refusing_smtp Example.now "k3" false
              Example.system) as (_ & H & _).
  destruct (launch_campaign_errors Example.refusing_smtp Example.now "k9" false
              Example.system) as (H' & _).
  split; [| split].
  - apply (H Example.delivered); [vm_compute; reflexivity | reflexivity].
  - apply H'. vm_compute. reflexivity.
  - destruct (launch_campaign_runs Example.refusing_smtp Example.now "k1" true
                Example.system Example.draft [Example.alice; Example.bob])
      as (f & Hl & _);
      [reflexivity | vm_compute; reflexivity | reflexivity
      | vm_compute; reflexivity | discriminate |].
    eexists _, _. split; [exact Hl |].
    eapply H''; [reflexivity | exact Hl | apply lookup_insert_eq].
Defined.

(** C9. Reading back the dictionary an entity was written to gives the
    entity again, with every field: for a customer, and for a campaign with
    its timestamp (written in ISO format and parsed back), its [stats] and
    its criteria. *)
Theorem entities_round_trip now (customer : Customer.t) (campaign : Campaign.t) :
  DateTime.valid (Campaign.created_at campaign) = true ->
  Customer.from_dict (Customer.to_dict customer) = Ok customer /\
  Campaign.from_dict now (Campaign.to_dict campaign) = Ok campaign.
Proof.
  intros H. split; [apply Customer_roundtrip | apply Campaign_roundtrip, H].
Qed.

Lemma entities_round_trip_witness :
  Customer.from_dict (Customer.to_dict Example.bob) = Ok Example.bob /\
  Campaign.from_dict Example.now (Campaign.to_dict Example.delivered)
  = Ok Example.delivered.
Proof.
  apply (entities_round_trip Example.now Example.bob Example.delivered).
  reflexivity.
Defined.

(** ** Segmentation *)

Section Matching.
Import SegmentationService.

(** *** Comparison of numbers *)

Lemma SFcompare_antisym f g : SFcompare g f = CompOpp <$> SFcompare f g.
Proof.
  destruct f as [s | s | | s m e], g as [s' | s' | | s' m' e'];
    try reflexivity; try (destruct s; reflexivity);
    try (destruct s'; reflexivity); try (destruct s, s'; reflexivity).
  simpl. destruct s, s'; try reflexivity;
    rewrite (Z.compare_antisym e e'); destruct (e ?= e'); simpl; try reflexivity;
    change (Pos.compare_cont Eq m m') with (Pos.compare m m');
    change (Pos.compare_cont Eq m' m) with (Pos.compare m' m);
    rewrite (Pos.compare_antisym m m');
    destruct (m ?= m')%positive; reflexivity.
Qed.

Lemma compare_antisym x y : PyNum.compare y x = CompOpp <$> PyNum.compare x y.
Proof.
  destruct x as [a | f], y as [b | g]; simpl.
  - rewrite (Z.compare_antisym a b). reflexivity.
  - reflexivity.
  - destruct (PyNum.compare_int_float b f) as [[] |]; reflexivity.
  - apply SFcompare_antisym.
Qed.




(** *** Case-insensitive comparison *)

Lemma ascii_forall (P : ascii -> bool) :
  forallb P (List.map ascii_of_nat (seq 0 256)) = true -> forall a, P a = true.
Proof.
  intros H a. rewrite forallb_forall in H. apply H.
  rewrite <- (ascii_nat_embedding a). apply in_map, in_seq.
  pose proof (nat_ascii_bounded a). lia.
Qed.



(** *** The tests of [_matches_criteria], one by one *)












Lemma filter_loop_filter criteria (p : Customer.t -> bool) l :
  (forall c, In c l -> _matches_criteria c criteria = Ok (p c)) ->
  filter_loop criteria l = Ok (List.filter p l).
Proof.
  induction l as [| c l IH]; intros H; [reflexivity |].
  simpl. rewrite (H c) by (left; reflexivity).
  rewrite IH by (intros c' Hc'; apply H; right; exact Hc').
  simpl. destruct (p c); reflexivity.
Qed.

Lemma filter_all {A} (l : list A) : List.filter (fun _ => true) l = l.
Proof. induction l as [| a l IH]; simpl; congruence. Qed.

Lemma filter_customers_filter (f : file) customers criteria p :
  get_all_customers f = Ok customers ->
  (forall c, In c customers -> _matches_criteria c criteria = Ok (p c)) ->
  filter_customers f criteria = Ok (List.filter p customers).
Proof.
  intros Hall Hp. unfold filter_customers. rewrite Hall. simpl.
  apply filter_loop_filter, Hp.
Qed.


(** C10. A city criterion given as the empty string does not constrain:
    the whole population is returned. A numeric bound or an activity flag
    is skipped only when it is null: [is_active = False] and [max_age = 0]
    do constrain. *)
Theorem filter_customers_blank_city (f : file) customers :
  get_all_customers f = Ok customers ->
  filter_customers f {["city" := AStr ""]} = Ok customers /\
  filter_customers f {["is_active" := ABool false]}
  = Ok (List.filter (fun c => negb (Customer.is_active c)) customers) /\
  filter_customers f {["max_age" := AInt 0]}
  = Ok (List.filter (fun c => Customer.age c <=? 0) customers) /\
  (forall key,
     In key ["min_age"; "max_age"; "min_spent"; "max_spent";
             "min_spending_score"; "max_spending_score"; "is_active"] ->
     filter_customers f {[key := ANone]} = Ok customers).
Proof.
  intros Hall. repeat split.
  - rewrite (filter_customers_filter f customers _ (fun _ => true) Hall).
    + f_equal. apply filter_all.
    + intros c _. reflexivity.
  - apply filter_customers_filter; [exact Hall |]. intros c _.
    destruct c as [? ? ? ? ? ? ? []]; reflexivity.
  - apply filter_customers_filter; [exact Hall |]. intros c _.
    destruct c as [? ? ? ? [] ? ? ?]; reflexivity.
  - intros key Hk.
    rewrite (filter_customers_filter f customers _ (fun _ => true) Hall).
    + f_equal. apply filter_all.
    + intros c _.
      simpl in Hk. repeat (destruct Hk as [<- | Hk]; [reflexivity |]).
      destruct Hk.
Qed.

End Matching.



Lemma filter_customers_blank_city_witness :
  SegmentationService.filter_customers Example.customers_file
    {["city" := AStr ""]} = Ok Example.customers.
Proof.
  refine (proj1 (filter_customers_blank_city Example.customers_file
                   Example.customers _)).
  vm_compute. reflexivity.
Defined.

(** ** Creating a campaign *)

Section Create.
Context {World : Type}.
Import CampaignService.

(** The white space of the specification is the set [str.strip] removes. *)
Lemma is_space_white_space c : PyStr.is_space c = Spec.white_space c.
Proof.
  apply eqb_prop. revert c. apply ascii_forall. vm_compute. reflexivity.
Qed.

Lemma blank_String c s :
  Spec.blank (String c s) = PyStr.is_space c && Spec.blank s.
Proof. simpl. rewrite is_space_white_space. reflexivity. Qed.

Lemma lstrip_blank s : Spec.blank (PyStr.lstrip s) = Spec.blank s.
Proof.
  induction s as [| c s IH]; [reflexivity |].
  rewrite blank_String. cbn [PyStr.lstrip].
  destruct (PyStr.is_space c) eqn:E; [exact IH |].
  rewrite blank_String, E. reflexivity.
Qed.

Lemma rstrip_truthy s : PyStr.truthy (PyStr.rstrip s) = negb (Spec.blank s).
Proof.
  induction s as [| c s IH]; [reflexivity |].
  rewrite blank_String. cbn [PyStr.rstrip].
  destruct (PyStr.rstrip s) as [| c' t]; simpl in IH.
  - apply (f_equal negb) in IH. rewrite negb_involutive in IH. rewrite <- IH.
    destruct (PyStr.is_space c); reflexivity.
  - apply (f_equal negb) in IH. rewrite negb_involutive in IH. rewrite <- IH.
    rewrite andb_false_r. reflexivity.
Qed.

(** The test [not s or not s.strip()] holds of the blank texts. *)
Lemma empty_or_blank s :
  negb (PyStr.truthy s) || negb (PyStr.truthy (PyStr.strip s)) = Spec.blank s.
Proof.
  unfold PyStr.strip. rewrite rstrip_truthy, negb_involutive, lstrip_blank.
  destruct s; reflexivity.
Qed.

Lemma first_with_id_app entity_id l d :
  JsonRepository.first_with_id entity_id l = None ->
  JsonRepository.has_id d entity_id = true ->
  JsonRepository.first_with_id entity_id (l ++ [d]) = Some d.
Proof.
  intros Hl Hd. induction l as [| x l IH]; simpl in *.
  - rewrite Hd. reflexivity.
  - destruct (JsonRepository.has_id x entity_id); [discriminate |]. auto.
Qed.

Lemma create_campaign_eq uuid now title content_template criteria
    (st : sys World) :
  create_campaign uuid now title content_template criteria st
  = Spec.create_campaign uuid now title content_template criteria st.
Proof.
  unfold create_campaign, Spec.create_campaign.
  rewrite !empty_or_blank.
  destruct (Spec.blank title), (Spec.blank content_template),
    (bool_decide (criteria = ∅)); reflexivity.
Qed.

(** C5, as the code has it. [create_campaign] raises a [ValueError], and
    leaves the state as it was, exactly when the title or the template is
    empty or nothing but white space, or the criteria are empty. Otherwise
    it appends to the campaigns file, and returns, a campaign with the new
    id [uuid4] gave, the trimmed title and template, status [Draft], the
    clock reading as [created_at] and the three counters [sent], [opened]
    and [clicked] at 0; there is no [failed] counter. The id being fresh,
    that is not in use in the file, the campaign is read back under it. *)
Theorem create_campaign_validates uuid now title content_template
    (criteria : pydict) (st : sys World) :
  let r := create_campaign uuid now title content_template criteria st in
  let campaign :=
    Campaign.mk uuid (PyStr.strip title) (PyStr.strip content_template)
      criteria "Draft" now Spec.zero_stats in
  ((exists msg, fst r = Raise (ValueError msg)) <->
   (Spec.blank title = true \/ Spec.blank content_template = true
    \/ criteria = ∅)) /\
  ((exists msg, fst r = Raise (ValueError msg)) -> snd r = st) /\
  (~ (exists msg, fst r = Raise (ValueError msg)) ->
   r = (Ok campaign,
        mk_sys (Some (JsonRepository._read_all_raw (campaigns_json st)
                      ++ [Campaign.to_dict campaign]))
          (customers_json st) (world st) (outbox st)) /\
   Campaign.stats campaign !! "sent" = Some 0 /\
   Campaign.stats campaign !! "opened" = Some 0 /\
   Campaign.stats campaign !! "clicked" = Some 0 /\
   Campaign.stats campaign !! "failed" = None /\
   (DateTime.valid now = true ->
    JsonRepository.first_with_id uuid
      (JsonRepository._read_all_raw (campaigns_json st)) = None ->
    forall now',
      get_campaign_by_id now' (campaigns_json (snd r)) uuid
      = Ok (Some campaign))).
Proof.
  intros r campaign.
  assert (Hr : r = Spec.create_campaign uuid now title content_template
                     criteria st) by apply create_campaign_eq.
  clearbody r. subst r. unfold Spec.create_campaign. fold campaign.
  destruct (Spec.blank title) eqn:Ht;
    [| destruct (Spec.blank content_template) eqn:Hc;
       [| destruct (bool_decide (criteria = ∅)) eqn:Hd]];
    cbn [fst snd].
  - split; [split; eauto |]. split; [reflexivity |].
    intros H. destruct H. eauto.
  - split; [split; eauto |]. split; [reflexivity |].
    intros H. destruct H. eauto.
  - apply bool_decide_eq_true in Hd.
    split; [split; eauto |]. split; [reflexivity |].
    intros H. destruct H. eauto.
  - apply bool_decide_eq_false in Hd.
    split; [split |].
    + intros [msg H]. discriminate H.
    + intros [H | [H | H]]; [discriminate | discriminate | contradiction].
    + split; [intros [msg H]; discriminate H |]. intros _.
      split; [reflexivity |].
      do 4 (split; [vm_compute; reflexivity |]).
      intros Hnow Hfresh now'. cbn [campaigns_json].
      unfold get_campaign_by_id, JsonRepository.get_by_id. simpl.
      rewrite (first_with_id_app uuid _ (Campaign.to_dict campaign) Hfresh).
      * rewrite Campaign_roundtrip by exact Hnow. reflexivity.
      * apply (has_id_to_dict campaign).
Qed.

End Create.

Lemma create_campaign_validates_witness :
  (exists campaign st',
     CampaignService.create_campaign "k9" Example.now "  Summer sale "
       "Dear {name}" Example.in_ankara Example.system = (Ok campaign, st') /\
     Campaign.title campaign = "Summer sale" /\
     CampaignService.get_campaign_by_id Example.now (campaigns_json st') "k9"
     = Ok (Some campaign)) /\
  (exists msg,
     fst (CampaignService.create_campaign "k9" Example.now
            Example.no_break_title "Dear {name}" Example.in_ankara
            Example.system) = Raise (ValueError msg)) /\
  snd (CampaignService.create_campaign "k9" Example.now
         Example.no_break_title "Dear {name}" Example.in_ankara
         Example.system) = Example.system.
Proof.
  destruct (create_campaign_validates "k9" Example.now "  Summer sale "
              "Dear {name}" Example.in_ankara Example.system)
    as (Hiff & _ & H).
  destruct (create_campaign_validates "k9" Example.now Example.no_break_title
              "Dear {name}" Example.in_ankara Example.system)
    as (Hiff' & Hsame & _).
  assert (Hraise : exists msg,
             fst (CampaignService.create_campaign "k9" Example.now
                    Example.no_break_title "Dear {name}" Example.in_ankara
                    Example.system) = Raise (ValueError msg)).
  { apply Hiff'. left. vm_compute. reflexivity. }
  split; [| split; [exact Hraise | exact (Hsame Hraise)]].
  destruct H as (Hr & _ & _ & _ & _ & Hget).
  { intros Hex. apply Hiff in Hex.
    destruct Hex as [Hex | [Hex | Hex]]; vm_compute in Hex; discriminate Hex. }
  eexists _, _. split; [exact Hr |]. split; [reflexivity |].
  rewrite Hr in Hget.
  apply Hget; [reflexivity | vm_compute; reflexivity].
Defined.

Lemma create_campaign_validates_counterexample :
  exists campaign st',
    CampaignService.create_campaign "k9" Example.now "Summer sale" "Dear {name}"
      Example.in_ankara Example.system = (Ok campaign, st') /\
    Campaign.stats campaign !! "failed" = None /\
    Campaign.stats campaign !! "failed" <> Some 0.
Proof.
  eexists _, _. split; [reflexivity |]. split; [vm_compute; reflexivity |].
  intros H. vm_compute in H. discriminate H.
Qed.

(** ** Floats: what is needed to see that no operation overflows *)

Section FloatBounds.

Lemma digits2_pos_bounds p :
  2 ^ (Zpos (digits2_pos p) - 1) <= Zpos p < 2 ^ Zpos (digits2_pos p).
Proof.
  induction p as [p IH | p IH |]; cbn [digits2_pos].
  - rewrite Pos2Z.inj_succ, Z.pow_succ_r by lia.
    replace (Z.succ (Zpos (digits2_pos p)) - 1)
      with (Z.succ (Zpos (digits2_pos p) - 1)) by lia.
    rewrite Z.pow_succ_r by lia. lia.
  - rewrite Pos2Z.inj_succ, Z.pow_succ_r by lia.
    replace (Z.succ (Zpos (digits2_pos p)) - 1)
      with (Z.succ (Zpos (digits2_pos p) - 1)) by lia.
    rewrite Z.pow_succ_r by lia. lia.
  - simpl. lia.
Qed.

Lemma Zdigits2_nonneg m : 0 <= Zdigits2 m.
Proof. destruct m; simpl; lia. Qed.

Lemma Zdigits2_le m D : 0 <= m < 2 ^ D -> 0 <= D -> Zdigits2 m <= D.
Proof.
  intros [H0 H1] HD. destruct m as [| p | p]; simpl; try lia.
  pose proof (digits2_pos_bounds p) as [Hl _].
  assert (2 ^ (Zpos (digits2_pos p) - 1) < 2 ^ D) by lia.
  apply Z.pow_lt_mono_r_iff in H; lia.
Qed.

Lemma digits2_pos_iter_xO p d :
  Zpos (digits2_pos (Pos.iter xO p d)) = Zpos (digits2_pos p) + Zpos d.
Proof.
  induction d as [| d IH] using Pos.peano_ind.
  - simpl. lia.
  - rewrite Pos.iter_succ. cbn [digits2_pos]. lia.
Qed.

Lemma fexp_le a b : a <= b -> fexp prec emax a <= fexp prec emax b.
Proof. unfold fexp, emin, prec, emax. lia. Qed.

Lemma fexp_eq a : fexp prec emax a = Z.max (a - 53) (-1074).
Proof. reflexivity. Qed.

(** *** Shifting to the right *)

Lemma iter_pos_inv {A} (P : A -> Prop) (f : A -> A) :
  (forall x, P x -> P (f x)) -> forall p x, P x -> P (SpecFloat.iter_pos f p x).
Proof.
  intros Hf. induction p as [p IH | p IH |]; intros x Hx; simpl; auto.
Qed.

Lemma shr_1_bound B mrs :
  0 <= shr_m mrs <= B -> 0 <= shr_m (shr_1 mrs) <= B.
Proof.
  destruct mrs as [m r s]. simpl. destruct m as [| [p | p |] | [p | p |]];
    simpl; lia.
Qed.

Lemma shr_bound B mrs e n :
  0 <= shr_m mrs <= B ->
  0 <= shr_m (fst (shr mrs e n)) <= B /\ snd (shr mrs e n) = e + Z.max 0 n.
Proof.
  intros H. destruct n as [| p | p]; simpl; try (split; [exact H | lia]).
  split; [| lia].
  apply (iter_pos_inv (fun x => 0 <= shr_m x <= B)); [| exact H].
  intros x. apply shr_1_bound.
Qed.

Lemma shr_m_of_loc m l : shr_m (shr_record_of_loc m l) = m.
Proof. destruct l as [| []]; reflexivity. Qed.

Lemma shr_fexp_bound m e l :
  0 <= m ->
  0 <= shr_m (fst (shr_fexp prec emax m e l)) <= m /\
  snd (shr_fexp prec emax m e l) = Z.max e (fexp prec emax (Zdigits2 m + e)).
Proof.
  intros Hm. unfold shr_fexp.
  destruct (shr_bound m (shr_record_of_loc m l) e
              (fexp prec emax (Zdigits2 m + e) - e)) as [H1 H2].
  { rewrite shr_m_of_loc. lia. }
  split; [exact H1 | rewrite H2; lia].
Qed.

Lemma round_nearest_even_bound m l :
  m <= round_nearest_even m l <= m + 1.
Proof.
  unfold round_nearest_even. destruct l as [| []]; try lia.
  destruct (Z.even m); lia.
Qed.

(** Rounding a mantissa below [2^D] at an exponent of at most [E]: the
    result is zero or finite, with the sign given. *)
Lemma binary_round_aux_bounded sx mx ex lx D E :
  0 <= mx < 2 ^ D -> 0 <= D -> ex <= E ->
  Z.max E (fexp prec emax (D + E))
  <= 971 - Z.max 0 (D - 52) ->
  binary_round_aux prec emax sx mx ex lx = S754_zero sx \/
  exists m e,
    binary_round_aux prec emax sx mx ex lx = S754_finite sx m e /\
    Zpos m <= 2 ^ D /\
    e <= Z.max E (fexp prec emax (D + E)) + Z.max 0 (D - 52).
Proof.
  intros Hmx HD Hex HE. unfold binary_round_aux.
  destruct (shr_fexp_bound mx ex lx ltac:(lia)) as [Hm1 He1].
  destruct (shr_fexp prec emax mx ex lx) as [mrs1 e1]. cbn [fst snd] in *.
  set (m2 := round_nearest_even (shr_m mrs1) (loc_of_shr_record mrs1)).
  pose proof (round_nearest_even_bound (shr_m mrs1) (loc_of_shr_record mrs1))
    as Hm2. fold m2 in Hm2.
  destruct (shr_fexp_bound m2 e1 loc_Exact ltac:(lia)) as [Hm3 He2].
  destruct (shr_fexp prec emax m2 e1 loc_Exact) as [mrs2 e2].
  cbn [fst snd] in *.
  assert (Hd1 : Zdigits2 mx <= D) by (apply Zdigits2_le; lia).
  assert (Hd2 : Zdigits2 m2 <= D + 1).
  { apply Zdigits2_le; [| lia]. rewrite Z.pow_add_r by lia. lia. }
  assert (He1' : e1 <= Z.max E (fexp prec emax (D + E))).
  { rewrite He1. pose proof (fexp_le (Zdigits2 mx + ex) (D + E) ltac:(lia)). lia. }
  assert (He2' : e2 <= Z.max E (fexp prec emax (D + E)) + Z.max 0 (D - 52)).
  { rewrite He2. rewrite !fexp_eq in *. lia. }
  destruct (shr_m mrs2) as [| m | m] eqn:Em; [left; reflexivity | | lia].
  right. exists m, e2.
  replace (e2 <=? emax - prec) with true.
  - repeat split; [lia | exact He2'].
  - symmetry. apply Z.leb_le. unfold emax, prec. lia.
Qed.

(** A mantissa that already sits at its exponent is kept as it is. *)
Lemma binary_round_aux_exact sx mz ez :
  fexp prec emax (Zpos (digits2_pos mz) + ez) = ez -> ez <= 971 ->
  binary_round_aux prec emax sx (Zpos mz) ez loc_Exact = S754_finite sx mz ez.
Proof.
  intros Hf He. unfold binary_round_aux, shr_fexp. cbn [Zdigits2].
  rewrite Hf, Z.sub_diag. cbn [shr shr_record_of_loc shr_m loc_of_shr_record
                                round_nearest_even Zdigits2].
  rewrite Hf, Z.sub_diag. cbn [shr shr_record_of_loc shr_m].
  replace (ez <=? emax - prec) with true; [reflexivity |].
  symmetry. apply Z.leb_le. unfold emax, prec. lia.
Qed.

(** *** [float(z)] *)

Lemma of_Z_raw_small p :
  Zpos p < 2 ^ 53 ->
  exists m e,
    of_Z_raw (Zpos p) = S754_finite false m e /\ Zpos m < 2 ^ 53 /\ e <= 0.
Proof.
  intros Hp. unfold of_Z_raw, binary_normalize, binary_round, shl_align.
  pose proof (digits2_pos_bounds p) as [Hl Hu].
  assert (Hd : Zpos (digits2_pos p) <= 53).
  { apply (Zdigits2_le (Zpos p) 53); lia. }
  rewrite Z.add_0_r, Z.sub_0_r, fexp_eq.
  destruct (Z.max (Zpos (digits2_pos p) - 53) (-1074)) as [| d | d] eqn:E;
    try lia.
  - exists p, 0. rewrite binary_round_aux_exact; [auto with zarith | | lia].
    rewrite Z.add_0_r, fexp_eq. lia.
  - exists (Pos.iter xO p d), (Zneg d).
    rewrite binary_round_aux_exact; [| | lia].
    + split; [reflexivity |]. split; [| lia].
      pose proof (digits2_pos_bounds (Pos.iter xO p d)) as [_ Hu'].
      rewrite digits2_pos_iter_xO in Hu'.
      replace (Zpos (digits2_pos p) + Zpos d) with 53 in Hu' by lia. exact Hu'.
    + rewrite digits2_pos_iter_xO, fexp_eq. lia.
Qed.

Lemma of_int_small z :
  0 <= z < 2 ^ 53 ->
  exists x,
    of_int z = Ok x /\
    (x = S754_zero false /\ z = 0 \/
     exists m e, x = S754_finite false m e /\ Zpos m < 2 ^ 53 /\ e <= 0).
Proof.
  intros Hz. destruct z as [| p | p]; [| | lia].
  - exists (S754_zero false). split; [reflexivity | left; auto].
  - destruct (of_Z_raw_small p ltac:(lia)) as (m & e & Hx & Hm & He).
    exists (S754_finite false m e). unfold of_int. rewrite Hx.
    split; [reflexivity |]. right. eauto.
Qed.

Lemma binary_round_bounded sx p K :
  Zpos p < 2 ^ K -> 53 <= K <= 538 ->
  binary_round prec emax sx p 0 = S754_zero sx \/
  exists m e,
    binary_round prec emax sx p 0 = S754_finite sx m e /\
    Zpos m <= 2 ^ K /\ e <= 2 * K - 105.
Proof.
  intros Hp HK. unfold binary_round, shl_align.
  pose proof (digits2_pos_bounds p) as [Hl Hu].
  assert (H53 : 2 ^ 53 <= 2 ^ K) by (apply Z.pow_le_mono_r; lia).
  rewrite Z.add_0_r, Z.sub_0_r.
  assert (Hgoal : forall mz ez, Zpos mz < 2 ^ K -> ez <= 0 ->
            binary_round_aux prec emax sx (Zpos mz) ez loc_Exact = S754_zero sx \/
            exists m e,
              binary_round_aux prec emax sx (Zpos mz) ez loc_Exact
              = S754_finite sx m e /\ Zpos m <= 2 ^ K /\ e <= 2 * K - 105).
  { intros mz ez Hmz Hez.
    destruct (binary_round_aux_bounded sx (Zpos mz) ez loc_Exact K 0)
      as [H | (m & e & H & Hm & He)]; try lia.
    - rewrite fexp_eq. lia.
    - left. exact H.
    - right. exists m, e. rewrite fexp_eq in He. repeat split; auto; lia. }
  rewrite fexp_eq.
  destruct (Z.max (Zpos (digits2_pos p) - 53) (-1074)) as [| d | d] eqn:E.
  - apply Hgoal; lia.
  - apply Hgoal; lia.
  - apply Hgoal; [| lia].
    pose proof (digits2_pos_bounds (Pos.iter xO p d)) as [_ Hu'].
    rewrite digits2_pos_iter_xO in Hu'.
    assert (2 ^ (Zpos (digits2_pos p) + Zpos d) <= 2 ^ 53)
      by (apply Z.pow_le_mono_r; lia).
    lia.
Qed.

Lemma of_int_bounded z K :
  0 <= z < 2 ^ K -> 53 <= K <= 538 ->
  exists x,
    of_int z = Ok x /\
    (x = S754_zero false \/
     exists m e, x = S754_finite false m e /\ Zpos m <= 2 ^ K /\ e <= 2 * K - 105).
Proof.
  intros Hz HK. destruct z as [| p | p]; [| | lia].
  - exists (S754_zero false). split; [reflexivity | left; auto].
  - unfold of_int, of_Z_raw, binary_normalize.
    destruct (binary_round_bounded false p K ltac:(lia) HK)
      as [-> | (m & e & -> & Hm & He)].
    + eexists. split; [reflexivity | left; auto].
    + eexists. split; [reflexivity | right; eauto].
Qed.

(** *** Products *)

Lemma fmul_bounded sx mx ex sy my ey Dx Dy E :
  Zpos mx <= 2 ^ Dx -> Zpos my < 2 ^ Dy -> 0 <= Dx -> 0 <= Dy ->
  ex + ey <= E ->
  Z.max E (fexp prec emax (Dx + Dy + E)) <= 971 - Z.max 0 (Dx + Dy - 52) ->
  let r := fmul (S754_finite sx mx ex) (S754_finite sy my ey) in
  r = S754_zero (xorb sx sy) \/
  exists m e,
    r = S754_finite (xorb sx sy) m e /\
    Zpos m <= 2 ^ (Dx + Dy) /\
    e <= Z.max E (fexp prec emax (Dx + Dy + E)) + Z.max 0 (Dx + Dy - 52).
Proof.
  intros Hx Hy HDx HDy He Hc r. subst r. unfold fmul, SFmul.
  apply binary_round_aux_bounded; try lia.
  rewrite Pos2Z.inj_mul, Z.pow_add_r by lia.
  assert (0 < 2 ^ Dx) by (apply Z.pow_pos_nonneg; lia).
  nia.
Qed.

(** *** Quotients of integers *)

Lemma of_ratio_raw_finite a d :
  0 <= a < 2 ^ 53 -> Zpos d < 2 ^ 53 ->
  is_inf (of_ratio_raw a d) = false.
Proof.
  intros Ha Hd. destruct a as [| p | p]; [reflexivity | | lia].
  unfold of_ratio_raw, fdiv, SFdiv, SFdiv_core_binary.
  cbn [Zdigits2]. rewrite !Z.add_0_r, !Z.sub_0_r, Z.sub_0_l.
  pose proof (digits2_pos_bounds p) as [_ Hp].
  pose proof (digits2_pos_bounds d) as [_ Hd'].
  assert (Hdp : Zpos (digits2_pos p) <= 53)
    by (apply (Zdigits2_le (Zpos p) 53); lia).
  assert (Hdd : Zpos (digits2_pos d) <= 53)
    by (apply (Zdigits2_le (Zpos d) 53); lia).
  set (e' := Z.min (fexp prec emax (Zpos (digits2_pos p) - Zpos (digits2_pos d))) 0).
  assert (He' : -105 <= e' <= 0).
  { unfold e'. rewrite fexp_eq. lia. }
  set (m' := match - e' with
             | 0 => Zpos p
             | Zpos _ => Z.shiftl (Zpos p) (- e')
             | Zneg _ => 0
             end).
  assert (Hm' : 0 <= m' < 2 ^ 158).
  { unfold m'. destruct (- e') as [| s | s] eqn:Es; try lia.
    rewrite Z.shiftl_mul_pow2 by lia.
    assert (0 < 2 ^ Zpos s) by (apply Z.pow_pos_nonneg; lia).
    assert (2 ^ Zpos s <= 2 ^ 105) by (apply Z.pow_le_mono_r; lia).
    change (2 ^ 158) with (2 ^ 53 * 2 ^ 105). nia. }
  pose proof (Z_div_mod m' (Zpos d) ltac:(lia)) as Hdiv.
  destruct (Z.div_eucl m' (Zpos d)) as [q r]. destruct Hdiv as [Hq Hr].
  assert (Hqb : 0 <= q < 2 ^ 158) by nia.
  destruct (binary_round_aux_bounded (xorb false false) q e'
              (new_location (Zpos d) r) 158 0)
    as [-> | (m & e & -> & _)]; try lia; try reflexivity.
  rewrite fexp_eq. lia.
Qed.

Lemma int_truediv_small a b :
  0 <= a < 2 ^ 53 -> 0 < b < 2 ^ 53 ->
  int_truediv a b = Ok (of_ratio_raw a (Z.to_pos b)).
Proof.
  intros Ha Hb. destruct b as [| d | d]; try lia.
  unfold int_truediv. rewrite of_ratio_raw_finite by lia. reflexivity.
Qed.

End FloatBounds.

(** ** Performance metrics *)

Section Performance.
Import AnalyticsService.

Lemma of_int_counter z : Spec.counter z -> of_int z = Ok (of_Z_raw z).
Proof.
  intros Hz. destruct (of_int_small z Hz) as (x & Hx & _).
  unfold of_int in *. destruct (is_inf (of_Z_raw z)); [discriminate | reflexivity].
Qed.

Lemma percentage_percent a b :
  Spec.counter a -> Spec.counter b -> percentage a b = Ok (Spec.percent a b).
Proof.
  intros Ha Hb. unfold percentage, Spec.percent, Spec.counter in *.
  destruct (Z.eqb_spec b 0) as [-> | Hne]; [reflexivity |].
  replace (b >? 0) with true by (symmetry; apply Z.gtb_lt; lia).
  cbn [PyNum.truediv]. rewrite int_truediv_small by lia. reflexivity.
Qed.

Lemma mul_percent a b w :
  PyNum.mul (Spec.percent a b) (NFloat w)
  = Ok (NFloat (fmul (Spec.value (Spec.percent a b)) w)).
Proof. unfold Spec.percent. destruct (b =? 0); reflexivity. Qed.

(** *** Rounding and the cap *)

Lemma round_half_even_nearest n d :
  0 < d -> round_half_even n d = Spec.nearest n d.
Proof.
  intros Hd. unfold round_half_even, Spec.nearest.
  pose proof (Z.div_mod n d ltac:(lia)) as Hn.
  pose proof (Z.mod_pos_bound n d Hd) as Hr.
  set (q := n / d) in *. set (r := n mod d) in *.
  destruct (Z.compare_spec (2 * r) d) as [He | Hl | Hg].
  - assert (Hdiv : (2 * n + d) / (2 * d) = q + 1)
      by (symmetry; apply (Z.div_unique _ _ _ 0); lia).
    assert (Hmod : (2 * n + d) mod (2 * d) = 0)
      by (symmetry; apply (Z.mod_unique _ _ (q + 1)); lia).
    rewrite Hdiv, Hmod. cbn [Z.eqb andb].
    replace (q + 1) with (Z.succ q) by lia. rewrite Z.odd_succ.
    destruct (Z.even q); lia.
  - assert (Hdiv : (2 * n + d) / (2 * d) = q)
      by (symmetry; apply (Z.div_unique _ _ _ (2 * r + d)); lia).
    assert (Hmod : (2 * n + d) mod (2 * d) = 2 * r + d)
      by (symmetry; apply (Z.mod_unique _ _ q); lia).
    rewrite Hdiv, Hmod.
    replace (2 * r + d =? 0) with false by (symmetry; apply Z.eqb_neq; lia).
    reflexivity.
  - assert (Hdiv : (2 * n + d) / (2 * d) = q + 1)
      by (symmetry; apply (Z.div_unique _ _ _ (2 * r - d)); lia).
    assert (Hmod : (2 * n + d) mod (2 * d) = 2 * r - d)
      by (symmetry; apply (Z.mod_unique _ _ (q + 1)); lia).
    rewrite Hdiv, Hmod.
    replace (2 * r - d =? 0) with false by (symmetry; apply Z.eqb_neq; lia).
    reflexivity.
Qed.

Lemma round_to_decimals x digits :
  PyFloat.round x digits = Spec.to_decimals x digits.
Proof.
  destruct x as [s | s | | s m [| p | p]]; try reflexivity.
  unfold PyFloat.round, Spec.to_decimals.
  rewrite round_half_even_nearest by (apply Z.pow_pos_nonneg; lia).
  cbv zeta. destruct (Spec.nearest _ _); reflexivity.
Qed.

Lemma round_rounded x digits : PyNum.round x digits = Spec.rounded x digits.
Proof.
  destruct x as [z | f]; [reflexivity |]. simpl. f_equal.
  apply round_to_decimals.
Qed.

Lemma min_capped x : PyNum.min (NInt 100) x = Spec.capped x.
Proof. reflexivity. Qed.

Lemma compute_metrics_performance (stats : gmap string Z) :
  let sent := stat stats "sent" in
  let opened := stat stats "opened" in
  let clicked := stat stats "clicked" in
  let failed := stat stats "failed" in
  Spec.counter sent -> Spec.counter opened -> Spec.counter clicked ->
  Spec.counter failed -> sent + failed < 2 ^ 53 ->
  compute_metrics stats = Ok (Spec.performance sent opened clicked failed).
Proof.
  intros sent opened clicked failed Hs Ho Hc Hf Hsf.
  unfold compute_metrics. fold sent opened clicked failed.
  rewrite !percentage_percent
    by (assumption || (unfold Spec.counter in *; lia)).
  cbn [mbind M_bind PyNum.mul PyNum.to_float].
  rewrite (of_int_counter clicked Hc). cbn [mbind M_bind].
  rewrite !mul_percent. cbn [mbind M_bind PyNum.add PyNum.to_float].
  rewrite !round_rounded, min_capped. reflexivity.
Qed.

(** C6. For a stored campaign whose counters are in range, the report has
    [delivery_rate = sent / (sent + failed) × 100],
    [open_rate = opened / sent × 100], [click_rate = clicked / opened × 100],
    [click_through_rate = clicked / sent × 100],
    [roi_prediction = clicked × 15.0] and
    [engagement_score = min(100, open_rate × 0.6 + click_through_rate × 4.0)],
    a rate with a zero denominator being 0, each rounded to 2 decimals and
    the score to 1; an id that does not resolve raises "not found". *)
Theorem get_campaign_performance_metrics now campaign_id (campaigns : file) :
  (JsonRepository.get_by_id (Campaign.from_dict now) campaigns campaign_id
   = Ok None ->
   get_campaign_performance now campaign_id campaigns
   = Raise (not_found campaign_id)) /\
  (forall campaign,
     JsonRepository.get_by_id (Campaign.from_dict now) campaigns campaign_id
     = Ok (Some campaign) ->
     let sent := stat (Campaign.stats campaign) "sent" in
     let opened := stat (Campaign.stats campaign) "opened" in
     let clicked := stat (Campaign.stats campaign) "clicked" in
     let failed := stat (Campaign.stats campaign) "failed" in
     Spec.counter sent -> Spec.counter opened -> Spec.counter clicked ->
     Spec.counter failed -> sent + failed < 2 ^ 53 ->
     get_campaign_performance now campaign_id campaigns
     = Ok (Spec.performance sent opened clicked failed,
           Campaign.title campaign, Campaign.status campaign,
           Campaign.target_segment_criteria campaign)).
Proof.
  split.
  - intros H. unfold get_campaign_performance. rewrite H. reflexivity.
  - intros campaign H sent opened clicked failed Hs Ho Hc Hf Hsf.
    unfold get_campaign_performance. rewrite H.
    rewrite compute_metrics_performance by assumption. reflexivity.
Qed.

End Performance.

Lemma get_campaign_performance_metrics_witness :
  AnalyticsService.get_campaign_performance Example.now "k3"
    Example.campaigns_file
  = Ok (AnalyticsService.mk_metrics 100 40 8 0
          (NFloat (of_Z_raw 100)) (NFloat (of_Z_raw 40))
          (NFloat (of_Z_raw 20)) (NFloat (of_Z_raw 8))
          (NFloat (of_Z_raw 120)) (NFloat (of_Z_raw 56)),
        "Winter sale", "Sent", Example.in_ankara) /\
  AnalyticsService.get_campaign_performance Example.now "k6"
    Example.rated_campaigns
  = Ok (AnalyticsService.mk_metrics 3 2 1 0
          (NFloat (of_Z_raw 100)) (NFloat (lit 6667 2))
          (NFloat (of_Z_raw 50)) (NFloat (lit 3333 2))
          (NFloat (of_Z_raw 15)) (NInt 100),
        "Thirds", "Sent", Example.in_ankara) /\
  AnalyticsService.get_campaign_performance Example.now "k7"
    Example.rated_campaigns
  = Ok (AnalyticsService.mk_metrics 7 3 1 2
          (NFloat (lit 7778 2)) (NFloat (lit 4286 2))
          (NFloat (lit 3333 2)) (NFloat (lit 1429 2))
          (NFloat (of_Z_raw 15)) (NFloat (lit 829 1)),
        "Sevenths", "Sent", Example.in_ankara) /\
  AnalyticsService.get_campaign_performance Example.now "k0"
    Example.campaigns_file = Raise (AnalyticsService.not_found "k0").
Proof.
  destruct (get_campaign_performance_metrics Example.now "k3"
              Example.campaigns_file) as [_ H].
  destruct (get_campaign_performance_metrics Example.now "k6"
              Example.rated_campaigns) as [_ H6].
  destruct (get_campaign_performance_metrics Example.now "k7"
              Example.rated_campaigns) as [_ H7].
  destruct (get_campaign_performance_metrics Example.now "k0"
              Example.campaigns_file) as [H0 _].
  split; [| split; [| split]].
  - rewrite (H Example.delivered);
      [vm_compute; reflexivity | vm_compute; reflexivity | | | | |];
      vm_compute; try (split; [discriminate | reflexivity]); reflexivity.
  - rewrite (H6 Example.thirds);
      [vm_compute; reflexivity | vm_compute; reflexivity | | | | |];
      vm_compute; try (split; [discriminate | reflexivity]); reflexivity.
  - rewrite (H7 Example.sevenths);
      [vm_compute; reflexivity | vm_compute; reflexivity | | | | |];
      vm_compute; try (split; [discriminate | reflexivity]); reflexivity.
  - apply H0. vm_compute. reflexivity.
Defined.

(** ** Segment statistics *)

Section Statistics.
Import SegmentationService.

Lemma fold_left_add_acc l acc :
  fold_left Z.add l acc = acc + fold_left Z.add l 0.
Proof.
  revert acc. induction l as [| x l IH]; intros acc; cbn [fold_left]; [lia |].
  rewrite (IH (acc + x)), (IH (0 + x)). lia.
Qed.

Lemma sum_Z_total (f : Customer.t -> Z) customers :
  sum_Z (f <$> customers) = Spec.total f customers.
Proof.
  unfold sum_Z. induction customers as [| c l IH]; [reflexivity |].
  cbn [fmap list_fmap fold_left Spec.total foldr].
  rewrite fold_left_add_acc. cbn [fmap] in IH. rewrite IH. reflexivity.
Qed.

Lemma sum_Z_ones {A} (l : list A) :
  sum_Z ((fun _ => 1) <$> l) = Z.of_nat (length l).
Proof.
  unfold sum_Z. induction l as [| c l IH]; [reflexivity |].
  cbn [fmap list_fmap fold_left length]. rewrite fold_left_add_acc.
  cbn [fmap] in IH. rewrite IH. lia.
Qed.

Lemma sum_from_floats acc (l : list float) :
  PyNum.sum_from (NFloat acc) (NFloat <$> l) = Ok (NFloat (fold_left fadd l acc)).
Proof.
  revert acc. induction l as [| x l IH]; intros acc; [reflexivity |].
  simpl. apply IH.
Qed.

Lemma sum_revenue customers :
  customers <> [] ->
  PyNum.sum ((fun c => NFloat (Customer.total_spent c)) <$> customers)
  = Ok (NFloat (Spec.revenue customers)).
Proof.
  destruct customers as [| c l]; [congruence |]. intros _.
  unfold PyNum.sum, Spec.revenue. cbn [fmap list_fmap PyNum.sum_from fold_left].
  change (PyNum.add (NInt 0) (NFloat (Customer.total_spent c)))
    with (Ok (NFloat (fadd (S754_zero false) (Customer.total_spent c)))).
  cbn [mbind M_bind].
  rewrite <- (sum_from_floats _ (Customer.total_spent <$> l)).
  f_equal. rewrite <- list_fmap_compose. reflexivity.
Qed.

Lemma mean_truediv t n :
  Spec.counter t -> 0 < n < 2 ^ 53 ->
  PyNum.truediv (NInt t) (NInt n) = Ok (Spec.mean t n).
Proof.
  intros Ht Hn. cbn [PyNum.truediv]. rewrite int_truediv_small by assumption.
  reflexivity.
Qed.

Lemma float_by_count x n :
  0 < n < 2 ^ 53 ->
  PyNum.truediv (NFloat x) (NInt n) = Ok (NFloat (fdiv x (of_Z_raw n))).
Proof.
  intros Hn. destruct n as [| p | p]; try lia.
  destruct (of_Z_raw_small p ltac:(lia)) as (m & e & Hx & _).
  cbn [PyNum.truediv PyNum.to_float mbind M_bind]. unfold of_int.
  rewrite Hx. reflexivity.
Qed.

(** C8, as the code has it. The aggregate of a non-empty list: the count,
    the number of active customers, the means of age and spending score
    rounded to 1 decimal, the sum of the amounts rounded to 2 decimals, and
    that sum, not rounded, divided by the count and rounded to 2 decimals.
    For the empty list every field is 0 and nothing is divided. *)
Theorem get_segment_statistics_aggregate (customers : list Customer.t) :
  get_segment_statistics [] = Ok Spec.all_zero /\
  (customers <> [] ->
   Spec.counter (Spec.total Customer.age customers) ->
   Spec.counter (Spec.total Customer.spending_score customers) ->
   Z.of_nat (length customers) < 2 ^ 53 ->
   get_segment_statistics customers = Ok (Spec.statistics false customers)).
Proof.
  split; [reflexivity |]. intros Hne Ha Hs Hn.
  assert (Hn' : 0 < Z.of_nat (length customers) < 2 ^ 53).
  { destruct customers; [congruence | simpl length in *; lia]. }
  unfold get_segment_statistics, Spec.statistics.
  destruct customers as [| c l] eqn:E; [congruence |]. rewrite <- E in *.
  rewrite sum_revenue by exact Hne. cbn [mbind M_bind].
  rewrite !sum_Z_total, !mean_truediv by assumption. cbn [mbind M_bind].
  rewrite float_by_count by exact Hn'. cbn [mbind M_bind].
  unfold count_active. rewrite sum_Z_ones. reflexivity.
Qed.

End Statistics.

Lemma get_segment_statistics_aggregate_witness :
  SegmentationService.get_segment_statistics Example.customers
  = Ok (Spec.statistics false Example.customers) /\
  Spec.statistics false Example.customers !! "avg_age" = Some (NFloat (lit 32 0))
  /\ Spec.statistics false Example.customers !! "total_revenue"
     = Some (NFloat (lit 12059 2)).
Proof.
  split; [| split; vm_compute; reflexivity].
  apply (get_segment_statistics_aggregate Example.customers);
    [discriminate | vm_compute | vm_compute | vm_compute; reflexivity];
    (split; [discriminate | reflexivity]).
Defined.

Lemma get_segment_statistics_aggregate_counterexample :
  SegmentationService.get_segment_statistics [Example.bob; Example.carol]
  <> Ok (Spec.statistics true [Example.bob; Example.carol]) /\
  (forall r,
     SegmentationService.get_segment_statistics [Example.bob; Example.carol]
     = Ok r ->
     r !! "total_revenue" = Some (NFloat (lit 9 2)) /\
     r !! "avg_revenue_per_customer" = Some (NFloat (lit 5 2)) /\
     PyNum.round (NFloat (fdiv (lit 9 2) (of_Z_raw 2))) 2 = NFloat (lit 4 2)).
Proof.
  split.
  - intros H.
    apply (f_equal (fun r => match r with
                             | Ok m => m !! "avg_revenue_per_customer"
                             | Raise _ => None
                             end)) in H.
    vm_compute in H. discriminate H.
  - intros r H.
    assert (Hr : Ok r = SegmentationService.get_segment_statistics
                          [Example.bob; Example.carol]) by (symmetry; exact H).
    split; [| split].
    + apply (f_equal (fun r => match r with
                               | Ok m => m !! "total_revenue"
                               | Raise _ => None
                               end)) in Hr.
      rewrite Hr. vm_compute. reflexivity.
    + apply (f_equal (fun r => match r with
                               | Ok m => m !! "avg_revenue_per_customer"
                               | Raise _ => None
                               end)) in Hr.
      rewrite Hr. vm_compute. reflexivity.
    + vm_compute. reflexivity.
Qed.

(** ** Engagement simulation *)

Section Simulation.
Import AnalyticsService.

(** A float drawn between two positive bounds is positive and finite. *)
Lemma drawn_from_inv lo hi r ml el mh eh :
  lo = S754_finite false ml el -> hi = S754_finite false mh eh ->
  Spec.drawn_from lo hi r = true ->
  exists m e, r = S754_finite false m e /\ Zpos m < 2 ^ 53 /\ e <= eh.
Proof.
  intros -> ->. unfold Spec.drawn_from. rewrite !andb_true_iff.
  intros [[Hv Hlo] Hhi].
  destruct r as [s | s | | s m e]; try discriminate;
    try (destruct s; discriminate).
  destruct s; [discriminate |].
  exists m, e. split; [reflexivity |]. split.
  - unfold valid_binary, bounded, canonical_mantissa in Hv.
    apply andb_true_iff in Hv as [Hc _]. apply Z.eqb_eq in Hc.
    rewrite fexp_eq in Hc.
    pose proof (digits2_pos_bounds m) as [_ Hu].
    assert (Hd : Zpos (digits2_pos m) <= 53).
    { pose proof (Z.le_max_l (Zpos (digits2_pos m) + e - 53) (-1074)) as Hle.
      rewrite Hc in Hle. lia. }
    assert (2 ^ Zpos (digits2_pos m) <= 2 ^ 53).
    { apply Z.pow_le_mono_r; [lia | exact Hd]. }
    lia.
  - unfold fle, SFleb, SFcompare in Hhi.
    destruct (e ?= eh) eqn:E; try discriminate.
    + apply Z.compare_eq in E. lia.
    + pose proof (proj1 (Z.compare_lt_iff e eh) E) as E'. lia.
Qed.

Lemma to_int_floor x :
  x = S754_zero false \/ (exists m e, x = S754_finite false m e) ->
  PyFloat.to_int x = Ok (Spec.floor x).
Proof.
  intros [-> | (m & e & ->)]; [reflexivity |].
  unfold PyFloat.to_int, Spec.floor. destruct e as [| p | p].
  - rewrite Z.shiftl_0_r. f_equal. lia.
  - rewrite Z.shiftl_mul_pow2 by lia. reflexivity.
  - rewrite Z.shiftr_div_pow2 by lia. reflexivity.
Qed.

Lemma floor_bound m e D E :
  Zpos m <= 2 ^ D -> e <= E -> 0 <= D -> 0 <= E ->
  0 <= Spec.floor (S754_finite false m e) < 2 ^ (D + E + 1).
Proof.
  intros Hm He HD HE. unfold Spec.floor.
  assert (Hp : 0 < 2 ^ D) by (apply Z.pow_pos_nonneg; lia).
  assert (Hq : 2 ^ D < 2 ^ (D + E + 1)) by (apply Z.pow_lt_mono_r; lia).
  destruct e as [| p | p].
  - change (2 ^ 0) with 1. lia.
  - assert (0 < 2 ^ Zpos p) by (apply Z.pow_pos_nonneg; lia).
    assert (2 ^ Zpos p <= 2 ^ E) by (apply Z.pow_le_mono_r; lia).
    assert (0 < 2 ^ E) by (apply Z.pow_pos_nonneg; lia).
    rewrite Z.pow_add_r, Z.pow_add_r by lia.
    change (2 ^ 1) with 2. split; nia.
  - assert (0 < 2 ^ Zpos p) by (apply Z.pow_pos_nonneg; lia).
    split; [apply Z.div_pos; lia |].
    assert (Zpos m / 2 ^ Zpos p <= Zpos m); [| lia].
    apply Z.div_le_upper_bound; nia.
Qed.

(** [int(z * r)] for an integer in range and a drawn rate is the floor of
    the product; it is in range again. *)
Lemma int_of_product z m e K :
  0 <= z < 2 ^ K -> 53 <= K <= 282 ->
  Zpos m < 2 ^ 53 -> e <= -53 ->
  let r := S754_finite false m e in
  (f ← PyNum.mul (NInt z) (NFloat r); PyNum.to_int f)
  = Ok (Spec.floor_of_product z r) /\
  0 <= Spec.floor_of_product z r < 2 ^ (5 * K - 103).
Proof.
  intros Hz HK Hm He r. unfold Spec.floor_of_product.
  destruct (of_int_bounded z K Hz ltac:(lia)) as (x & Hx & Hcases).
  assert (Hraw : x = of_Z_raw z).
  { unfold of_int in Hx. destruct (is_inf (of_Z_raw z)); congruence. }
  cbn [PyNum.mul PyNum.to_float mbind M_bind]. rewrite Hx.
  cbn [mbind M_bind PyNum.to_int]. rewrite <- Hraw.
  assert (Hpos : 0 < 2 ^ (5 * K - 103)) by (apply Z.pow_pos_nonneg; lia).
  destruct Hcases as [-> | (mx & ex & -> & Hmx & Hex)].
  - split; [reflexivity |]. simpl. lia.
  - destruct (fmul_bounded false mx ex false m e K 53 (2 * K - 158))
      as [Hr | (mr & er & Hr & Hmr & Her)]; try lia.
    + rewrite fexp_eq. lia.
    + fold r in Hr. rewrite Hr. split; [reflexivity |]. simpl. lia.
    + fold r in Hr. rewrite Hr. rewrite fexp_eq in Her.
      split; [apply to_int_floor; right; eauto |].
      pose proof (floor_bound mr er (K + 53) (4 * K - 157) Hmr
                    ltac:(lia) ltac:(lia) ltac:(lia)) as Hb.
      replace (K + 53 + (4 * K - 157) + 1) with (5 * K - 103) in Hb by lia.
      exact Hb.
Qed.

Lemma simulated_counts sent open_rate click_rate :
  0 < sent < 2 ^ 53 ->
  Spec.drawn_from (lit 25 2) (lit 65 2) open_rate = true ->
  Spec.drawn_from (lit 5 2) (lit 20 2) click_rate = true ->
  (opened_f ← PyNum.mul (NInt sent) (NFloat open_rate);
   emails_opened ← PyNum.to_int opened_f;
   clicked_f ← PyNum.mul (NInt emails_opened) (NFloat click_rate);
   emails_clicked ← PyNum.to_int clicked_f;
   Ok (emails_opened, emails_clicked))
  = Ok (Spec.floor_of_product sent open_rate,
        Spec.floor_of_product (Spec.floor_of_product sent open_rate)
          click_rate).
Proof.
  intros Hs H1 H2.
  edestruct (drawn_from_inv (lit 25 2) (lit 65 2) open_rate)
    as (m1 & e1 & -> & Hm1 & He1);
    [vm_compute; reflexivity | vm_compute; reflexivity | exact H1 |].
  edestruct (drawn_from_inv (lit 5 2) (lit 20 2) click_rate)
    as (m2 & e2 & -> & Hm2 & He2);
    [vm_compute; reflexivity | vm_compute; reflexivity | exact H2 |].
  destruct (int_of_product sent m1 e1 53 ltac:(lia) ltac:(lia) Hm1 He1)
    as [Ho Hob].
  set (o := Spec.floor_of_product sent (S754_finite false m1 e1)) in *.
  destruct (int_of_product o m2 e2 162 ltac:(simpl in Hob; lia) ltac:(lia)
              Hm2 ltac:(lia)) as [Hk _].
  destruct (PyNum.mul (NInt sent) (NFloat (S754_finite false m1 e1)))
    as [f |]; [| discriminate]. cbn [mbind M_bind] in Ho |- *. rewrite Ho.
  cbn [mbind M_bind].
  destruct (PyNum.mul (NInt o) (NFloat (S754_finite false m2 e2)))
    as [g |]; [| discriminate]. cbn [mbind M_bind] in Hk |- *. rewrite Hk.
  reflexivity.
Qed.

Lemma stat_insert_eq (stats : gmap string Z) key v :
  stat (<[key := v]> stats) key = v.
Proof. unfold stat. rewrite lookup_insert_eq. reflexivity. Qed.

Lemma stat_insert_ne (stats : gmap string Z) key key' v :
  key <> key' -> stat (<[key := v]> stats) key' = stat stats key'.
Proof. intros H. unfold stat. rewrite lookup_insert_ne by exact H. reflexivity. Qed.

(** C7. [simulate_engagement] raises "not found" for an id that does not
    resolve. For a stored campaign it writes only when
    [sent > 0 and opened == 0 and clicked == 0]; otherwise it returns the
    campaign and leaves the file as it is. When it writes, for rates drawn
    from [0.25, 0.65] and [0.05, 0.20], [opened] becomes
    [floor(sent × open_rate)] and [clicked]
    [floor(opened × click_rate)], the campaign is stored, and once one of
    the two is not zero every later call changes nothing. *)
Theorem simulate_engagement_once now campaign_id open_rate click_rate
    (campaigns : file) :
  (JsonRepository.get_by_id (Campaign.from_dict now) campaigns campaign_id
   = Ok None ->
   simulate_engagement now campaign_id open_rate click_rate campaigns
   = (Raise (not_found campaign_id), campaigns)) /\
  (forall campaign,
     JsonRepository.get_by_id (Campaign.from_dict now) campaigns campaign_id
     = Ok (Some campaign) ->
     let sent := stat (Campaign.stats campaign) "sent" in
     let opened := stat (Campaign.stats campaign) "opened" in
     let clicked := stat (Campaign.stats campaign) "clicked" in
     (~ (0 < sent /\ opened = 0 /\ clicked = 0) ->
      simulate_engagement now campaign_id open_rate click_rate campaigns
      = (Ok campaign, campaigns)) /\
     (0 < sent /\ opened = 0 /\ clicked = 0 ->
      sent < 2 ^ 53 -> DateTime.valid now = true ->
      Spec.drawn_from (lit 25 2) (lit 65 2) open_rate = true ->
      Spec.drawn_from (lit 5 2) (lit 20 2) click_rate = true ->
      let o := Spec.floor_of_product sent open_rate in
      let k := Spec.floor_of_product o click_rate in
      exists updated campaigns',
        simulate_engagement now campaign_id open_rate click_rate campaigns
        = (Ok updated, campaigns') /\
        Campaign.stats updated
        = <["clicked" := k]> (<["opened" := o]> (Campaign.stats campaign)) /\
        stat (Campaign.stats updated) "sent" = sent /\
        Campaign.status updated = Campaign.status campaign /\
        Campaign.id updated = Campaign.id campaign /\
        (forall now',
           JsonRepository.get_by_id (Campaign.from_dict now') campaigns'
             campaign_id = Ok (Some updated)) /\
        (o <> 0 \/ k <> 0 ->
         forall now' open_rate' click_rate',
           simulate_engagement now' campaign_id open_rate' click_rate'
             campaigns' = (Ok updated, campaigns')))).
Proof.
  split.
  - intros H. unfold simulate_engagement. rewrite H. reflexivity.
  - intros campaign Hget sent opened clicked. split.
    + intros Hn. unfold simulate_engagement. rewrite Hget.
      fold sent opened clicked.
      replace ((sent >? 0) && (opened =? 0) && (clicked =? 0)) with false;
        [reflexivity |].
      symmetry. apply not_true_is_false. intros Ht.
      apply andb_true_iff in Ht as [Ht H3].
      apply andb_true_iff in Ht as [H1 H2].
      apply Hn. rewrite Z.gtb_lt in H1. apply Z.eqb_eq in H2, H3. auto.
    + intros (Hs & Ho & Hc) Hb Hnow Hr1 Hr2 o k.
      pose proof (get_by_id_id _ _ _ _ Hget) as Hid.
      pose proof (get_by_id_valid _ _ _ _ Hnow Hget) as Hv.
      set (updated := simulated campaign o k).
      destruct (get_by_id_update (Campaign.from_dict now) Campaign.to_dict
                  campaigns campaign_id campaign updated Hget)
        as (f' & Hu & _).
      { rewrite <- Hid. apply (has_id_to_dict updated). }
      { apply Campaign_roundtrip. exact Hv. }
      assert (Hread : forall now',
                JsonRepository.get_by_id (Campaign.from_dict now') f'
                  campaign_id = Ok (Some updated)).
      { intros now'. unfold JsonRepository.update in Hu.
        destruct (JsonRepository.replace_first _ _ _) as [l |] eqn:E;
          [| discriminate].
        injection Hu as <-. unfold JsonRepository.get_by_id. simpl.
        rewrite (first_with_id_replaced campaign_id (Campaign.to_dict updated)
                   _ l ltac:(rewrite <- Hid; apply (has_id_to_dict updated)) E).
        rewrite Campaign_roundtrip by exact Hv. reflexivity. }
      exists updated, f'. split; [| split; [reflexivity |]].
      * unfold simulate_engagement. rewrite Hget. fold sent opened clicked.
        replace ((sent >? 0) && (opened =? 0) && (clicked =? 0)) with true.
        -- rewrite (simulated_counts sent open_rate click_rate
                      ltac:(lia) Hr1 Hr2).
           fold o k updated. rewrite Hu. reflexivity.
        -- symmetry. rewrite !andb_true_iff, Z.gtb_lt, !Z.eqb_eq. auto.
      * split; [| split; [reflexivity | split; [reflexivity |]]].
        { cbn [updated simulated Campaign.stats].
          rewrite !stat_insert_ne by discriminate. reflexivity. }
        split; [exact Hread |].
        intros Hnz now' r1' r2'. unfold simulate_engagement.
        rewrite Hread. cbn [updated simulated Campaign.stats].
        rewrite stat_insert_eq, (stat_insert_ne _ "clicked" "opened")
          by discriminate.
        rewrite stat_insert_eq.
        replace ((stat _ "sent" >? 0) && (o =? 0) && (k =? 0)) with false;
          [reflexivity |].
        symmetry. apply not_true_is_false. intros Ht.
        apply andb_true_iff in Ht as [Ht H3].
        apply andb_true_iff in Ht as [_ H2].
        apply Z.eqb_eq in H2, H3. destruct Hnz; contradiction.
Qed.

End Simulation.

Lemma simulate_engagement_once_witness :
  exists updated campaigns',
    AnalyticsService.simulate_engagement Example.now "k4" (lit 405 3) (lit 1 1)
      Example.campaigns_file = (Ok updated, campaigns') /\
    AnalyticsService.stat (Campaign.stats updated) "opened" = 40 /\
    AnalyticsService.stat (Campaign.stats updated) "clicked" = 4 /\
    AnalyticsService.simulate_engagement Example.now "k4" (lit 65 2) (lit 20 2)
      campaigns' = (Ok updated, campaigns') /\
    AnalyticsService.simulate_engagement Example.now "k3" (lit 65 2) (lit 20 2)
      Example.campaigns_file = (Ok Example.delivered, Example.campaigns_file).
Proof.
  destruct (simulate_engagement_once Example.now "k4" (lit 405 3) (lit 1 1)
              Example.campaigns_file) as [_ H].
  destruct (H Example.fresh ltac:(vm_compute; reflexivity)) as [_ H4].
  destruct H4 as (updated & campaigns' & Hsim & Hstats & _ & _ & _ & _ & Hidem);
    [vm_compute; auto | vm_compute; reflexivity | reflexivity
    | vm_compute; reflexivity | vm_compute; reflexivity |].
  destruct (simulate_engagement_once Example.now "k3" (lit 65 2) (lit 20 2)
              Example.campaigns_file) as [_ H'].
  destruct (H' Example.delivered ltac:(vm_compute; reflexivity)) as [H3 _].
  exists updated, campaigns'. split; [exact Hsim |].
  split; [rewrite Hstats; vm_compute; reflexivity |].
  split; [rewrite Hstats; vm_compute; reflexivity |].
  split.
  - apply Hidem. left. vm_compute. discriminate.
  - apply H3. vm_compute. intros (_ & H0 & _). discriminate H0.
Defined.

(** * Further properties of the code *)

(** ** The repository as a collection *)

Section RepositoryLaws.
Import JsonRepository.
Context {T : Type} (from_dict : doc -> M T) (to_dict : T -> doc).

Lemma has_id_unique item a b :
  has_id item a = true -> has_id item b = true -> a = b.
Proof.
  unfold has_id. destruct (item !! "id") as [[[] |] |]; try discriminate.
  intros Ha Hb. apply String.eqb_eq in Ha, Hb. congruence.
Qed.

Lemma first_with_id_app_found entity_id l l' item :
  first_with_id entity_id l = Some item ->
  first_with_id entity_id (l ++ l') = Some item.
Proof.
  induction l as [| x l IH]; [discriminate |]. simpl.
  destruct (has_id x entity_id); [auto | exact IH].
Qed.

Lemma first_with_id_app_other entity_id l d :
  has_id d entity_id = false ->
  first_with_id entity_id (l ++ [d]) = first_with_id entity_id l.
Proof.
  intros Hd. induction l as [| x l IH]; simpl.
  - rewrite Hd. reflexivity.
  - destruct (has_id x entity_id); [reflexivity | exact IH].
Qed.

(** X1. An entity saved under an id that no stored document carries is
    read back by that id, and the collection has one more element. *)
Theorem save_then_get_by_id (f : file) (entity : T) entity_id :
  first_with_id entity_id (_read_all_raw f) = None ->
  has_id (to_dict entity) entity_id = true ->
  from_dict (to_dict entity) = Ok entity ->
  get_by_id from_dict (snd (save to_dict f entity)) entity_id
  = Ok (Some entity) /\
  count (snd (save to_dict f entity)) = S (count f) /\
  fst (save to_dict f entity) = entity.
Proof.
  intros Hfree Hid Hrt. unfold get_by_id, save, count. cbn [fst snd _read_all_raw _write_all_raw].
  rewrite (first_with_id_app entity_id _ _ Hfree Hid), Hrt.
  rewrite length_app. simpl. repeat split; lia.
Qed.

(** X2. [save] does not look for the id: when a stored document already
    carries it, the new entity is appended all the same and [get_by_id]
    keeps answering with the older one. *)
Theorem save_duplicate_is_shadowed (f : file) (entity : T) entity_id item :
  first_with_id entity_id (_read_all_raw f) = Some item ->
  get_by_id from_dict (snd (save to_dict f entity)) entity_id
  = get_by_id from_dict f entity_id /\
  count (snd (save to_dict f entity)) = S (count f) /\
  _read_all_raw (snd (save to_dict f entity))
  = _read_all_raw f ++ [to_dict entity].
Proof.
  intros Hold. unfold get_by_id, save, count.
  cbn [fst snd _read_all_raw _write_all_raw].
  rewrite (first_with_id_app_found _ _ [to_dict entity] _ Hold), Hold.
  rewrite length_app. simpl. repeat split; lia.
Qed.

Lemma first_with_id_filter_same entity_id l :
  first_with_id entity_id
    (List.filter (fun item => negb (has_id item entity_id)) l) = None.
Proof.
  induction l as [| x l IH]; [reflexivity |]. simpl.
  destruct (has_id x entity_id) eqn:E; simpl; [exact IH |].
  rewrite E. exact IH.
Qed.

Lemma first_with_id_filter_other entity_id other l :
  entity_id <> other ->
  first_with_id other
    (List.filter (fun item => negb (has_id item entity_id)) l)
  = first_with_id other l.
Proof.
  intros Hne. induction l as [| x l IH]; [reflexivity |]. simpl.
  destruct (has_id x entity_id) eqn:E; simpl.
  - destruct (has_id x other) eqn:E'; [| exact IH].
    exfalso. apply Hne. eapply has_id_unique; eassumption.
  - rewrite IH. reflexivity.
Qed.

Lemma filter_length_lt {A} (p : A -> bool) l :
  (length (List.filter p l) <? length l)%nat = true <->
  exists x, In x l /\ p x = false.
Proof.
  rewrite Nat.ltb_lt. induction l as [| a l IH]; simpl.
  - split; [lia | intros (x & [] & _)].
  - pose proof (filter_length_le p l) as Hle.
    destruct (p a) eqn:E; simpl.
    + rewrite <- Nat.succ_lt_mono, IH. split.
      * intros (x & Hx & Hp). eauto.
      * intros (x & [-> | Hx] & Hp); [congruence | eauto].
    + split; [eauto | lia].
Qed.

Lemma first_with_id_none entity_id l :
  first_with_id entity_id l = None <->
  forall item, In item l -> has_id item entity_id = false.
Proof.
  induction l as [| x l IH]; simpl.
  - split; [intros _ item [] | reflexivity].
  - destruct (has_id x entity_id) eqn:E.
    + split; [discriminate |]. intros H. specialize (H x (or_introl eq_refl)).
      congruence.
    + rewrite IH. split.
      * intros H item [<- | Hi]; auto.
      * intros H item Hi. apply H. right. exact Hi.
Qed.

(** X3. [delete] removes every document carrying the id: afterwards the id
    does not resolve, the other ids resolve to the same documents as
    before, and the answer is [True] exactly when some document carried the
    id; when none did, the file is left as it was. *)
Theorem delete_removes_every_match (f : file) entity_id :
  let r := delete f entity_id in
  get_by_id from_dict (snd r) entity_id = Ok None /\
  (forall other, entity_id <> other ->
     get_by_id from_dict (snd r) other = get_by_id from_dict f other) /\
  (fst r = true <-> is_Some (first_with_id entity_id (_read_all_raw f))) /\
  (fst r = false -> snd r = f) /\
  (count (snd r) <= count f)%nat.
Proof.
  intros r. subst r. unfold delete, get_by_id, count.
  set (raw := _read_all_raw f).
  set (kept := List.filter (fun item => negb (has_id item entity_id)) raw).
  assert (Hnone : first_with_id entity_id raw = None ->
                  (length kept <? length raw)%nat = false).
  { intros H. apply not_true_is_false. intros Hlt.
    apply filter_length_lt in Hlt as (x & Hx & Hp).
    rewrite first_with_id_none in H. rewrite (H x Hx) in Hp. discriminate. }
  assert (Hsome : is_Some (first_with_id entity_id raw) ->
                  (length kept <? length raw)%nat = true).
  { intros [item Hi]. apply filter_length_lt.
    exists item. split.
    - clear -Hi. induction raw as [| x l IH]; [discriminate |]. simpl in Hi.
      destruct (has_id x entity_id); [left; congruence | right; auto].
    - apply first_with_id_has_id in Hi. rewrite Hi. reflexivity. }
  destruct (first_with_id entity_id raw) as [item |] eqn:E.
  - rewrite Hsome by eauto. cbn [fst snd _read_all_raw _write_all_raw].
    fold kept. unfold kept at 1. rewrite first_with_id_filter_same.
    split; [reflexivity |]. split.
    { intros other Hne. unfold kept. fold raw.
      rewrite (first_with_id_filter_other _ _ _ Hne). reflexivity. }
    split; [split; eauto |]. split; [discriminate |].
    apply filter_length_le.
  - rewrite Hnone by reflexivity. cbn [fst snd]. fold raw. rewrite E.
    split; [reflexivity |]. split; [reflexivity |].
    split; [split; [discriminate | intros [? ?]; discriminate] |].
    split; [reflexivity | lia].
Qed.

Lemma first_with_id_replace_other entity_id other d l l' :
  entity_id <> other -> has_id d other = false ->
  replace_first entity_id d l = Some l' ->
  first_with_id other l' = first_with_id other l.
Proof.
  intros Hne Hd. revert l'. induction l as [| x l IH]; intros l'; [discriminate |].
  simpl. destruct (has_id x entity_id) eqn:E.
  - intros [= <-]. simpl. rewrite Hd.
    destruct (has_id x other) eqn:E'; [| reflexivity].
    exfalso. apply Hne. eapply has_id_unique; eassumption.
  - destruct (replace_first entity_id d l) as [l1 |]; [| discriminate].
    intros [= <-]. simpl. rewrite (IH l1 eq_refl). reflexivity.
Qed.

(** X4. [update] of an id that no document carries answers [None] and
    leaves the file as it was. Otherwise it rewrites the first document
    carrying the id, keeps the number of documents, and every other id that
    is not the new document's own id resolves as before. *)
Theorem update_touches_one_document (f : file) entity_id (entity : T) :
  (first_with_id entity_id (_read_all_raw f) = None ->
   update to_dict f entity_id entity = (None, f)) /\
  (is_Some (first_with_id entity_id (_read_all_raw f)) ->
   exists f',
     update to_dict f entity_id entity = (Some entity, f') /\
     count f' = count f /\
     forall other,
       entity_id <> other -> has_id (to_dict entity) other = false ->
       get_by_id from_dict f' other = get_by_id from_dict f other).
Proof.
  unfold update, count, get_by_id. split.
  - intros H. rewrite (replace_first_missing _ _ _ H). reflexivity.
  - intros [item Hi].
    destruct (replace_first_found entity_id (to_dict entity) _ _ Hi) as [l' Hl'].
    rewrite Hl'. eexists. split; [reflexivity |].
    cbn [_read_all_raw _write_all_raw]. split.
    + eapply replace_first_length, Hl'.
    + intros other Hne Hd.
      rewrite (first_with_id_replace_other _ _ _ _ _ Hne Hd Hl'). reflexivity.
Qed.

(** X5. [update] stores the entity under the position of the id it was
    asked for, without looking at the entity's own id: when the two differ
    and no other document carries the old id, the old id does not resolve any
    more. *)
Theorem update_can_rename (l1 l2 : list doc) (item : doc) entity_id (entity : T) :
  has_id item entity_id = true ->
  first_with_id entity_id l1 = None ->
  first_with_id entity_id l2 = None ->
  has_id (to_dict entity) entity_id = false ->
  let f' := snd (update to_dict (Some (l1 ++ item :: l2)) entity_id entity) in
  get_by_id from_dict f' entity_id = Ok None /\
  _read_all_raw f' = l1 ++ to_dict entity :: l2.
Proof.
  intros Hitem H1 H2 Hnew f'. subst f'. unfold update, get_by_id.
  cbn [_read_all_raw].
  assert (Hr : replace_first entity_id (to_dict entity) (l1 ++ item :: l2)
               = Some (l1 ++ to_dict entity :: l2)).
  { clear H2. induction l1 as [| x l1 IH]; simpl in *.
    - rewrite Hitem. reflexivity.
    - destruct (has_id x entity_id); [discriminate |].
      rewrite (IH H1). reflexivity. }
  rewrite Hr. cbn [fst snd _read_all_raw _write_all_raw].
  split; [| reflexivity].
  assert (Hn : first_with_id entity_id (l1 ++ to_dict entity :: l2) = None).
  { clear Hr. induction l1 as [| x l1 IH]; simpl in *.
    - rewrite Hnew. exact H2.
    - destruct (has_id x entity_id); [discriminate | auto]. }
  rewrite Hn. reflexivity.
Qed.

Lemma mapM_list_length l (r : list T) :
  mapM_list from_dict l = Ok r -> length r = length l.
Proof.
  revert r. induction l as [| x l IH]; intros r; simpl.
  - intros [= <-]. reflexivity.
  - destruct (from_dict x) as [b |]; [| discriminate]. simpl.
    destruct (mapM_list from_dict l) as [bs |]; [| discriminate]. simpl.
    intros [= <-]. simpl. f_equal. apply IH. reflexivity.
Qed.

Lemma mapM_list_raise l e :
  mapM_list from_dict l = Raise e ->
  exists item, In item l /\ from_dict item = Raise e.
Proof.
  induction l as [| x l IH]; simpl; [discriminate |].
  destruct (from_dict x) as [b |] eqn:E; simpl.
  - destruct (mapM_list from_dict l) as [bs |]; [discriminate |]. simpl.
    intros [= <-]. destruct (IH eq_refl) as (item & Hi & He). eauto.
  - intros [= <-]. eauto.
Qed.

Lemma filter_sublist {A} (p : A -> bool) (l : list A) :
  sublist (List.filter p l) l.
Proof.
  induction l as [| a l IH]; simpl; [constructor |].
  destruct (p a); [apply sublist_skip | apply sublist_cons]; exact IH.
Qed.

(** X7. When [get_all] succeeds it returns as many entities as [count]
    says, and [find] returns those of them that satisfy the predicate, in
    the same order. When [get_all] raises, some stored document is the one
    whose decoding raises that exception. *)
Theorem get_all_count_find (f : file) (p : T -> bool) :
  (forall l, get_all from_dict f = Ok l ->
     length l = count f /\
     find from_dict f p = Ok (List.filter p l) /\
     sublist (List.filter p l) l /\
     (length (List.filter p l) <= count f)%nat) /\
  (forall e, get_all from_dict f = Raise e ->
     find from_dict f p = Raise e /\
     exists item, In item (_read_all_raw f) /\ from_dict item = Raise e).
Proof.
  unfold get_all, find, count. split.
  - intros l Hl. pose proof (mapM_list_length _ _ Hl) as Hlen.
    unfold get_all. rewrite Hl. repeat split; auto.
    + apply filter_sublist.
    + rewrite <- Hlen. apply filter_length_le.
  - intros e He. unfold get_all. rewrite He. split; [reflexivity |].
    apply mapM_list_raise, He.
Qed.

End RepositoryLaws.

Lemma save_then_get_by_id_witness :
  JsonRepository.get_by_id Customer.from_dict
    (snd (JsonRepository.save Customer.to_dict
            (Some (Customer.to_dict <$> [Example.alice; Example.bob]))
            Example.carol)) "c3"
  = Ok (Some Example.carol) /\
  JsonRepository.count
    (snd (JsonRepository.save Customer.to_dict
            (Some (Customer.to_dict <$> [Example.alice; Example.bob]))
            Example.carol))
  = S (JsonRepository.count
         (Some (Customer.to_dict <$> [Example.alice; Example.bob]))) /\
  fst (JsonRepository.save Customer.to_dict
         (Some (Customer.to_dict <$> [Example.alice; Example.bob]))
         Example.carol) = Example.carol.
Proof.
  apply (save_then_get_by_id Customer.from_dict Customer.to_dict).
  - vm_compute; reflexivity.
  - vm_compute; reflexivity.
  - apply Customer_roundtrip.
Defined.

Lemma save_duplicate_is_shadowed_witness :
  JsonRepository.get_by_id Customer.from_dict
    (snd (JsonRepository.save Customer.to_dict Example.customers_file
            (Customer.mk "c1" "Zed" "zed@example.com" "Bursa" 50 5
               (S754_zero false) true))) "c1"
  = JsonRepository.get_by_id Customer.from_dict Example.customers_file "c1".
Proof.
  apply (save_duplicate_is_shadowed Customer.from_dict Customer.to_dict
           Example.customers_file _ "c1" (Customer.to_dict Example.alice)).
  vm_compute; reflexivity.
Defined.

Lemma update_can_rename_witness :
  JsonRepository.get_by_id Customer.from_dict
    (snd (JsonRepository.update Customer.to_dict
            (Some ([Customer.to_dict Example.alice]
                   ++ Customer.to_dict Example.bob :: []))
            "c2" Example.carol)) "c2"
  = Ok None.
Proof.
  apply (update_can_rename Customer.from_dict Customer.to_dict
           [Customer.to_dict Example.alice] [] (Customer.to_dict Example.bob)
           "c2" Example.carol); vm_compute; reflexivity.
Defined.

(** ** Documents with missing or additional keys *)

Ltac lookup_delete_tac :=
  repeat first
    [ rewrite lookup_delete_eq
    | rewrite lookup_delete_ne by discriminate
    | rewrite lookup_insert_eq
    | rewrite lookup_insert_ne by discriminate
    | rewrite lookup_empty ].

Lemma getitem_inv (d : doc) k {A} (read : jval -> M A) a :
  Json.getitem d k ≫= read = Ok a ->
  exists v, d !! k = Some v /\ read v = Ok a.
Proof.
  unfold Json.getitem. destruct (d !! k) as [v |]; [eauto | discriminate].
Qed.

Lemma as_str_inv v s : Json.as_str v = Ok s -> v = JAtom (AStr s).
Proof. destruct v as [[] |]; try discriminate. intros [= <-]. reflexivity. Qed.
Lemma as_int_inv v z : Json.as_int v = Ok z -> v = JAtom (AInt z).
Proof. destruct v as [[] |]; try discriminate. intros [= <-]. reflexivity. Qed.
Lemma as_float_inv v f : Json.as_float v = Ok f -> v = JAtom (AFloat f).
Proof. destruct v as [[] |]; try discriminate. intros [= <-]. reflexivity. Qed.
Lemma as_bool_inv v b : Json.as_bool v = Ok b -> v = JAtom (ABool b).
Proof. destruct v as [[] |]; try discriminate. intros [= <-]. reflexivity. Qed.
Lemma as_dict_inv v d : Json.as_dict v = Ok d -> v = JDict d.
Proof. destruct v as [[] |]; try discriminate. intros [= <-]. reflexivity. Qed.

(** X8. Every field of a customer document is required: without any one of
    the eight keys [Customer.from_dict] raises [KeyError] for that key. It
    reads nothing else: a customer that was read, written back, gives a part
    of the document it came from. *)
Theorem Customer_from_dict_reads_eight_keys :
  (forall (c : Customer.t) key,
     In key ["id"; "name"; "email"; "city"; "age"; "spending_score";
             "total_spent"; "is_active"]%string ->
     Customer.from_dict (delete key (Customer.to_dict c))
     = Raise (KeyError key)) /\
  (forall (data : doc) c,
     Customer.from_dict data = Ok c -> Customer.to_dict c ⊆ data).
Proof.
  split.
  - intros c key Hkey.
    destruct c. unfold Customer.from_dict, Customer.to_dict, Json.getitem.
    cbn [Customer.id Customer.name Customer.email Customer.city Customer.age
         Customer.spending_score Customer.total_spent Customer.is_active].
    simpl in Hkey.
    repeat (destruct Hkey as [<- | Hkey];
            [lookup_delete_tac; cbn; lookup_delete_tac; reflexivity |]).
    destruct Hkey.
  - intros data c H. unfold Customer.from_dict in H.
    apply bind_Ok_inv in H as (i & Hi & H).
    apply bind_Ok_inv in H as (n & Hn & H).
    apply bind_Ok_inv in H as (e & He & H).
    apply bind_Ok_inv in H as (ci & Hc & H).
    apply bind_Ok_inv in H as (a & Ha & H).
    apply bind_Ok_inv in H as (sc & Hsc & H).
    apply bind_Ok_inv in H as (ts & Hts & H).
    apply bind_Ok_inv in H as (ac & Hac & H).
    injection H as <-.
    apply getitem_inv in Hi as (? & Hi & ->%as_str_inv).
    apply getitem_inv in Hn as (? & Hn & ->%as_str_inv).
    apply getitem_inv in He as (? & He & ->%as_str_inv).
    apply getitem_inv in Hc as (? & Hc & ->%as_str_inv).
    apply getitem_inv in Ha as (? & Ha & ->%as_int_inv).
    apply getitem_inv in Hsc as (? & Hsc & ->%as_int_inv).
    apply getitem_inv in Hts as (? & Hts & ->%as_float_inv).
    apply getitem_inv in Hac as (? & Hac & ->%as_bool_inv).
    unfold Customer.to_dict.
    cbn [Customer.id Customer.name Customer.email Customer.city Customer.age
         Customer.spending_score Customer.total_spent Customer.is_active].
    repeat (apply insert_subseteq_l; [assumption |]).
    apply map_empty_subseteq.
Qed.


Lemma fromisoformat_created (c : Campaign.t) :
  DateTime.valid (Campaign.created_at c) = true ->
  DateTime.fromisoformat (DateTime.isoformat (Campaign.created_at c))
  = Ok (Campaign.created_at c).
Proof. apply fromisoformat_isoformat. Qed.

(** X9. A campaign document needs the keys [id], [title],
    [content_template] and [target_segment_criteria]: without one of them
    [Campaign.from_dict] raises [KeyError] for it. The other three have
    defaults: without [status] the campaign is a draft, without [stats] it
    has the three counters at zero, and without [created_at], or with
    [null] there, it is dated by the clock. *)
Theorem Campaign_from_dict_defaults now (c : Campaign.t) :
  DateTime.valid (Campaign.created_at c) = true ->
  (forall key,
     In key ["id"; "title"; "content_template";
             "target_segment_criteria"]%string ->
     Campaign.from_dict now (delete key (Campaign.to_dict c))
     = Raise (KeyError key)) /\
  Campaign.from_dict now (delete "status" (Campaign.to_dict c))
  = Ok (with_status c "Draft") /\
  Campaign.from_dict now (delete "stats" (Campaign.to_dict c))
  = Ok (with_stats c Campaign.default_stats) /\
  Campaign.from_dict now (delete "created_at" (Campaign.to_dict c))
  = Ok (with_created_at c now) /\
  Campaign.from_dict now (<["created_at" := JAtom ANone]> (Campaign.to_dict c))
  = Ok (with_created_at c now).
Proof.
  intros Hv. pose proof (fromisoformat_created c Hv) as Hiso.
  pose proof (as_counters_of_counters (Campaign.stats c)) as Hst.
  destruct c.
  unfold Campaign.from_dict, Campaign.to_dict, Json.getitem,
    with_status, with_stats, with_created_at.
  cbn [Campaign.id Campaign.title Campaign.content_template
       Campaign.target_segment_criteria Campaign.status Campaign.created_at
       Campaign.stats] in *.
  split; [| repeat split].
  - intros key Hkey. simpl in Hkey.
    repeat (destruct Hkey as [<- | Hkey];
            [lookup_delete_tac; rewrite Hiso;
             cbn [mbind M_bind Json.as_str Json.as_dict]; reflexivity |]).
    destruct Hkey.
  - lookup_delete_tac. rewrite Hiso.
    cbn [mbind M_bind Json.as_str Json.as_dict]. rewrite Hst. reflexivity.
  - lookup_delete_tac. rewrite Hiso.
    cbn [mbind M_bind Json.as_str Json.as_dict]. reflexivity.
  - lookup_delete_tac.
    cbn [mbind M_bind Json.as_str Json.as_dict]. rewrite Hst. reflexivity.
  - lookup_delete_tac.
    cbn [mbind M_bind Json.as_str Json.as_dict]. rewrite Hst. reflexivity.
Qed.

Lemma Campaign_from_dict_defaults_witness :
  Campaign.from_dict Example.now
    (delete "status" (Campaign.to_dict Example.delivered))
  = Ok (with_status Example.delivered "Draft").
Proof.
  apply (Campaign_from_dict_defaults Example.now Example.delivered).
  reflexivity.
Defined.

(** ** Segmentation with any criteria *)

Section Segments.
Import SegmentationService.

Lemma filter_loop_inv criteria l r :
  filter_loop criteria l = Ok r ->
  exists p : Customer.t -> bool,
    r = List.filter p l /\
    forall c, In c l -> _matches_criteria c criteria = Ok (p c).
Proof.
  revert r. induction l as [| c l IH]; intros r; simpl.
  - intros [= <-]. exists (fun _ => true). split; [reflexivity | intros c []].
  - intros H. apply bind_Ok_inv in H as (m & Hm & H).
    apply bind_Ok_inv in H as (filtered & Hf & H). injection H as <-.
    destruct (IH filtered Hf) as (p & -> & Hp).
    exists (fun c' => match _matches_criteria c' criteria with
                      | Ok b => b
                      | Raise _ => false
                      end).
    split.
    + simpl. rewrite Hm. destruct m; [f_equal |];
        apply filter_ext_in; intros c' Hc'; rewrite (Hp c' Hc'); reflexivity.
    + intros c' [<- | Hc']; [rewrite Hm; reflexivity |].
      rewrite (Hp c' Hc'). reflexivity.
Qed.


(** X10. Whatever the criteria hold, a segment that [filter_customers]
    returns is taken from the stored customers: the same records, in the
    order of the file, none twice as often as stored; and every one of them
    matches the criteria. *)
Theorem filter_customers_selects (customers_json : file) criteria segment :
  filter_customers customers_json criteria = Ok segment ->
  exists all_customers,
    get_all_customers customers_json = Ok all_customers /\
    sublist segment all_customers /\
    (length segment <= JsonRepository.count customers_json)%nat /\
    forall c, In c all_customers ->
      (In c segment <-> _matches_criteria c criteria = Ok true).
Proof.
  unfold filter_customers. intros H.
  apply bind_Ok_inv in H as (all_customers & Hall & H).
  exists all_customers. split; [exact Hall |].
  destruct (filter_loop_inv _ _ _ H) as (p & -> & Hp).
  split; [apply filter_sublist |]. split.
  - unfold get_all_customers, JsonRepository.get_all in Hall.
    unfold JsonRepository.count.
    pose proof (mapM_list_length Customer.from_dict _ _ Hall) as Hlen.
    rewrite <- Hlen. apply filter_length_le.
  - intros c Hc. rewrite filter_In, (Hp c Hc). split.
    + intros [_ ->]. reflexivity.
    + intros [= ->]. auto.
Qed.

Lemma bound_mono (criteria criteria' : pydict) key test :
  criteria ⊆ criteria' ->
  bound criteria' key test = Ok false ->
  bound criteria key test = Ok false.
Proof.
  intros Hsub. unfold bound.
  destruct (criteria !! key) as [a |] eqn:E; [| reflexivity].
  rewrite (lookup_weaken _ _ _ _ E Hsub). auto.
Qed.

Lemma reject_if_true_inv test rest :
  reject_if test rest = Ok true -> test = Ok false /\ rest = Ok true.
Proof.
  unfold reject_if. destruct test as [[] |]; simpl; try discriminate. auto.
Qed.

Lemma matches_criteria_mono customer (criteria criteria' : pydict) :
  criteria ⊆ criteria' ->
  _matches_criteria customer criteria' = Ok true ->
  _matches_criteria customer criteria = Ok true.
Proof.
  intros Hsub H. unfold _matches_criteria in *.
  apply reject_if_true_inv in H as [H1 H].
  apply reject_if_true_inv in H as [H2 H].
  apply reject_if_true_inv in H as [H3 H].
  apply reject_if_true_inv in H as [H4 H].
  apply reject_if_true_inv in H as [H5 H].
  apply reject_if_true_inv in H as [H6 H].
  apply reject_if_true_inv in H as [H7 H].
  apply reject_if_true_inv in H as [H8 _].
  rewrite (bound_mono _ _ _ _ Hsub H2), (bound_mono _ _ _ _ Hsub H3),
    (bound_mono _ _ _ _ Hsub H4), (bound_mono _ _ _ _ Hsub H5),
    (bound_mono _ _ _ _ Hsub H6), (bound_mono _ _ _ _ Hsub H7),
    (bound_mono _ _ _ _ Hsub H8).
  destruct (criteria !! "city") as [a |] eqn:E; [| reflexivity].
  rewrite (lookup_weaken _ _ _ _ E Hsub) in H1. rewrite H1. reflexivity.
Qed.

(** X11. Adding criteria narrows the segment: when [criteria'] holds all
    the entries of [criteria] and both calls return, the segment for
    [criteria'] is a part of the segment for [criteria], in the same
    order. *)
Theorem filter_customers_narrows (customers_json : file)
    (criteria criteria' : pydict) segment segment' :
  criteria ⊆ criteria' ->
  filter_customers customers_json criteria = Ok segment ->
  filter_customers customers_json criteria' = Ok segment' ->
  sublist segment' segment.
Proof.
  unfold filter_customers. intros Hsub H H'.
  apply bind_Ok_inv in H as (all_customers & Hall & H).
  rewrite Hall in H'. cbn [mbind M_bind] in H'. clear Hall.
  revert segment segment' H H'.
  induction all_customers as [| c l IH]; intros segment segment'; simpl.
  - intros [= <-] [= <-]. constructor.
  - intros H H'.
    apply bind_Ok_inv in H as (m & Hm & H).
    apply bind_Ok_inv in H as (filtered & Hf & H). injection H as <-.
    apply bind_Ok_inv in H' as (m' & Hm' & H').
    apply bind_Ok_inv in H' as (filtered' & Hf' & H'). injection H' as <-.
    specialize (IH filtered filtered' Hf Hf').
    destruct m'.
    + rewrite (matches_criteria_mono c _ _ Hsub Hm') in Hm.
      injection Hm as <-. apply sublist_skip, IH.
    + destruct m; [apply sublist_cons, IH | exact IH].
Qed.


End Segments.

Lemma filter_customers_selects_witness :
  exists all_customers,
    SegmentationService.get_all_customers Example.customers_file
    = Ok all_customers /\
    sublist [Example.alice; Example.bob] all_customers.
Proof.
  destruct (filter_customers_selects Example.customers_file Example.in_ankara
              [Example.alice; Example.bob])
    as (all_customers & H1 & H2 & _); [vm_compute; reflexivity |].
  exists all_customers. split; assumption.
Defined.

Lemma filter_customers_narrows_witness :
  sublist [Example.alice] [Example.alice; Example.bob].
Proof.
  apply (filter_customers_narrows Example.customers_file
           Example.in_ankara (<["is_active" := ABool true]> Example.in_ankara)).
  - apply insert_subseteq. reflexivity.
  - vm_compute; reflexivity.
  - vm_compute; reflexivity.
Defined.


(** ** What a service call leaves alone *)

Section Frames.
Context {World : Type}.
Import CampaignService.

Lemma update_frame now (f : file) entity_id (entity : Campaign.t) :
  Campaign.id entity = entity_id ->
  let f' := snd (JsonRepository.update Campaign.to_dict f entity_id entity) in
  JsonRepository.count f' = JsonRepository.count f /\
  forall other, entity_id <> other ->
    JsonRepository.get_by_id (Campaign.from_dict now) f' other
    = JsonRepository.get_by_id (Campaign.from_dict now) f other.
Proof.
  intros Hid f'. subst f'. unfold JsonRepository.update.
  destruct (JsonRepository.replace_first entity_id (Campaign.to_dict entity)
              (JsonRepository._read_all_raw f)) as [l |] eqn:E;
    cbn [snd]; [| split; reflexivity].
  split.
  - unfold JsonRepository.count. cbn [JsonRepository._read_all_raw
      JsonRepository._write_all_raw].
    eapply replace_first_length, E.
  - intros other Hne. unfold JsonRepository.get_by_id.
    cbn [JsonRepository._read_all_raw JsonRepository._write_all_raw].
    assert (Hd : JsonRepository.has_id (Campaign.to_dict entity) other = false).
    { destruct (JsonRepository.has_id (Campaign.to_dict entity) other) eqn:Ho;
        [| reflexivity].
      exfalso. apply Hne. rewrite <- Hid.
      eapply has_id_unique; [apply has_id_to_dict | exact Ho]. }
    rewrite (first_with_id_replace_other _ _ _ _ _ Hne Hd E). reflexivity.
Qed.

(** X13. Whatever a launch does and however it ends, it leaves the
    customers file as it is, adds or removes no campaign, changes no
    campaign other than the one launched, and only adds to the record of
    sends. Where the campaign and the customers were read (their documents
    have the fields of the models), a launch that raises has changed
    nothing at all, and it raises before any send: for an id that does not
    resolve, for a campaign already sent, or with the exception of
    [filter_customers]. *)
Theorem launch_campaign_frame
    (smtp : message -> World -> bool * World) now campaign_id use_real_email
    (st : sys World) :
  let r := launch_campaign smtp now campaign_id use_real_email st in
  customers_json (snd r) = customers_json st /\
  JsonRepository.count (campaigns_json (snd r))
  = JsonRepository.count (campaigns_json st) /\
  (forall now' other, campaign_id <> other ->
     get_campaign_by_id now' (campaigns_json (snd r)) other
     = get_campaign_by_id now' (campaigns_json st) other) /\
  (exists msgs, outbox (snd r) = outbox st ++ msgs) /\
  (forall found all_customers e,
     get_campaign_by_id now (campaigns_json st) campaign_id = Ok found ->
     SegmentationService.get_all_customers (customers_json st)
     = Ok all_customers ->
     fst r = Raise e ->
     snd r = st /\
     match found with
     | None => e = not_found campaign_id
     | Some campaign =>
         (Campaign.status campaign = "Sent"%string /\ e = already_sent) \/
         SegmentationService.filter_customers (customers_json st)
           (Campaign.target_segment_criteria campaign) = Raise e
     end).
Proof.
  intros r. subst r. unfold launch_campaign, get_campaign_by_id.
  assert (Hsame : forall (x : M pydict),
            customers_json (snd (x, st)) = customers_json st /\
            JsonRepository.count (campaigns_json (snd (x, st)))
            = JsonRepository.count (campaigns_json st) /\
            (forall now' other, campaign_id <> other ->
               JsonRepository.get_by_id (Campaign.from_dict now')
                 (campaigns_json (snd (x, st))) other
               = JsonRepository.get_by_id (Campaign.from_dict now')
                   (campaigns_json st) other) /\
            (exists msgs, outbox (snd (x, st)) = outbox st ++ msgs)).
  { intros x. cbn [fst snd]. repeat split; auto.
    exists []. rewrite app_nil_r. reflexivity. }
  assert (Hjoin : forall (A B C D E : Prop),
            A /\ B /\ C /\ D -> E -> A /\ B /\ C /\ D /\ E) by tauto.
  destruct (JsonRepository.get_by_id (Campaign.from_dict now)
              (campaigns_json st) campaign_id) as [[campaign |] | e0] eqn:Hget.
  - destruct (String.eqb (Campaign.status campaign) "Sent") eqn:Hst.
    { apply Hjoin; [apply Hsame |]. cbn [fst snd].
      intros found all_customers e [= <-] _ [= <-].
      split; [reflexivity |]. left.
      apply String.eqb_eq in Hst. auto. }
    destruct (SegmentationService.filter_customers (customers_json st)
                (Campaign.target_segment_criteria campaign))
      as [[| t0 ts] | e1] eqn:Hf.
    + apply Hjoin; [apply Hsame |]. cbn [fst snd].
      intros found all_customers e _ _ He. discriminate He.
    + rewrite send_loop_deliveries. cbn zeta.
      set (oks := Spec.deliveries _ _ _). cbv beta iota zeta.
      set (new := launched campaign (0 + Spec.successes (fst oks))).
      pose proof (get_by_id_id _ _ _ _ Hget) as Hid.
      assert (Hnid : Campaign.id new = campaign_id) by exact Hid.
      rewrite Hnid.
      destruct (JsonRepository.update Campaign.to_dict (campaigns_json st)
                  campaign_id new) as [u f] eqn:Hu.
      cbn [fst snd customers_json campaigns_json outbox].
      split; [reflexivity |].
      assert (Hf' : f = snd (JsonRepository.update Campaign.to_dict
                               (campaigns_json st) campaign_id new))
        by (rewrite Hu; reflexivity).
      split; [| split; [| split]].
      * rewrite Hf'. apply (update_frame now _ _ _ Hnid).
      * intros now' other Hne. rewrite Hf'.
        apply (update_frame now' _ _ _ Hnid). exact Hne.
      * eexists. reflexivity.
      * intros found all_customers e _ _ He. discriminate He.
    + apply Hjoin; [apply Hsame |]. cbn [fst snd].
      intros found all_customers e [= <-] _ [= <-].
      split; [reflexivity |]. right. exact Hf.
  - apply Hjoin; [apply Hsame |]. cbn [fst snd].
    intros found all_customers e [= <-] _ [= <-].
    split; reflexivity.
  - apply Hjoin; [apply Hsame |]. cbn [fst snd].
    intros found all_customers e Hfound. discriminate Hfound.
Qed.

End Frames.

Section AnalyticsFrames.
Import AnalyticsService.

(** X14. [simulate_engagement] adds or removes no campaign and changes no
    campaign other than the one it was called for; when it raises, and when
    the campaign has no send or has engagement already, the file is as it
    was. The campaign it returns keeps the id, the title, the template, the
    criteria, the status, the date and the [sent] counter. *)
Theorem simulate_engagement_frame now campaign_id open_rate click_rate
    (campaigns : file) :
  let r := simulate_engagement now campaign_id open_rate click_rate campaigns in
  JsonRepository.count (snd r) = JsonRepository.count campaigns /\
  (forall now' other, campaign_id <> other ->
     JsonRepository.get_by_id (Campaign.from_dict now') (snd r) other
     = JsonRepository.get_by_id (Campaign.from_dict now') campaigns other) /\
  (forall e, fst r = Raise e -> snd r = campaigns) /\
  (forall campaign updated,
     JsonRepository.get_by_id (Campaign.from_dict now) campaigns campaign_id
     = Ok (Some campaign) ->
     fst r = Ok updated ->
     Campaign.id updated = Campaign.id campaign /\
     Campaign.title updated = Campaign.title campaign /\
     Campaign.content_template updated = Campaign.content_template campaign /\
     Campaign.target_segment_criteria updated
     = Campaign.target_segment_criteria campaign /\
     Campaign.status updated = Campaign.status campaign /\
     Campaign.created_at updated = Campaign.created_at campaign /\
     stat (Campaign.stats updated) "sent" = stat (Campaign.stats campaign) "sent" /\
     (snd r <> campaigns ->
      0 < stat (Campaign.stats campaign) "sent" /\
      stat (Campaign.stats campaign) "opened" = 0 /\
      stat (Campaign.stats campaign) "clicked" = 0)).
Proof.
  intros r. subst r. unfold simulate_engagement.
  destruct (JsonRepository.get_by_id (Campaign.from_dict now) campaigns
              campaign_id) as [[campaign |] | e] eqn:Hget;
    cbn [fst snd]; try (repeat split; auto; discriminate).
  destruct ((stat (Campaign.stats campaign) "sent" >? 0)
            && (stat (Campaign.stats campaign) "opened" =? 0)
            && (stat (Campaign.stats campaign) "clicked" =? 0)) eqn:Hc.
  - apply andb_true_iff in Hc as [Hc H3].
    apply andb_true_iff in Hc as [H1 H2].
    rewrite Z.gtb_lt in H1. apply Z.eqb_eq in H2, H3.
    match goal with
    | |- context [match ?x with Ok _ => _ | Raise _ => _ end] =>
        destruct x as [[o k] | e]
    end; cbn [fst snd].
    + pose proof (get_by_id_id _ _ _ _ Hget) as Hid.
      assert (Hnid : Campaign.id (simulated campaign o k) = campaign_id)
        by exact Hid.
      destruct (JsonRepository.update Campaign.to_dict campaigns campaign_id
                  (simulated campaign o k)) as [u f] eqn:Hu.
      cbn [fst snd].
      assert (Hf : f = snd (JsonRepository.update Campaign.to_dict campaigns
                              campaign_id (simulated campaign o k)))
        by (rewrite Hu; reflexivity).
      split; [rewrite Hf; apply (update_frame now _ _ _ Hnid) |].
      split; [intros now' other Hne; rewrite Hf;
              apply (update_frame now' _ _ _ Hnid); exact Hne |].
      split; [discriminate |].
      intros c updated [= <-] [= <-].
      cbn [simulated Campaign.id Campaign.title Campaign.content_template
           Campaign.target_segment_criteria Campaign.status
           Campaign.created_at Campaign.stats].
      rewrite !stat_insert_ne by discriminate. repeat split; auto.
    + repeat split; auto; discriminate.
  - cbn [fst snd]. split; [reflexivity |]. split; [reflexivity |].
    split; [reflexivity |].
    intros c updated [= <-] [= <-]. repeat split; congruence.
Qed.

End AnalyticsFrames.

(** ** Campaigns by status *)

Section ByStatus.
Import CampaignService.

Lemma filter_two_length {A} (p q : A -> bool) (l : list A) :
  (forall x, In x l -> p x && q x = false) ->
  (length (List.filter p l) + length (List.filter q l) <= length l)%nat /\
  ((length (List.filter p l) + length (List.filter q l) = length l)%nat <->
   forall x, In x l -> p x || q x = true).
Proof.
  induction l as [| a l IH]; intros Hd.
  - simpl. split; [lia |]. split; [intros _ x [] | reflexivity].
  - destruct IH as [IH1 [IH2 IH3]].
    { intros x Hx. apply Hd. right. exact Hx. }
    pose proof (Hd a (or_introl eq_refl)) as Ha.
    assert (Htail : (forall x, In x (a :: l) -> p x || q x = true) ->
                    forall x, In x l -> p x || q x = true).
    { intros H x Hx. apply H. right. exact Hx. }
    simpl. destruct (p a) eqn:Ep, (q a) eqn:Eq; try discriminate; simpl.
    + split; [lia |]. split.
      * intros H x [<- | Hx]; [rewrite Ep; reflexivity |].
        apply IH2; [lia | exact Hx].
      * intros H. f_equal. apply IH3, Htail, H.
    + split; [lia |]. split.
      * intros H x [<- | Hx]; [rewrite Eq; apply orb_true_r |].
        apply IH2; [lia | exact Hx].
      * intros H. rewrite Nat.add_succ_r. f_equal. apply IH3, Htail, H.
    + split; [lia |]. split; [lia |].
      intros H. specialize (H a (or_introl eq_refl)).
      rewrite Ep, Eq in H. discriminate.
Qed.

(** X15. The drafts and the sent campaigns are taken from the list of all
    campaigns, in its order, and no campaign is in both. Their numbers add
    up to the number of campaigns exactly when every stored status is
    ['Draft'] or ['Sent']; a campaign of any other status is in neither. *)
Theorem campaigns_by_status now (campaigns : file) all_campaigns :
  get_all_campaigns now campaigns = Ok all_campaigns ->
  let is_draft c := String.eqb (Campaign.status c) "Draft" in
  let is_sent c := String.eqb (Campaign.status c) "Sent" in
  get_draft_campaigns now campaigns = Ok (List.filter is_draft all_campaigns) /\
  get_sent_campaigns now campaigns = Ok (List.filter is_sent all_campaigns) /\
  (forall c, ~ (In c (List.filter is_draft all_campaigns) /\
                In c (List.filter is_sent all_campaigns))) /\
  (length (List.filter is_draft all_campaigns)
   + length (List.filter is_sent all_campaigns) <= length all_campaigns)%nat /\
  ((length (List.filter is_draft all_campaigns)
    + length (List.filter is_sent all_campaigns) = length all_campaigns)%nat <->
   forall c, In c all_campaigns ->
     Campaign.status c = "Draft" \/ Campaign.status c = "Sent").
Proof.
  intros Hall is_draft is_sent.
  unfold get_draft_campaigns, get_sent_campaigns, JsonRepository.find.
  unfold get_all_campaigns in Hall. rewrite Hall.
  split; [reflexivity |]. split; [reflexivity |].
  assert (Hd : forall c, is_draft c && is_sent c = false).
  { intros c. unfold is_draft, is_sent.
    destruct (String.eqb_spec (Campaign.status c) "Draft") as [-> |];
      reflexivity. }
  split.
  - intros c [H1 H2]. apply filter_In in H1 as [_ H1].
    apply filter_In in H2 as [_ H2]. specialize (Hd c).
    rewrite H1, H2 in Hd. discriminate.
  - destruct (filter_two_length is_draft is_sent all_campaigns) as [H1 H2];
      [auto |].
    split; [exact H1 |]. rewrite H2. unfold is_draft, is_sent.
    split; intros H c Hc; specialize (H c Hc).
    + apply orb_true_iff in H as [H | H]; apply String.eqb_eq in H; auto.
    + destruct H as [-> | ->]; reflexivity.
Qed.

End ByStatus.

Lemma campaigns_by_status_witness :
  CampaignService.get_draft_campaigns Example.now Example.campaigns_file
  = Ok [Example.draft; Example.unmatched] /\
  CampaignService.get_sent_campaigns Example.now Example.campaigns_file
  = Ok [Example.delivered; Example.fresh].
Proof.
  destruct (campaigns_by_status Example.now Example.campaigns_file
              [Example.draft; Example.unmatched; Example.delivered;
               Example.fresh])
    as (H1 & H2 & _); [vm_compute; reflexivity |].
  split; [exact H1 | exact H2].
Defined.

(** ** From creation to launch *)

Section EndToEnd.
Context {World : Type}.
Import CampaignService.

(** X16. Creation and launch compose as the integration test of the
    repository expects: a campaign that [create_campaign] returned, under
    an id that was not in use and with criteria that match somebody, is
    launched by its id; with the mock provider the stored campaign is then
    [Sent], its [sent] counter is the size of the segment, the result
    reports success and no failure, and one message went to each customer
    of the segment. *)
Theorem create_then_launch
    (smtp : message -> World -> bool * World) uuid now later title
    content_template (criteria : pydict) (st st1 : sys World) test_campaign
    segment :
  DateTime.valid now = true -> DateTime.valid later = true ->
  create_campaign uuid now title content_template criteria st
  = (Ok test_campaign, st1) ->
  JsonRepository.first_with_id uuid
    (JsonRepository._read_all_raw (campaigns_json st)) = None ->
  SegmentationService.filter_customers (customers_json st) criteria
  = Ok segment ->
  segment <> [] ->
  Campaign.id test_campaign = uuid /\
  exists launch_result st2 verified_campaign,
    launch_campaign smtp later uuid false st1 = (Ok launch_result, st2) /\
    get_campaign_by_id later (campaigns_json st2) uuid
    = Ok (Some verified_campaign) /\
    Campaign.status verified_campaign = "Sent" /\
    Campaign.stats verified_campaign !! "sent"
    = Some (Z.of_nat (length segment)) /\
    launch_result !! "success" = Some (ABool true) /\
    launch_result !! "emails_failed" = Some (AInt 0) /\
    world st2 = world st /\
    outbox st2 = outbox st ++ (Spec.mail test_campaign <$> segment).
Proof.
  intros Hnow Hlater Hcreate Hfree Hseg Hne.
  unfold create_campaign in Hcreate.
  destruct (negb (PyStr.truthy title)
            || negb (PyStr.truthy (PyStr.strip title)));
    [discriminate |].
  destruct (negb (PyStr.truthy content_template)
            || negb (PyStr.truthy (PyStr.strip content_template)));
    [discriminate |].
  destruct (bool_decide (criteria = ∅)); [discriminate |].
  cbn [JsonRepository.save] in Hcreate. injection Hcreate as <- <-.
  set (campaign :=
         Campaign.mk uuid (PyStr.strip title) (PyStr.strip content_template)
           criteria "Draft" now
           (<["sent" := 0]> (<["opened" := 0]> (<["clicked" := 0]> ∅)))).
  set (st1 := with_campaigns st _).
  split; [reflexivity |].
  assert (Hget : get_campaign_by_id later (campaigns_json st1) uuid
                 = Ok (Some campaign)).
  { unfold get_campaign_by_id, JsonRepository.get_by_id.
    cbn [st1 with_campaigns campaigns_json JsonRepository._read_all_raw
         JsonRepository._write_all_raw].
    rewrite (first_with_id_app uuid _ (Campaign.to_dict campaign) Hfree
               (has_id_to_dict campaign)).
    rewrite Campaign_roundtrip by exact Hnow. reflexivity. }
  destruct (launch_campaign_runs smtp later uuid false st1 campaign segment
              Hlater Hget eq_refl Hseg Hne) as (f & Hl & Hread).
  cbn [EmailService.create_provider] in Hl, Hread.
  rewrite deliveries_mock in Hl, Hread. cbn [fst snd] in Hl, Hread.
  destruct (successes_all_true (message_for campaign <$> segment)) as [Hs Hf].
  rewrite length_fmap in Hs. rewrite Hs in Hl, Hread. rewrite Hf in Hl.
  eexists _, _, _.
  split; [exact Hl |]. cbn [campaigns_json world outbox].
  split; [apply Hread |].
  split; [reflexivity |].
  split; [apply lookup_insert_eq |].
  split; [apply lookup_insert_eq |].
  split; [rewrite !(lookup_insert_ne _ _ "emails_failed") by discriminate;
          apply lookup_insert_eq |].
  split; reflexivity.
Qed.

End EndToEnd.

Lemma create_then_launch_witness :
  let test_campaign :=
    Campaign.mk "k9" "Summer sale" "Dear {name}" Example.in_ankara "Draft"
      Example.now Campaign.default_stats in
  let st1 :=
    CampaignService.with_campaigns Example.system
      (Some (JsonRepository._read_all_raw Example.campaigns_file
             ++ [Campaign.to_dict test_campaign])) in
  CampaignService.create_campaign "k9" Example.now " Summer sale "
    "Dear {name}" Example.in_ankara Example.system = (Ok test_campaign, st1) /\
  exists launch_result st2,
    CampaignService.launch_campaign Example.refusing_smtp Example.now "k9"
      false st1 = (Ok launch_result, st2) /\
    launch_result !! "emails_failed" = Some (AInt 0).
Proof.
  intros test_campaign st1.
  assert (H : CampaignService.create_campaign "k9" Example.now " Summer sale "
                "Dear {name}" Example.in_ankara Example.system
              = (Ok test_campaign, st1)) by (vm_compute; reflexivity).
  split; [exact H |].
  destruct (create_then_launch Example.refusing_smtp "k9" Example.now
              Example.now " Summer sale " "Dear {name}" Example.in_ankara
              Example.system st1 test_campaign [Example.alice; Example.bob])
    as (_ & r & st2 & v & H2 & _ & _ & _ & _ & H3 & _).
  - reflexivity.
  - reflexivity.
  - exact H.
  - vm_compute; reflexivity.
  - vm_compute; reflexivity.
  - discriminate.
  - exists r, st2. split; [exact H2 | exact H3].
Defined.

(** ** Personalised content *)

Section Personalize.
Import CampaignService.


Lemma replace_from_prefix c old new pre s :
  without c pre = true ->
  PyStr.replace_from O (String c old) new (pre +:+ s)
  = pre +:+ PyStr.replace_from O (String c old) new s.
Proof.
  intros H. induction pre as [| c' pre IH]; [reflexivity |].
  simpl in H. apply andb_true_iff in H as [Hc Hp].
  change (String c' pre +:+ s) with (String c' (pre +:+ s)).
  cbn [PyStr.replace_from String.prefix].
  destruct (ascii_dec c c') as [-> | Hne].
  - rewrite Ascii.eqb_refl in Hc. discriminate.
  - rewrite (IH Hp). reflexivity.
Qed.

Lemma replace_prefix c old new pre s :
  without c pre = true ->
  PyStr.replace (pre +:+ s) (String c old) new
  = pre +:+ PyStr.replace s (String c old) new.
Proof. apply replace_from_prefix. Qed.

Lemma replace_without c old new s :
  without c s = true -> PyStr.replace s (String c old) new = s.
Proof.
  intros H. rewrite <- (append_nil_r s) at 1.
  rewrite (replace_prefix c old new s "" H). apply append_nil_r.
Qed.

(** X17. A template in which no brace opens comes out as it is. The three
    replacements are made one after the other on the whole text, so that
    what was put in for [{name}] is searched for [{email}] and [{city}] in
    turn: after a text without an opening brace, [{name}] becomes the
    customer's name with these two replaced in it. *)
Theorem personalize_content_in_passes (template : string) (customer : Customer.t) :
  without "{" template = true ->
  _personalize_content template customer = template /\
  _personalize_content (template +:+ "{name}") customer
  = template +:+
    PyStr.replace
      (PyStr.replace (Customer.name customer) "{email}" (Customer.email customer))
      "{city}" (Customer.city customer).
Proof.
  intros H. unfold _personalize_content. split.
  - rewrite (replace_without _ _ (Customer.name customer) template H),
      (replace_without _ _ (Customer.email customer) template H),
      (replace_without _ _ (Customer.city customer) template H).
    reflexivity.
  - rewrite (replace_prefix _ _ _ _ _ H).
    assert (Hn : PyStr.replace "{name}" "{name}" (Customer.name customer)
                 = Customer.name customer).
    { cbn. apply append_nil_r. }
    rewrite Hn, !(replace_prefix _ _ _ _ _ H). reflexivity.
Qed.

End Personalize.

Lemma personalize_content_in_passes_witness :
  CampaignService._personalize_content "Dear {name}"
    (Customer.mk "c7" "{city}" "eve@example.com" "Bursa" 33 50
       (S754_zero false) true)
  = "Dear Bursa"%string.
Proof.
  destruct (personalize_content_in_passes "Dear "
              (Customer.mk "c7" "{city}" "eve@example.com" "Bursa" 33 50
                 (S754_zero false) true)) as [_ H]; [reflexivity |].
  exact H.
Defined.

(** ** Floats: how far rounding can go *)

Section Rounding.


Lemma shr_1_shifted M n mrs :
  0 <= n -> shifted M n mrs -> shifted M (n + 1) (shr_1 mrs).
Proof.
  intros Hn (H0 & Hb & Hx). unfold shifted.
  rewrite Z.pow_add_r by lia. change (2 ^ 1) with 2.
  assert (Hp : 0 < 2 ^ n) by (apply Z.pow_pos_nonneg; lia).
  destruct mrs as [m r s]. cbn [shr_m shr_r shr_s] in *.
  destruct m as [| [p | p |] |]; cbn [shr_1 shr_m shr_r shr_s]; try lia.
  - split; [lia |]. split; [lia |].
    rewrite orb_false_iff. split.
    + intros HM. split; [reflexivity |]. apply Hx. lia.
    + intros [_ Hrs]. apply Hx in Hrs. lia.
  - split; [lia |]. split; [lia |].
    rewrite orb_false_iff. split.
    + intros HM. split; [reflexivity |]. apply Hx. lia.
    + intros [_ Hrs]. apply Hx in Hrs. lia.
Qed.

Lemma iter_pos_shifted M k : forall n mrs,
  0 <= n -> shifted M n mrs ->
  shifted M (n + Zpos k) (SpecFloat.iter_pos shr_1 k mrs).
Proof.
  induction k as [k IH | k IH |]; intros n mrs Hn H; cbn [SpecFloat.iter_pos].
  - replace (n + Zpos k~1) with (n + 1 + Zpos k + Zpos k) by lia.
    apply IH; [lia |]. apply IH; [lia |]. apply shr_1_shifted; assumption.
  - replace (n + Zpos k~0) with (n + Zpos k + Zpos k) by lia.
    apply IH; [lia |]. apply IH; assumption.
  - apply shr_1_shifted; assumption.
Qed.

Lemma shr_fexp_shifted M e :
  0 <= M ->
  let n := Z.max 0 (fexp prec emax (Zdigits2 M + e) - e) in
  shifted M n (fst (shr_fexp prec emax M e loc_Exact)) /\
  snd (shr_fexp prec emax M e loc_Exact) = e + n.
Proof.
  intros HM n. unfold shr_fexp. fold prec emax.
  assert (H0 : shifted M 0 (shr_record_of_loc M loc_Exact)).
  { unfold shifted. cbn [shr_record_of_loc shr_m shr_r shr_s].
    change (2 ^ 0) with 1. repeat split; lia. }
  subst n. destruct (fexp prec emax (Zdigits2 M + e) - e) as [| k | k];
    cbn [shr fst snd].
  - rewrite Z.max_id, Z.add_0_r. split; [exact H0 | reflexivity].
  - rewrite Z.max_r by lia. split; [| reflexivity].
    apply (iter_pos_shifted M k 0 _ ltac:(lia) H0).
  - rewrite Z.max_l by lia. rewrite Z.add_0_r. split; [exact H0 | reflexivity].
Qed.

(** Rounding to nearest does not pass a bound that sits on the grid the
    result is rounded to. *)
Lemma binary_round_aux_le sx M e b :
  0 <= M ->
  let n := Z.max 0 (fexp prec emax (Zdigits2 M + e) - e) in
  M <= b * 2 ^ n ->
  match binary_round_aux prec emax sx M e loc_Exact with
  | S754_finite _ m3 e3 => e + n <= e3 /\ Zpos m3 * 2 ^ (e3 - (e + n)) <= b
  | _ => True
  end.
Proof.
  intros HM n HB. unfold binary_round_aux.
  destruct (shr_fexp_shifted M e HM) as [H1 He1]. fold n in H1, He1.
  destruct (shr_fexp prec emax M e loc_Exact) as [mrs1 e1].
  cbn [fst snd] in H1, He1.
  set (m2 := round_nearest_even (shr_m mrs1) (loc_of_shr_record mrs1)).
  assert (Hn : 0 <= n) by (unfold n; lia).
  assert (Hp : 0 < 2 ^ n) by (apply Z.pow_pos_nonneg; lia).
  destruct H1 as (Hm1 & Hb1 & Hx1).
  assert (Hm2 : 0 <= m2 <= b).
  { pose proof (round_nearest_even_bound (shr_m mrs1) (loc_of_shr_record mrs1))
      as Hr. fold m2 in Hr. split; [lia |].
    assert (Hle : shr_m mrs1 <= b) by nia.
    destruct (Z.eq_dec (shr_m mrs1) b) as [Heq | Hne]; [| lia].
    assert (HMe : M = shr_m mrs1 * 2 ^ n) by (rewrite Heq in *; lia).
    apply Hx1 in HMe as [Hr1 Hs1]. unfold m2.
    destruct mrs1 as [m1 r1 s1]. cbn [shr_m shr_r shr_s] in *. subst r1 s1.
    cbn [loc_of_shr_record round_nearest_even]. lia. }
  destruct (shr_fexp_shifted m2 e1 ltac:(lia)) as [H2 He2].
  destruct (shr_fexp prec emax m2 e1 loc_Exact) as [mrs2 e2].
  cbn [fst snd] in H2, He2.
  set (n2 := Z.max 0 (fexp prec emax (Zdigits2 m2 + e1) - e1)) in *.
  destruct H2 as (Hm3 & Hb3 & _).
  destruct (shr_m mrs2) as [| m3 | m3] eqn:E3; try exact I.
  destruct (e2 <=? emax - prec); [| exact I].
  assert (Hn2 : 0 <= n2) by (unfold n2; lia).
  split; [lia |].
  replace (e2 - (e + n)) with n2 by lia. lia.
Qed.

(** [float(z)] is [z] itself for a counter. *)
Lemma iter_xO_pow p d : Zpos (Pos.iter xO p d) = Zpos p * 2 ^ Zpos d.
Proof.
  induction d as [| d IH] using Pos.peano_ind.
  - simpl. lia.
  - rewrite Pos.iter_succ, Pos2Z.inj_xO, IH, Pos2Z.inj_succ, Z.pow_succ_r by lia.
    lia.
Qed.

Lemma of_Z_raw_exact p :
  Zpos p < 2 ^ 53 ->
  exists m e,
    of_Z_raw (Zpos p) = S754_finite false m e /\ e <= 0 /\
    Zpos m = Zpos p * 2 ^ (- e).
Proof.
  intros Hp. unfold of_Z_raw, binary_normalize, binary_round, shl_align.
  pose proof (digits2_pos_bounds p) as [Hl Hu].
  assert (Hd : Zpos (digits2_pos p) <= 53).
  { apply (Zdigits2_le (Zpos p) 53); lia. }
  rewrite Z.add_0_r, Z.sub_0_r, fexp_eq.
  destruct (Z.max (Zpos (digits2_pos p) - 53) (-1074)) as [| d | d] eqn:E;
    try lia.
  - exists p, 0. rewrite binary_round_aux_exact; [| | lia].
    + split; [reflexivity |]. split; [lia |]. simpl. lia.
    + rewrite Z.add_0_r, fexp_eq. lia.
  - exists (Pos.iter xO p d), (Zneg d).
    rewrite binary_round_aux_exact; [| | lia].
    + split; [reflexivity |]. split; [lia |]. apply iter_xO_pow.
    + rewrite digits2_pos_iter_xO, fexp_eq. lia.
Qed.

(** The integer part of [z × r] for a rate [r] of at most [2^-k]. *)
Lemma floor_of_product_le z m e k :
  0 <= z < 2 ^ 53 -> 0 <= k <= 1074 -> e + k <= 0 ->
  Zpos m <= 2 ^ (- e - k) ->
  0 <= Spec.floor_of_product z (S754_finite false m e) /\
  2 ^ k * Spec.floor_of_product z (S754_finite false m e) <= z.
Proof.
  intros Hz Hk Hek Hm. unfold Spec.floor_of_product.
  destruct z as [| p | p]; [simpl; lia | | lia].
  destruct (of_Z_raw_exact p ltac:(lia)) as (mz & ez & -> & Hez & Hmz).
  unfold fmul, SFmul. cbn [xorb].
  set (M := Zpos (mz * m)). set (E := ez + e).
  assert (HM : M = Zpos p * 2 ^ (- ez) * Zpos m)
    by (unfold M; rewrite Pos2Z.inj_mul, Hmz; reflexivity).
  assert (Hp1 : 0 < 2 ^ (- ez)) by (apply Z.pow_pos_nonneg; lia).
  assert (Hp2 : 0 < 2 ^ (- e - k)) by (apply Z.pow_pos_nonneg; lia).
  assert (HB : M <= Zpos p * 2 ^ (- E - k)).
  { unfold E. replace (- (ez + e) - k) with (- ez + (- e - k)) by lia.
    rewrite Z.pow_add_r by lia. rewrite HM. nia. }
  set (n := Z.max 0 (fexp prec emax (Zdigits2 M + E) - E)).
  assert (Hn : 0 <= n <= - E - k).
  { unfold n. split; [lia |]. apply Z.max_lub; [unfold E; lia |].
    rewrite fexp_eq.
    assert (Hdig : Zdigits2 M <= 53 - E - k).
    { apply Zdigits2_le; [| unfold E; lia]. split; [unfold M; lia |].
      replace (53 - E - k) with (53 + (- E - k)) by lia.
      rewrite Z.pow_add_r by (unfold E; lia).
      assert (0 < 2 ^ (- E - k)) by (apply Z.pow_pos_nonneg; unfold E; lia).
      nia. }
    lia. }
  pose proof (binary_round_aux_le false M E (Zpos p * 2 ^ (- E - k - n))
                ltac:(unfold M; lia)) as Hr.
  fold n in Hr. cbv zeta in Hr.
  assert (Hsplit : 2 ^ (- E - k) = 2 ^ (- E - k - n) * 2 ^ n).
  { rewrite <- Z.pow_add_r by lia. f_equal. lia. }
  specialize (Hr ltac:(rewrite <- Z.mul_assoc, <- Hsplit; exact HB)).
  fold prec emax in Hr.
  destruct (binary_round_aux prec emax false M E loc_Exact)
    as [s | s | | s m3 e3] eqn:Er; try (simpl; lia).
  destruct Hr as [He3 Hv].
  assert (Hs : s = false).
  { unfold binary_round_aux in Er.
    destruct (shr_fexp prec emax M E loc_Exact) as [a b].
    destruct (shr_fexp prec emax _ b loc_Exact) as [c d].
    destruct (shr_m c); try discriminate.
    destruct (d <=? emax - prec); [| discriminate]. congruence. }
  subst s.
  set (F := Spec.floor (S754_finite false m3 e3)).
  (* F × 2^(−e3) ≤ m3 when e3 < 0; F = m3 × 2^e3 otherwise *)
  assert (Hq : 0 < 2 ^ (- E - k - n)) by (apply Z.pow_pos_nonneg; lia).
  assert (Hq' : 0 < 2 ^ (e3 - (E + n))) by (apply Z.pow_pos_nonneg; lia).
  assert (HF : 0 <= F /\ F * 2 ^ (- E - n) <= Zpos m3 * 2 ^ (e3 - (E + n))).
  { unfold F, Spec.floor. destruct e3 as [| q | q].
    - rewrite Z.mul_1_r. replace (0 - (E + n)) with (- E - n) by lia.
      split; lia.
    - split; [apply Z.mul_nonneg_nonneg; [lia | apply Z.pow_nonneg; lia] |].
      replace (Zpos q - (E + n)) with (Zpos q + (- E - n)) by lia.
      rewrite Z.pow_add_r by lia. lia.
    - assert (Hpq : 0 < 2 ^ Zpos q) by (apply Z.pow_pos_nonneg; lia).
      split; [apply Z.div_pos; lia |].
      replace (- E - n) with (Zpos q + (Zneg q - (E + n))) by lia.
      rewrite Z.pow_add_r by lia.
      pose proof (Z.mul_div_le (Zpos m3) (2 ^ Zpos q) Hpq) as Hdiv.
      rewrite Z.mul_assoc.
      apply Z.mul_le_mono_nonneg_r; [lia | lia]. }
  destruct HF as [HF0 HF]. split; [exact HF0 |].
  assert (Hfin : F * 2 ^ (- E - n) <= Zpos p * 2 ^ (- E - k - n)) by lia.
  replace (- E - n) with (k + (- E - k - n)) in Hfin by lia.
  rewrite Z.pow_add_r in Hfin by lia.
  assert (Hpk : 0 < 2 ^ k) by (apply Z.pow_pos_nonneg; lia).
  nia.
Qed.

End Rounding.

(** ** The synthetic views of the analytics *)

Section Views.
Import AnalyticsService.

Lemma share_le sent m e k :
  0 <= sent < 2 ^ 53 -> 0 <= k <= 1074 -> e + k <= 0 -> e <= -53 ->
  Zpos m < 2 ^ 53 -> Zpos m <= 2 ^ (- e - k) ->
  exists n, share sent (S754_finite false m e) = Ok n /\
            0 <= n /\ 2 ^ k * n <= sent.
Proof.
  intros Hs Hk Hek He Hm Hmk.
  destruct (int_of_product sent m e 53 Hs ltac:(lia) Hm He) as [Hi _].
  destruct (floor_of_product_le sent m e k Hs Hk Hek Hmk) as [H0 H1].
  eexists. split; [exact Hi |]. split; assumption.
Qed.

(** X18. The geographic view. When the criteria have a [city] key, whatever
    its value (the empty text and [None] included), the view has that value
    as its only key, with the [sent] counter. Without the key it is empty
    when nothing was sent; otherwise, for a counter below [2^53], it has the
    four entries Istanbul, Ankara, Izmir and Others, none of them negative,
    which add up to [sent]. An id that does not resolve raises "not
    found". *)
Theorem get_geographic_distribution_shares now campaign_id (campaigns : file) :
  (JsonRepository.get_by_id (Campaign.from_dict now) campaigns campaign_id
   = Ok None ->
   get_geographic_distribution now campaign_id campaigns
   = Raise (not_found campaign_id)) /\
  (forall campaign,
     JsonRepository.get_by_id (Campaign.from_dict now) campaigns campaign_id
     = Ok (Some campaign) ->
     let sent := stat (Campaign.stats campaign) "sent" in
     let criteria := Campaign.target_segment_criteria campaign in
     (forall city, criteria !! "city" = Some city ->
        get_geographic_distribution now campaign_id campaigns
        = Ok [(city, sent)]) /\
     (criteria !! "city" = None -> sent = 0 ->
        get_geographic_distribution now campaign_id campaigns = Ok []) /\
     (criteria !! "city" = None -> 0 < sent < 2 ^ 53 ->
        exists istanbul ankara izmir others,
          get_geographic_distribution now campaign_id campaigns
          = Ok [(AStr "Istanbul", istanbul); (AStr "Ankara", ankara);
                (AStr "Izmir", izmir); (AStr "Others", others)] /\
          0 <= istanbul /\ 0 <= ankara /\ 0 <= izmir /\ 0 <= others /\
          istanbul + ankara + izmir + others = sent)).
Proof.
  split.
  - intros H. unfold get_geographic_distribution. rewrite H. reflexivity.
  - intros campaign Hget sent criteria. unfold get_geographic_distribution.
    rewrite Hget. fold sent criteria. split; [| split].
    + intros city ->. reflexivity.
    + intros -> ->. reflexivity.
    + intros -> Hs.
      replace (sent =? 0) with false by (symmetry; apply Z.eqb_neq; lia).
      assert (H40 : lit 40 2 = S754_finite false 7205759403792794 (-54))
        by (vm_compute; reflexivity).
      assert (H25 : lit 25 2 = S754_finite false 4503599627370496 (-54))
        by (vm_compute; reflexivity).
      assert (H15 : lit 15 2 = S754_finite false 5404319552844595 (-55))
        by (vm_compute; reflexivity).
      rewrite H40, H25, H15.
      destruct (share_le sent 7205759403792794 (-54) 1)
        as (i & Hi & Hi0 & Hi1);
        [lia | lia | lia | lia | vm_compute; reflexivity
        | vm_compute; discriminate |].
      destruct (share_le sent 4503599627370496 (-54) 2)
        as (a & Ha & Ha0 & Ha1);
        [lia | lia | lia | lia | vm_compute; reflexivity
        | vm_compute; discriminate |].
      destruct (share_le sent 5404319552844595 (-55) 2)
        as (z & Hz & Hz0 & Hz1);
        [lia | lia | lia | lia | vm_compute; reflexivity
        | vm_compute; discriminate |].
      rewrite Hi, Ha, Hz. cbn [mbind M_bind].
      exists i, a, z, (sent - i - a - z). split; [reflexivity |].
      change (2 ^ 1) with 2 in Hi1. change (2 ^ 2) with 4 in Ha1, Hz1.
      lia.
Qed.

(** X19. What a simulation writes are counts: for a [sent] counter below
    [2^53] and rates drawn from the two intervals, the campaign returned
    has [0 <= clicked <= opened <= sent]. *)
Theorem simulate_engagement_counts now campaign_id open_rate click_rate
    (campaigns : file) campaign :
  JsonRepository.get_by_id (Campaign.from_dict now) campaigns campaign_id
  = Ok (Some campaign) ->
  0 < stat (Campaign.stats campaign) "sent" < 2 ^ 53 ->
  stat (Campaign.stats campaign) "opened" = 0 ->
  stat (Campaign.stats campaign) "clicked" = 0 ->
  Spec.drawn_from (lit 25 2) (lit 65 2) open_rate = true ->
  Spec.drawn_from (lit 5 2) (lit 20 2) click_rate = true ->
  exists updated,
    fst (simulate_engagement now campaign_id open_rate click_rate campaigns)
    = Ok updated /\
    0 <= stat (Campaign.stats updated) "clicked"
      <= stat (Campaign.stats updated) "opened" /\
    stat (Campaign.stats updated) "opened"
    <= stat (Campaign.stats updated) "sent" /\
    stat (Campaign.stats updated) "sent" = stat (Campaign.stats campaign) "sent".
Proof.
  intros Hget Hs Ho Hc H1 H2. unfold simulate_engagement. rewrite Hget.
  rewrite Ho, Hc.
  replace (stat (Campaign.stats campaign) "sent" >? 0) with true
    by (symmetry; apply Z.gtb_lt; lia).
  cbn [andb Z.eqb].
  set (sent := stat (Campaign.stats campaign) "sent") in *.
  rewrite (simulated_counts sent open_rate click_rate Hs H1 H2).
  edestruct (drawn_from_inv (lit 25 2) (lit 65 2) open_rate)
    as (m1 & e1 & -> & Hm1 & He1);
    [vm_compute; reflexivity | vm_compute; reflexivity | exact H1 |].
  edestruct (drawn_from_inv (lit 5 2) (lit 20 2) click_rate)
    as (m2 & e2 & -> & Hm2 & He2);
    [vm_compute; reflexivity | vm_compute; reflexivity | exact H2 |].
  assert (Hpow : forall e, e <= -53 -> 2 ^ 53 <= 2 ^ (- e - 0))
    by (intros e He; apply Z.pow_le_mono_r; lia).
  destruct (floor_of_product_le sent m1 e1 0) as [Ho0 Ho1];
    [lia | lia | lia | specialize (Hpow e1 He1); lia |].
  set (o := Spec.floor_of_product sent (S754_finite false m1 e1)) in *.
  change (2 ^ 0) with 1 in Ho1.
  destruct (floor_of_product_le o m2 e2 0) as [Hk0 Hk1];
    [lia | lia | lia | specialize (Hpow e2 ltac:(lia)); lia |].
  set (k := Spec.floor_of_product o (S754_finite false m2 e2)) in *.
  change (2 ^ 0) with 1 in Hk1.
  destruct (JsonRepository.update Campaign.to_dict campaigns campaign_id
              (simulated campaign o k)) as [u f].
  exists (simulated campaign o k). split; [reflexivity |].
  cbn [simulated Campaign.stats].
  rewrite stat_insert_eq, (stat_insert_ne _ "clicked" "opened") by discriminate.
  rewrite stat_insert_eq, !stat_insert_ne by discriminate. fold sent. lia.
Qed.

(** The quotient of a counter by itself is 1.0. *)
Lemma of_ratio_raw_same p :
  of_ratio_raw (Zpos p) p = S754_finite false 4503599627370496 (-52).
Proof.
  unfold of_ratio_raw, fdiv, SFdiv, SFdiv_core_binary.
  replace (Zdigits2 (Zpos p) + 0 - (Zdigits2 (Zpos p) + 0)) with 0 by lia.
  change (Z.min (fexp prec emax 0) (0 - 0)) with (-53).
  change (0 - 0 - -53) with 53. cbv iota.
  rewrite Z.shiftl_mul_pow2 by lia.
  pose proof (Z.div_mul (2 ^ 53) (Zpos p) ltac:(lia)) as Hq.
  pose proof (Z.mod_mul (2 ^ 53) (Zpos p) ltac:(lia)) as Hr.
  rewrite (Z.mul_comm (2 ^ 53)) in Hq, Hr.
  unfold Z.div, Z.modulo in Hq, Hr.
  destruct (Z.div_eucl (Zpos p * 2 ^ 53) (Zpos p)) as [q r]. subst q r.
  replace (new_location (Zpos p) 0) with loc_Exact
    by (unfold new_location; destruct (Z.even (Zpos p)); reflexivity).
  vm_compute. reflexivity.
Qed.

Lemma percent_same a :
  0 < a -> Spec.percent a a = NFloat (of_Z_raw 100).
Proof.
  intros Ha. unfold Spec.percent.
  replace (a =? 0) with false by (symmetry; apply Z.eqb_neq; lia).
  destruct a as [| p | p]; try lia. cbn [Z.to_pos].
  rewrite of_ratio_raw_same. vm_compute. reflexivity.
Qed.

(** X20. Without a [failed] counter, which no launch writes, the report
    gives a delivery rate of 100.0 as soon as one message was sent, and the
    integer 0 when none was. *)
Theorem delivery_rate_all_or_nothing now campaign_id (campaigns : file)
    campaign :
  JsonRepository.get_by_id (Campaign.from_dict now) campaigns campaign_id
  = Ok (Some campaign) ->
  let stats := Campaign.stats campaign in
  stats !! "failed" = None ->
  Spec.counter (stat stats "sent") -> Spec.counter (stat stats "opened") ->
  Spec.counter (stat stats "clicked") ->
  exists m title status criteria,
    get_campaign_performance now campaign_id campaigns
    = Ok (m, title, status, criteria) /\
    m_failed m = 0 /\
    delivery_rate m
    = if stat stats "sent" =? 0 then NInt 0 else NFloat (of_Z_raw 100).
Proof.
  intros Hget stats Hf Hs Ho Hc. unfold get_campaign_performance.
  rewrite Hget. fold stats.
  assert (Hf0 : stat stats "failed" = 0) by (unfold stat; rewrite Hf; reflexivity).
  rewrite compute_metrics_performance;
    try assumption; try (rewrite Hf0; unfold Spec.counter in *; lia).
  eexists _, _, _, _. split; [reflexivity |].
  cbn [Spec.performance m_failed delivery_rate].
  rewrite Hf0, Z.add_0_r. split; [reflexivity |].
  destruct (Z.eqb_spec (stat stats "sent") 0) as [-> | Hne].
  - reflexivity.
  - rewrite percent_same by (unfold Spec.counter in Hs; lia).
    vm_compute. reflexivity.
Qed.

End Views.

Lemma get_geographic_distribution_shares_witness :
  AnalyticsService.get_geographic_distribution Example.now "k1"
    Example.more_campaigns = Ok [(AStr "Ankara", 0)] /\
  exists istanbul ankara izmir others,
    AnalyticsService.get_geographic_distribution Example.now "k5"
      Example.more_campaigns
    = Ok [(AStr "Istanbul", istanbul); (AStr "Ankara", ankara);
          (AStr "Izmir", izmir); (AStr "Others", others)] /\
    istanbul + ankara + izmir + others = 200.
Proof.
  destruct (get_geographic_distribution_shares Example.now "k1"
              Example.more_campaigns) as [_ H1].
  destruct (H1 Example.draft ltac:(vm_compute; reflexivity)) as (Hc & _).
  destruct (get_geographic_distribution_shares Example.now "k5"
              Example.more_campaigns) as [_ H5].
  destruct (H5 Example.untargeted ltac:(vm_compute; reflexivity))
    as (_ & _ & Hd).
  split.
  - apply (Hc (AStr "Ankara")). vm_compute; reflexivity.
  - destruct Hd as (i & a & z & o & Hg & _ & _ & _ & _ & Hsum);
      [vm_compute; reflexivity | vm_compute; split; reflexivity |].
    exists i, a, z, o. split; [exact Hg | exact Hsum].
Defined.

Lemma simulate_engagement_counts_witness :
  exists updated,
    fst (AnalyticsService.simulate_engagement Example.now "k4" (lit 405 3)
           (lit 1 1) Example.campaigns_file) = Ok updated /\
    AnalyticsService.stat (Campaign.stats updated) "opened"
    <= AnalyticsService.stat (Campaign.stats updated) "sent".
Proof.
  destruct (simulate_engagement_counts Example.now "k4" (lit 405 3) (lit 1 1)
              Example.campaigns_file Example.fresh)
    as (updated & H1 & _ & H2 & _).
  - vm_compute; reflexivity.
  - vm_compute; split; reflexivity.
  - vm_compute; reflexivity.
  - vm_compute; reflexivity.
  - vm_compute; reflexivity.
  - vm_compute; reflexivity.
  - exists updated. split; [exact H1 | exact H2].
Defined.

Lemma delivery_rate_all_or_nothing_witness :
  exists m title status criteria,
    AnalyticsService.get_campaign_performance Example.now "k3"
      Example.campaigns_file = Ok (m, title, status, criteria) /\
    AnalyticsService.delivery_rate m = NFloat (of_Z_raw 100).
Proof.
  destruct (delivery_rate_all_or_nothing Example.now "k3"
              Example.campaigns_file Example.delivered)
    as (m & t & s & c & H1 & _ & H2).
  - vm_compute; reflexivity.
  - vm_compute; reflexivity.
  - vm_compute; split; [discriminate | reflexivity].
  - vm_compute; split; [discriminate | reflexivity].
  - vm_compute; split; [discriminate | reflexivity].
  - exists m, t, s, c. split; [exact H1 | exact H2].
Defined.

(** ** Statistics of a segment *)

Section SegmentStatistics.
Import SegmentationService.

Lemma matches_is_active customer (criteria : pydict) (flag : bool) :
  criteria !! "is_active" = Some (ABool flag) ->
  _matches_criteria customer criteria = Ok true ->
  Customer.is_active customer = flag.
Proof.
  intros Hc H. unfold _matches_criteria in H.
  do 7 (apply reject_if_true_inv in H as [_ H]).
  apply reject_if_true_inv in H as [H _].
  unfold bound in H. rewrite Hc in H. cbn [PyVal.is_not_none] in H.
  injection H as H.
  destruct (Customer.is_active customer), flag; try reflexivity;
    vm_compute in H; discriminate H.
Qed.

Lemma filter_all_true {A} (p : A -> bool) (l : list A) :
  (forall x, In x l -> p x = true) -> List.filter p l = l.
Proof.
  induction l as [| a l IH]; intros H; [reflexivity |]. simpl.
  rewrite (H a (or_introl eq_refl)). f_equal. apply IH.
  intros x Hx. apply H. right. exact Hx.
Qed.

Lemma filter_all_false {A} (p : A -> bool) (l : list A) :
  (forall x, In x l -> p x = false) -> List.filter p l = [].
Proof.
  induction l as [| a l IH]; intros H; [reflexivity |]. simpl.
  rewrite (H a (or_introl eq_refl)). apply IH.
  intros x Hx. apply H. right. exact Hx.
Qed.

(** X21. Filtering and statistics compose: in the statistics of a segment
    filtered with [is_active = True] every customer counts as active, and
    with [is_active = False] none does. *)
Theorem statistics_of_active_segment (customers_json : file)
    (criteria : pydict) (flag : bool) segment :
  criteria !! "is_active" = Some (ABool flag) ->
  filter_customers customers_json criteria = Ok segment ->
  segment <> [] ->
  Spec.counter (Spec.total Customer.age segment) ->
  Spec.counter (Spec.total Customer.spending_score segment) ->
  Z.of_nat (length segment) < 2 ^ 53 ->
  exists stats,
    get_segment_statistics segment = Ok stats /\
    stats !! "total_count" = Some (NInt (Z.of_nat (length segment))) /\
    stats !! "active_count"
    = Some (NInt (if flag then Z.of_nat (length segment) else 0)).
Proof.
  intros Hc Hf Hne Ha Hs Hn.
  assert (Hact : forall c, In c segment -> Customer.is_active c = flag).
  { unfold filter_customers in Hf.
    apply bind_Ok_inv in Hf as (all_customers & _ & Hf).
    destruct (filter_loop_inv _ _ _ Hf) as (p & -> & Hp).
    intros c Hc'. apply filter_In in Hc' as [Hin Hpc].
    apply (matches_is_active c criteria flag Hc).
    rewrite (Hp c Hin), Hpc. reflexivity. }
  assert (Hn' : 0 < Z.of_nat (length segment) < 2 ^ 53).
  { destruct segment; [congruence | simpl length in *; lia]. }
  eexists. split.
  - unfold get_segment_statistics.
    destruct segment as [| c l] eqn:E; [congruence |]. rewrite <- E in *.
    rewrite sum_revenue by exact Hne. cbn [mbind M_bind].
    rewrite !sum_Z_total, !mean_truediv by assumption. cbn [mbind M_bind].
    rewrite float_by_count by exact Hn'. cbn [mbind M_bind].
    unfold count_active. rewrite sum_Z_ones. reflexivity.
  - split; [apply lookup_insert_eq |].
    rewrite lookup_insert_ne by discriminate. rewrite lookup_insert_eq.
    do 2 f_equal. destruct flag.
    + rewrite filter_all_true by exact Hact. reflexivity.
    + rewrite filter_all_false by exact Hact. reflexivity.
Qed.

End SegmentStatistics.

Lemma statistics_of_active_segment_witness :
  exists stats,
    SegmentationService.get_segment_statistics [Example.alice] = Ok stats /\
    stats !! "active_count" = Some (NInt 1).
Proof.
  destruct (statistics_of_active_segment Example.customers_file
              (<["is_active" := ABool true]> Example.in_ankara) true
              [Example.alice]) as (stats & H1 & _ & H2).
  - vm_compute; reflexivity.
  - vm_compute; reflexivity.
  - discriminate.
  - vm_compute; split; [discriminate | reflexivity].
  - vm_compute; split; [discriminate | reflexivity].
  - vm_compute; reflexivity.
  - exists stats. split; [exact H1 | exact H2].
Defined.

(** ** What creation stores *)

Section Created.
Context {World : Type}.
Import CampaignService.

Lemma lstrip_head s :
  match PyStr.lstrip s with
  | EmptyString => True
  | String c _ => PyStr.is_space c = false
  end.
Proof.
  induction s as [| c s IH]; [exact I |]. simpl.
  destruct (PyStr.is_space c) eqn:E; [exact IH | exact E].
Qed.

Lemma rstrip_rstrip s : PyStr.rstrip (PyStr.rstrip s) = PyStr.rstrip s.
Proof.
  induction s as [| c s IH]; [reflexivity |]. simpl.
  destruct (PyStr.rstrip s) as [| c' t] eqn:E.
  - destruct (PyStr.is_space c) eqn:Ec; [reflexivity |].
    simpl. rewrite Ec. reflexivity.
  - cbn [PyStr.rstrip]. cbn [PyStr.rstrip] in IH. rewrite IH. reflexivity.
Qed.

Lemma rstrip_head c s :
  PyStr.is_space c = false ->
  exists t, PyStr.rstrip (String c s) = String c t.
Proof.
  intros Hc. simpl. destruct (PyStr.rstrip s); rewrite ?Hc; eauto.
Qed.

Lemma strip_strip s : PyStr.strip (PyStr.strip s) = PyStr.strip s.
Proof.
  unfold PyStr.strip. pose proof (lstrip_head s) as Hh.
  destruct (PyStr.lstrip s) as [| c t] eqn:E; [reflexivity |].
  destruct (rstrip_head c t Hh) as [u Hu]. rewrite Hu.
  cbn [PyStr.lstrip]. rewrite Hh, <- Hu. apply rstrip_rstrip.
Qed.

(** X22. A campaign that [create_campaign] returns has a title and a
    template that are not empty and have no white space left at either
    end, criteria that are not empty and the status [Draft]; it is the last
    document of the campaigns file, behind the documents that were there. *)
Theorem created_campaign_is_trimmed uuid now title content_template
    (criteria : pydict) (st st' : sys World) campaign :
  create_campaign uuid now title content_template criteria st
  = (Ok campaign, st') ->
  PyStr.strip (Campaign.title campaign) = Campaign.title campaign /\
  Campaign.title campaign <> ""%string /\
  PyStr.strip (Campaign.content_template campaign)
  = Campaign.content_template campaign /\
  Campaign.content_template campaign <> ""%string /\
  Campaign.target_segment_criteria campaign <> ∅ /\
  Campaign.status campaign = "Draft"%string /\
  JsonRepository._read_all_raw (campaigns_json st')
  = JsonRepository._read_all_raw (campaigns_json st)
    ++ [Campaign.to_dict campaign].
Proof.
  unfold create_campaign. intros H.
  destruct (negb (PyStr.truthy title)
            || negb (PyStr.truthy (PyStr.strip title))) eqn:Et;
    [discriminate |].
  destruct (negb (PyStr.truthy content_template)
            || negb (PyStr.truthy (PyStr.strip content_template))) eqn:Ec;
    [discriminate |].
  destruct (bool_decide (criteria = ∅)) eqn:Ecr; [discriminate |].
  cbn [JsonRepository.save] in H. injection H as <- <-.
  cbn [Campaign.title Campaign.content_template
       Campaign.target_segment_criteria Campaign.status
       with_campaigns campaigns_json JsonRepository._read_all_raw
       JsonRepository._write_all_raw].
  apply orb_false_iff in Et as [_ Et], Ec as [_ Ec].
  apply negb_false_iff in Et, Ec.
  apply bool_decide_eq_false in Ecr.
  rewrite !strip_strip.
  repeat split; try reflexivity; try exact Ecr.
  - intros H. rewrite H in Et. discriminate.
  - intros H. rewrite H in Ec. discriminate.
Qed.

End Created.

(** ** A provider that refuses every message *)

Section Refused.
Context {World : Type}.
Import CampaignService.

Lemma deliveries_refused (smtp : message -> World -> bool * World) msgs w :
  (forall msg w', fst (smtp msg w') = false) ->
  fst (Spec.deliveries (EmailService.SmtpEmailProvider smtp) msgs w)
  = List.map (fun _ => false) msgs.
Proof.
  intros Hno. revert w. induction msgs as [| m msgs IH]; intros w;
    [reflexivity |].
  cbn [Spec.deliveries EmailService.send EmailService.SmtpEmailProvider].
  pose proof (Hno m w) as Hm. destruct (smtp m w) as [ok w1].
  cbn [fst] in Hm. subst ok. specialize (IH w1).
  cbn [EmailService.send EmailService.SmtpEmailProvider] in IH.
  destruct (Spec.deliveries _ msgs w1) as [oks w2]. cbn [fst] in *.
  rewrite IH. reflexivity.
Qed.

Lemma successes_all_false {A} (l : list A) :
  Spec.successes (List.map (fun _ => false) l) = 0 /\
  Spec.failures (List.map (fun _ => false) l) = Z.of_nat (length l).
Proof.
  unfold Spec.successes, Spec.failures.
  induction l as [| a l [IH1 IH2]]; simpl in *; split; lia.
Qed.

(** X23. A launch over a server that refuses every message still goes
    through the whole segment and uses the campaign up: every customer is
    tried once, the result reports success with no e-mail sent and all of
    them failed, the campaign is stored as [Sent] with [sent = 0], and the
    next launch raises "already sent". *)
Theorem launch_campaign_all_refused
    (smtp : message -> World -> bool * World) now campaign_id
    (st : sys World) campaign segment :
  (forall msg w, fst (smtp msg w) = false) ->
  DateTime.valid now = true ->
  get_campaign_by_id now (campaigns_json st) campaign_id = Ok (Some campaign) ->
  String.eqb (Campaign.status campaign) "Sent" = false ->
  SegmentationService.filter_customers (customers_json st)
    (Campaign.target_segment_criteria campaign) = Ok segment ->
  segment <> [] ->
  exists result st' stored,
    launch_campaign smtp now campaign_id true st = (Ok result, st') /\
    result !! "success" = Some (ABool true) /\
    result !! "emails_sent" = Some (AInt 0) /\
    result !! "emails_failed" = Some (AInt (Z.of_nat (length segment))) /\
    outbox st' = outbox st ++ (message_for campaign <$> segment) /\
    get_campaign_by_id now (campaigns_json st') campaign_id
    = Ok (Some stored) /\
    Campaign.status stored = "Sent"%string /\
    Campaign.stats stored !! "sent" = Some 0 /\
    forall later use_real_email,
      launch_campaign smtp later campaign_id use_real_email st'
      = (Raise already_sent, st').
Proof.
  intros Hno Hnow Hget Hst Hseg Hne.
  destruct (launch_campaign_runs smtp now campaign_id true st campaign segment
              Hnow Hget Hst Hseg Hne) as (f & Hl & Hread).
  cbn [EmailService.create_provider] in Hl, Hread.
  rewrite (deliveries_refused smtp _ _ Hno) in Hl, Hread.
  destruct (successes_all_false (message_for campaign <$> segment)) as [Hs Hf].
  rewrite length_fmap in Hf. rewrite Hs in Hl, Hread. rewrite Hf in Hl.
  eexists _, _, _. split; [exact Hl |].
  cbn [campaigns_json outbox].
  split; [apply lookup_insert_eq |].
  split; [rewrite !(lookup_insert_ne _ _ "emails_sent") by discriminate;
          apply lookup_insert_eq |].
  split; [rewrite !(lookup_insert_ne _ _ "emails_failed") by discriminate;
          apply lookup_insert_eq |].
  split; [reflexivity |].
  split; [apply Hread |].
  split; [reflexivity |].
  split; [apply lookup_insert_eq |].
  intros later flag. unfold launch_campaign. cbn [campaigns_json].
  specialize (Hread later). unfold get_campaign_by_id in Hread.
  rewrite Hread. reflexivity.
Qed.

End Refused.

Lemma created_campaign_is_trimmed_witness :
  let campaign :=
    Campaign.mk "k9" "Summer sale" "Dear {name}" Example.in_ankara "Draft"
      Example.now Campaign.default_stats in
  let st' :=
    CampaignService.with_campaigns Example.system
      (Some (JsonRepository._read_all_raw Example.campaigns_file
             ++ [Campaign.to_dict campaign])) in
  CampaignService.create_campaign "k9" Example.now " Summer sale "
    " Dear {name}" Example.in_ankara Example.system = (Ok campaign, st') /\
  PyStr.strip (Campaign.title campaign) = Campaign.title campaign /\
  Campaign.title campaign <> ""%string.
Proof.
  intros campaign st'.
  assert (H : CampaignService.create_campaign "k9" Example.now " Summer sale "
                " Dear {name}" Example.in_ankara Example.system
              = (Ok campaign, st')) by (vm_compute; reflexivity).
  split; [exact H |].
  destruct (created_campaign_is_trimmed "k9" Example.now " Summer sale "
              " Dear {name}" Example.in_ankara Example.system st' campaign H)
    as (H1 & H2 & _).
  split; [exact H1 | exact H2].
Defined.

Lemma launch_campaign_all_refused_witness :
  exists result st',
    CampaignService.launch_campaign Example.refusing_smtp Example.now "k1"
      true Example.system = (Ok result, st') /\
    result !! "emails_sent" = Some (AInt 0) /\
    result !! "emails_failed" = Some (AInt 2) /\
    CampaignService.launch_campaign Example.refusing_smtp Example.now "k1"
      false st' = (Raise CampaignService.already_sent, st').
Proof.
  destruct (launch_campaign_all_refused Example.refusing_smtp Example.now
              "k1" Example.system Example.draft [Example.alice; Example.bob])
    as (result & st' & stored & H1 & _ & H2 & H3 & _ & _ & _ & _ & H4).
  - reflexivity.
  - reflexivity.
  - vm_compute; reflexivity.
  - reflexivity.
  - vm_compute; reflexivity.
  - discriminate.
  - exists result, st'. split; [exact H1 |]. split; [exact H2 |].
    split; [exact H3 | apply H4].
Defined.

(** ** Instances of the statements that hold without a hypothesis *)

Lemma delete_removes_every_match_witness :
  JsonRepository.get_by_id Customer.from_dict
    (snd (JsonRepository.delete Example.customers_file "c2")) "c2" = Ok None /\
  JsonRepository.get_by_id Customer.from_dict
    (snd (JsonRepository.delete Example.customers_file "c2")) "c1"
  = JsonRepository.get_by_id Customer.from_dict Example.customers_file "c1".
Proof.
  pose proof (delete_removes_every_match Customer.from_dict
                Example.customers_file "c2") as H.
  cbv zeta in H. destruct H as (H1 & H2 & _).
  split; [exact H1 | apply H2; discriminate].
Defined.

Lemma update_touches_one_document_witness :
  JsonRepository.update Customer.to_dict Example.customers_file "c9"
    Example.alice = (None, Example.customers_file).
Proof.
  destruct (update_touches_one_document Customer.from_dict Customer.to_dict
              Example.customers_file "c9" Example.alice) as [H _].
  apply H. vm_compute; reflexivity.
Defined.

Lemma get_all_count_find_witness :
  length Example.customers = JsonRepository.count Example.customers_file /\
  JsonRepository.find Customer.from_dict Example.customers_file
    Customer.is_active
  = Ok (List.filter Customer.is_active Example.customers).
Proof.
  destruct (get_all_count_find Customer.from_dict Example.customers_file
              Customer.is_active) as [H _].
  destruct (H Example.customers ltac:(vm_compute; reflexivity))
    as (H1 & H2 & _).
  split; [exact H1 | exact H2].
Defined.

Lemma Customer_from_dict_reads_eight_keys_witness :
  Customer.from_dict (delete "email" (Customer.to_dict Example.alice))
  = Raise (KeyError "email").
Proof.
  destruct Customer_from_dict_reads_eight_keys as [H _].
  apply H. right. right. left. reflexivity.
Defined.

Lemma launch_campaign_frame_witness :
  CampaignService.get_campaign_by_id Example.now
    (campaigns_json
       (snd (CampaignService.launch_campaign Example.refusing_smtp Example.now
               "k1" true Example.system))) "k2"
  = CampaignService.get_campaign_by_id Example.now Example.campaigns_file "k2" /\
  snd (CampaignService.launch_campaign Example.refusing_smtp Example.now
         "k3" true Example.system) = Example.system.
Proof.
  pose proof (launch_campaign_frame Example.refusing_smtp Example.now "k1"
                true Example.system) as H.
  cbv zeta in H. destruct H as (_ & _ & H & _).
  pose proof (launch_campaign_frame Example.refusing_smtp Example.now "k3"
                true Example.system) as H'.
  cbv zeta in H'. destruct H' as (_ & _ & _ & _ & H').
  split; [apply H; discriminate |].
  apply (H' (Some Example.delivered) Example.customers
            CampaignService.already_sent); vm_compute; reflexivity.
Defined.

Lemma simulate_engagement_frame_witness :
  JsonRepository.get_by_id (Campaign.from_dict Example.now)
    (snd (AnalyticsService.simulate_engagement Example.now "k4" (lit 405 3)
            (lit 1 1) Example.campaigns_file)) "k3"
  = JsonRepository.get_by_id (Campaign.from_dict Example.now)
      Example.campaigns_file "k3".
Proof.
  pose proof (simulate_engagement_frame Example.now "k4" (lit 405 3) (lit 1 1)
                Example.campaigns_file) as H.
  cbv zeta in H. destruct H as (_ & H & _).
  apply H. discriminate.
Defined.

(** ** An activity flag that is not a boolean *)

Section Flags.
Import SegmentationService.

Lemma matches_flag customer (criteria : pydict) a :
  criteria !! "is_active" = Some a -> a <> ANone ->
  _matches_criteria customer criteria = Ok true ->
  PyVal.bool_ne (Customer.is_active customer) a = false.
Proof.
  intros Hc Ha H. unfold _matches_criteria in H.
  do 7 (apply reject_if_true_inv in H as [_ H]).
  apply reject_if_true_inv in H as [H _].
  unfold bound in H. rewrite Hc in H.
  destruct a; try congruence; cbn [PyVal.is_not_none] in H; congruence.
Qed.

(** X24. The [is_active] criterion is compared with [!=] and never raises.
    A text there, such as ['true'], or a number other than 0 and 1, is
    different from both booleans, so the segment is empty; 1 selects as
    [True] does and 0 as [False] does. *)
Theorem is_active_compared_by_value (customers_json : file)
    (criteria : pydict) a segment :
  criteria !! "is_active" = Some a ->
  filter_customers customers_json criteria = Ok segment ->
  match a with
  | AStr _ => segment = []
  | AInt z =>
      if z =? 1 then forall c, In c segment -> Customer.is_active c = true
      else if z =? 0
           then forall c, In c segment -> Customer.is_active c = false
           else segment = []
  | ABool flag => forall c, In c segment -> Customer.is_active c = flag
  | _ => True
  end.
Proof.
  intros Hc Hf. unfold filter_customers in Hf.
  apply bind_Ok_inv in Hf as (all_customers & _ & Hf).
  destruct (filter_loop_inv _ _ _ Hf) as (p & -> & Hp).
  assert (Hall : a <> ANone -> forall c,
            In c (List.filter p all_customers) ->
            PyVal.bool_ne (Customer.is_active c) a = false).
  { intros Ha c Hin. apply filter_In in Hin as [Hin Hpc].
    apply (matches_flag c criteria a Hc Ha). rewrite (Hp c Hin), Hpc.
    reflexivity. }
  assert (Hnone : (forall c, PyVal.bool_ne (Customer.is_active c) a = true) ->
                  a <> ANone -> List.filter p all_customers = []).
  { intros Hne Ha. destruct (List.filter p all_customers) as [| c l] eqn:E;
      [reflexivity |].
    specialize (Hall Ha c (or_introl eq_refl)). rewrite Hne in Hall.
    discriminate. }
  destruct a as [| flag | z | x | s]; try exact I.
  - intros c Hin. specialize (Hall ltac:(discriminate) c Hin).
    destruct (Customer.is_active c), flag; try reflexivity;
      vm_compute in Hall; discriminate Hall.
  - destruct (Z.eqb_spec z 1) as [-> | H1];
      [| destruct (Z.eqb_spec z 0) as [-> | H0]].
    + intros c Hin. specialize (Hall ltac:(discriminate) c Hin).
      destruct (Customer.is_active c); [reflexivity |].
      vm_compute in Hall. discriminate Hall.
    + intros c Hin. specialize (Hall ltac:(discriminate) c Hin).
      destruct (Customer.is_active c); [| reflexivity].
      vm_compute in Hall. discriminate Hall.
    + apply Hnone; [| discriminate]. intros c.
      unfold PyVal.bool_ne, PyVal.to_num, PyNum.eqb, PyNum.compare.
      destruct (Customer.is_active c).
      * destruct (Z.compare_spec 1 z); try reflexivity. congruence.
      * destruct (Z.compare_spec 0 z); try reflexivity. congruence.
  - apply Hnone; [| discriminate]. intros c. reflexivity.
Qed.

End Flags.

Lemma is_active_compared_by_value_witness :
  SegmentationService.filter_customers Example.customers_file
    {["is_active" := AStr "true"]} = Ok [] /\
  (forall c, In c [Example.alice] -> Customer.is_active c = true).
Proof.
  assert (H : SegmentationService.filter_customers Example.customers_file
                {["is_active" := AStr "true"]} = Ok [])
    by (vm_compute; reflexivity).
  split; [exact H |].
  apply (is_active_compared_by_value Example.customers_file
           (<["is_active" := AInt 1]> Example.in_ankara) (AInt 1)
           [Example.alice]); vm_compute; reflexivity.
Defined.

(** ** From launch to report *)

Section Pipeline.
Context {World : Type}.
Import CampaignService AnalyticsService.

(** X25. Launch, simulation and report compose. After a launch with the
    mock provider of a campaign that has no engagement and no [failed]
    counter yet, over a segment of fewer than [2^53] customers, a simulation
    with rates drawn from the two intervals runs, and the report that
    follows is computed without error: [sent] is the size of the segment,
    [0 <= clicked <= opened <= sent], no failure is counted and the
    delivery rate is 100.0. *)
Theorem launch_simulate_report
    (smtp : message -> World -> bool * World) now campaign_id
    (st : sys World) campaign segment open_rate click_rate :
  DateTime.valid now = true ->
  get_campaign_by_id now (campaigns_json st) campaign_id = Ok (Some campaign) ->
  String.eqb (Campaign.status campaign) "Sent" = false ->
  SegmentationService.filter_customers (customers_json st)
    (Campaign.target_segment_criteria campaign) = Ok segment ->
  segment <> [] -> Z.of_nat (length segment) < 2 ^ 53 ->
  stat (Campaign.stats campaign) "opened" = 0 ->
  stat (Campaign.stats campaign) "clicked" = 0 ->
  Campaign.stats campaign !! "failed" = None ->
  Spec.drawn_from (lit 25 2) (lit 65 2) open_rate = true ->
  Spec.drawn_from (lit 5 2) (lit 20 2) click_rate = true ->
  exists result st1 updated campaigns2 m,
    launch_campaign smtp now campaign_id false st = (Ok result, st1) /\
    simulate_engagement now campaign_id open_rate click_rate
      (campaigns_json st1) = (Ok updated, campaigns2) /\
    get_campaign_performance now campaign_id campaigns2
    = Ok (m, Campaign.title campaign, "Sent"%string,
          Campaign.target_segment_criteria campaign) /\
    m_sent m = Z.of_nat (length segment) /\
    0 <= m_clicked m <= m_opened m /\ m_opened m <= m_sent m /\
    m_failed m = 0 /\
    AnalyticsService.delivery_rate m = NFloat (of_Z_raw 100).
Proof.
  intros Hnow Hget Hst Hseg Hne Hlen Ho Hc Hf H1 H2.
  destruct (launch_campaign_runs smtp now campaign_id false st campaign segment
              Hnow Hget Hst Hseg Hne) as (f & Hl & Hread).
  cbn [EmailService.create_provider] in Hl, Hread.
  rewrite deliveries_mock in Hl, Hread. cbn [fst snd] in Hl, Hread.
  destruct (successes_all_true (message_for campaign <$> segment)) as [Hs _].
  rewrite length_fmap in Hs. rewrite Hs in Hl, Hread. clear Hs.
  set (n := Z.of_nat (length segment)) in *.
  assert (Hn : 0 < n < 2 ^ 53).
  { unfold n. destruct segment; [congruence | simpl length in *; lia]. }
  set (sent_campaign := launched campaign n) in *.
  specialize (Hread now). unfold get_campaign_by_id in Hread.
  assert (Hs1 : stat (Campaign.stats sent_campaign) "sent" = n)
    by apply stat_insert_eq.
  assert (Ho1 : stat (Campaign.stats sent_campaign) "opened" = 0).
  { cbn [sent_campaign launched Campaign.stats].
    rewrite stat_insert_ne by discriminate. exact Ho. }
  assert (Hc1 : stat (Campaign.stats sent_campaign) "clicked" = 0).
  { cbn [sent_campaign launched Campaign.stats].
    rewrite stat_insert_ne by discriminate. exact Hc. }
  (* the simulation *)
  edestruct (drawn_from_inv (lit 25 2) (lit 65 2) open_rate)
    as (m1 & e1 & Er1 & Hm1 & He1);
    [vm_compute; reflexivity | vm_compute; reflexivity | exact H1 |].
  edestruct (drawn_from_inv (lit 5 2) (lit 20 2) click_rate)
    as (m2 & e2 & Er2 & Hm2 & He2);
    [vm_compute; reflexivity | vm_compute; reflexivity | exact H2 |].
  assert (Hpow : forall e, e <= -53 -> 2 ^ 53 <= 2 ^ (- e - 0))
    by (intros e He; apply Z.pow_le_mono_r; lia).
  set (o := Spec.floor_of_product n open_rate).
  set (k := Spec.floor_of_product o click_rate).
  assert (Hob : 0 <= o <= n).
  { unfold o. rewrite Er1.
    destruct (floor_of_product_le n m1 e1 0) as [A B];
      [lia | lia | lia | specialize (Hpow e1 He1); lia |].
    change (2 ^ 0) with 1 in B. lia. }
  assert (Hkb : 0 <= k <= o).
  { unfold k. rewrite Er2.
    destruct (floor_of_product_le o m2 e2 0) as [A B];
      [lia | lia | lia | specialize (Hpow e2 ltac:(lia)); lia |].
    change (2 ^ 0) with 1 in B. lia. }
  set (updated := simulated sent_campaign o k).
  pose proof (get_by_id_id _ _ _ _ Hread) as Hid.
  pose proof (get_by_id_valid _ _ _ _ Hnow Hread) as Hv.
  destruct (get_by_id_update (Campaign.from_dict now) Campaign.to_dict
              f campaign_id sent_campaign updated Hread)
    as (f2 & Hu & Hread2).
  { rewrite <- Hid. apply (has_id_to_dict updated). }
  { apply Campaign_roundtrip. exact Hv. }
  eexists _, _, updated, f2, _. split; [exact Hl |]. cbn [campaigns_json].
  split.
  { unfold simulate_engagement. rewrite Hread. rewrite Hs1, Ho1, Hc1.
    replace (n >? 0) with true by (symmetry; apply Z.gtb_lt; lia).
    cbn [andb Z.eqb].
    rewrite (simulated_counts n open_rate click_rate Hn H1 H2).
    fold o k updated. rewrite Hu. reflexivity. }
  assert (Us : stat (Campaign.stats updated) "sent" = n).
  { cbn [updated simulated Campaign.stats].
    rewrite !stat_insert_ne by discriminate. exact Hs1. }
  assert (Uo : stat (Campaign.stats updated) "opened" = o).
  { cbn [updated simulated Campaign.stats].
    rewrite stat_insert_ne by discriminate. apply stat_insert_eq. }
  assert (Uk : stat (Campaign.stats updated) "clicked" = k)
    by apply stat_insert_eq.
  assert (Uf : stat (Campaign.stats updated) "failed" = 0).
  { cbn [updated simulated sent_campaign launched Campaign.stats].
    rewrite !stat_insert_ne by discriminate. unfold stat. rewrite Hf.
    reflexivity. }
  unfold get_campaign_performance. rewrite Hread2.
  rewrite compute_metrics_performance;
    rewrite ?Us, ?Uo, ?Uk, ?Uf; unfold Spec.counter; try lia.
  split; [reflexivity |].
  cbn [Spec.performance m_sent m_opened m_clicked m_failed
       AnalyticsService.delivery_rate].
  split; [reflexivity |]. split; [lia |]. split; [lia |].
  split; [reflexivity |].
  rewrite Z.add_0_r, percent_same by lia. vm_compute. reflexivity.
Qed.

End Pipeline.

Lemma launch_simulate_report_witness :
  exists result st1 updated campaigns2 m,
    CampaignService.launch_campaign Example.refusing_smtp Example.now "k1"
      false Example.system = (Ok result, st1) /\
    AnalyticsService.simulate_engagement Example.now "k1" (lit 5 1) (lit 1 1)
      (campaigns_json st1) = (Ok updated, campaigns2) /\
    AnalyticsService.get_campaign_performance Example.now "k1" campaigns2
    = Ok (m, "Spring sale"%string, "Sent"%string, Example.in_ankara) /\
    AnalyticsService.m_sent m = 2.
Proof.
  destruct (launch_simulate_report Example.refusing_smtp Example.now "k1"
              Example.system Example.draft [Example.alice; Example.bob]
              (lit 5 1) (lit 1 1))
    as (result & st1 & updated & campaigns2 & m & A & B & C & D & _).
  - reflexivity.
  - vm_compute; reflexivity.
  - reflexivity.
  - vm_compute; reflexivity.
  - discriminate.
  - vm_compute; reflexivity.
  - vm_compute; reflexivity.
  - vm_compute; reflexivity.
  - vm_compute; reflexivity.
  - vm_compute; reflexivity.
  - vm_compute; reflexivity.
  - exists result, st1, updated, campaigns2, m.
    split; [exact A |]. split; [exact B |]. split; [exact C | exact D].
Defined.
